(** * github-repo-report-bot: the PR scoring and classification pipeline

    A shallow embedding of the decision logic of [src/analyzer.py], of the
    issue partitioner of [src/main.py] and of the degradation paths of
    [src/qwen_client.py], with the properties the specification states
    about them; then of the throttle, the pull-request filter, the token
    resolution and the paginated listing of [src/github_client.py], with
    properties read off the code.

    Conventions of the embedding:
    - a Python [int] is a [Z]; a Python [float] is an IEEE-754 binary64
      number, taken from [SpecFloat] with [prec = 53] and [emax = 1024];
    - a Python [str] is a [string] holding its UTF-8 bytes, except in the
      regular-expression part, where a text is a list of code points;
    - a call that may raise returns a [result]: [Ok v] or [Raise e]. *)

From Stdlib Require Import ZArith QArith Qround Lia List String Ascii Bool.
From Stdlib Require Import Floats.SpecFloat.
From stdpp Require Import base option list gmap strings.
Import ListNotations.

Local Open Scope string_scope.
Local Open Scope Z_scope.

(* ================================================================== *)
(** * Exceptions and results *)
(* ================================================================== *)

Module Py.

(** The exception classes the modelled code can meet. *)
Inductive exn_class :=
| TypeError | ValueError | OverflowError | AttributeError
| IndexError | KeyError | RequestException | JSONDecodeError.

(** An exception: its class and the text [str(exc)] gives. *)
Record exn := Exn { exn_cls : exn_class; exn_msg : string }.

Inductive result (A : Type) :=
| Ok (v : A)
| Raise (e : exn).
Arguments Ok {A} v.
Arguments Raise {A} e.

Definition bind {A B} (r : result A) (k : A -> result B) : result B :=
  match r with
  | Ok v => k v
  | Raise e => Raise e
  end.

(** [try: body except Exception as exc: handler exc] *)
Definition try_except {A} (body : result A) (handler : exn -> A) : A :=
  match body with
  | Ok v => v
  | Raise e => handler e
  end.

Definition raises {A} (r : result A) : Prop :=
  match r with
  | Ok _ => False
  | Raise _ => True
  end.

End Py.

Import Py.

#[global] Instance result_ret : MRet result := fun _ v => Ok v.
#[global] Instance result_bind : MBind result := fun _ _ k r => Py.bind r k.

(* ================================================================== *)
(** * Binary64 floats *)
(* ================================================================== *)

Module F64.

Definition prec : Z := 53.
Definition emax : Z := 1024.

Definition float := spec_float.

Definition fadd : float -> float -> float := SFadd prec emax.
Definition fsub : float -> float -> float := SFsub prec emax.
Definition fmul : float -> float -> float := SFmul prec emax.
Definition fdiv : float -> float -> float := SFdiv prec emax.
Definition flt : float -> float -> bool := SFltb.
Definition fle : float -> float -> bool := SFleb.
(** [x > y] *)
Definition fgt (x y : float) : bool := SFltb y x.

Definition is_nan (x : float) : bool :=
  match x with
  | S754_nan => true
  | _ => false
  end.

Definition is_finite (x : float) : bool :=
  match x with
  | S754_zero _ | S754_finite _ _ _ => true
  | _ => false
  end.

(** The binary64 number nearest to the integer [z] (ties to even); an
    infinity when [z] is out of range. *)
Definition of_Z (z : Z) : float := binary_normalize prec emax z 0 false.

(** [float(z)] for a Python int: correctly rounded, [OverflowError] when
    the int is too large. *)
Definition float_of_int (z : Z) : result float :=
  match of_Z z with
  | S754_infinity _ =>
      Raise (Exn OverflowError "int too large to convert to float")
  | f => Ok f
  end.

(** A decimal literal [num/den] of the source text, e.g. [0.05] is
    [lit 5 100]: the nearest binary64 number. *)
Definition lit (num den : Z) : float := fdiv (of_Z num) (of_Z den).

(** The real number a float denotes (0 for the non-finite ones). *)
Definition to_Q (x : float) : Q :=
  match x with
  | S754_finite s m e =>
      let n := (if s then Z.neg m else Z.pos m) in
      match e with
      | Z0 => inject_Z n
      | Zpos p => inject_Z (n * 2 ^ Zpos p)
      | Zneg p => Qmake n (2 ^ p)
      end
  | _ => 0%Q
  end.

(** Nearest integer to [n / 2^k], ties to even, for [n >= 0]. *)
Definition div_pow2_half_even (n : Z) (k : positive) : Z :=
  let d := 2 ^ Zpos k in
  let q := n / d in
  let r := n mod d in
  match (2 * r ?= d) with
  | Lt => q
  | Gt => q + 1
  | Eq => if Z.even q then q else q + 1
  end.

(** [round(x, 1)]: CPython prints [x] correctly rounded to one digit
    after the point (half to even on the exact binary value) and reads
    the decimal string back as the nearest float.  Non-finite values,
    zeros and integer-valued floats round to themselves. *)
Definition round1 (x : float) : float :=
  match x with
  | S754_finite s m (Zneg k) =>
      match div_pow2_half_even (10 * Zpos m) k with
      | Zpos n => fdiv (S754_finite s n 0) (of_Z 10)
      | _ => S754_zero s
      end
  | _ => x
  end.

End F64.

Import F64.

(* ================================================================== *)
(** * Scoring functions of analyzer.py *)
(* ================================================================== *)

Definition _type_score (pr_type : string) : Z :=
  let mapping : gmap string Z :=
    {[ "feat" := 10; "opt" := 8; "fix" := 6; "test" := 4; "docs" := 5 ]} in
  default 5 (mapping !! pr_type).

Definition _size_category_and_score (additions deletions : Z) : string * Z :=
  let lines := additions + deletions in
  if lines <? 50 then ("small", 5)
  else if lines <=? 200 then ("medium", 7)
  else ("large", 9).

Definition _priority (pr_type : string) : string :=
  if String.eqb pr_type "feat" then "P1"
  else if String.eqb pr_type "opt" then "P2"
  else if String.eqb pr_type "fix" || String.eqb pr_type "docs" then "P3"
  else if String.eqb pr_type "test" then "P4"
  else "P3".

(** The [weights] dictionary of [_calc_total_score]. *)
Record weight_table := {
  w_type : float; w_size : float; w_code : float; w_test : float;
  w_doc : float; w_security : float; w_merge : float; w_collab : float
}.

Definition weights : weight_table := {|
  w_type := lit 5 100;
  w_size := lit 5 100;
  w_code := lit 15 100;
  w_test := lit 15 100;
  w_doc := lit 15 100;
  w_security := lit 15 100;
  w_merge := lit 15 100;
  w_collab := lit 15 100
|}.

(** [score * 10 * w]: the product of the ints is an int, which is
    converted to a float for the product with the weight. *)
Definition weighted (score : Z) (w : float) : result float :=
  f ← float_of_int (score * 10); Ok (fmul f w).

(** [total += score * 10 * w] *)
Definition accumulate (total : float) (score : Z) (w : float) : result float :=
  t ← weighted score w; Ok (fadd total t).

Definition _calc_total_score
    (type_score size_score code_quality_score test_coverage_score
     doc_maintain_score compliance_security_score merge_history_score
     collaboration_score : Z) : result float :=
  let total := S754_zero false in
  total ← accumulate total type_score (w_type weights);
  total ← accumulate total size_score (w_size weights);
  total ← accumulate total code_quality_score (w_code weights);
  total ← accumulate total test_coverage_score (w_test weights);
  total ← accumulate total doc_maintain_score (w_doc weights);
  total ← accumulate total compliance_security_score (w_security weights);
  total ← accumulate total merge_history_score (w_merge weights);
  total ← accumulate total collaboration_score (w_collab weights);
  Ok (round1 total).

(** The three ratings: 优秀 (excellent), 良好 (good), 一般 (fair). *)
Definition excellent : string := "优秀".
Definition good : string := "良好".
Definition fair : string := "一般".

Definition _rating (total_score : float) : string :=
  if fgt total_score (of_Z 80) then excellent
  else if fgt total_score (of_Z 60) then good
  else fair.

(* ================================================================== *)
(** * The score as the specification words it *)
(* ================================================================== *)

Module ScoreSpec.

Local Open Scope Q_scope.

(** Nearest integer to a rational, ties to the even neighbour. *)
Definition round_half_even (q : Q) : Z :=
  let f := Qfloor q in
  match Qcompare (q - inject_Z f) (1 # 2) with
  | Lt => f
  | Gt => (f + 1)%Z
  | Eq => if Z.even f then f else (f + 1)%Z
  end.

(** A rational rounded to one decimal place. *)
Definition round_1dp (q : Q) : Q :=
  inject_Z (round_half_even (q * 10)) / 10.

(** Each input times 10, times its weight: 0.05 for type and size,
    0.15 for each of the six dimensions. *)
Definition weighted_sum (type_score size_score code_quality test_coverage
    doc_maintain compliance_security merge_history collaboration : Z) : Q :=
  inject_Z type_score * 10 * (5 # 100)
  + inject_Z size_score * 10 * (5 # 100)
  + inject_Z code_quality * 10 * (15 # 100)
  + inject_Z test_coverage * 10 * (15 # 100)
  + inject_Z doc_maintain * 10 * (15 # 100)
  + inject_Z compliance_security * 10 * (15 # 100)
  + inject_Z merge_history * 10 * (15 # 100)
  + inject_Z collaboration * 10 * (15 # 100).

End ScoreSpec.

(* ================================================================== *)
(** * Reachable totals of [_calc_total_score] *)
(* ================================================================== *)

(** Float addition is not associative, so the totals are followed
    through the eight additions: each stage keeps the finitely many
    pairs (exact total in half points, float total) that scores between
    0 and 10 can produce. *)
Module Reach.

Definition scores : list Z := [0; 1; 2; 3; 4; 5; 6; 7; 8; 9; 10].

Definition state : Type := Z * float.

Definition float_eq_dec (x y : float) : {x = y} + {x <> y}.
Proof.
  decide equality; try apply Bool.bool_dec;
    try apply Z.eq_dec; apply Pos.eq_dec.
Defined.

Definition state_eq_dec (x y : state) : {x = y} + {x <> y}.
Proof. decide equality; [apply float_eq_dec | apply Z.eq_dec]. Defined.

Definition step (w : float) (coef : Z) (st : state) (x : Z) : state :=
  (fst st + coef * x, fadd (snd st) (fmul (of_Z (x * 10)) w)).

Definition next (w : float) (coef : Z) (S : list state) : list state :=
  List.nodup state_eq_dec
    (List.flat_map (fun st => List.map (step w coef st) scores) S).

Definition stage0 : list state := [(0, S754_zero false)].
Definition stage1 := next (w_type weights) 1 stage0.
Definition stage2 := next (w_size weights) 1 stage1.
Definition stage3 := next (w_code weights) 3 stage2.
Definition stage4 := next (w_test weights) 3 stage3.
Definition stage5 := next (w_doc weights) 3 stage4.
Definition stage6 := next (w_security weights) 3 stage5.
Definition stage7 := next (w_merge weights) 3 stage6.
Definition stage8 := next (w_collab weights) 3 stage7.

(** What the final rounding must give on a reachable pair [(k, total)]:
    the finite float that is exactly [k/2], between 0 and 100. *)
Definition final_ok (st : state) : bool :=
  let r := round1 (snd st) in
  is_finite r && Qeq_bool (to_Q r) (fst st # 2)
  && fle (of_Z 0) r && fle r (of_Z 100).

End Reach.

(* ================================================================== *)
(** * Properties of the scoring functions *)
(* ================================================================== *)

Section ScoringProperties.

Import Reach ScoreSpec.

Lemma in_scores (x : Z) : 0 <= x <= 10 -> In x scores.
Proof.
  intros H. unfold scores.
  assert (x = 0 \/ x = 1 \/ x = 2 \/ x = 3 \/ x = 4 \/ x = 5 \/ x = 6
          \/ x = 7 \/ x = 8 \/ x = 9 \/ x = 10) as Hx by lia.
  simpl. intuition auto.
Qed.

(** For a score between 0 and 10 the conversion to float cannot
    overflow, so the accumulation is one multiplication and one
    addition. *)
Lemma accumulate_in_range (total : float) (x : Z) (w : float) :
  0 <= x <= 10 ->
  accumulate total x w = Ok (fadd total (fmul (of_Z (x * 10)) w)).
Proof.
  intros H. apply in_scores in H. unfold accumulate, weighted.
  assert (float_of_int (x * 10) = Ok (of_Z (x * 10))) as ->; [|reflexivity].
  unfold scores in H. simpl in H.
  repeat (destruct H as [<- | H]; [vm_compute; reflexivity|]).
  destruct H.
Qed.

Lemma next_step (w : float) (coef : Z) (S : list state) (st : state) (x : Z) :
  In st S -> 0 <= x <= 10 -> In (step w coef st x) (next w coef S).
Proof.
  intros Hst Hx. unfold next.
  apply List.nodup_In, List.in_flat_map.
  exists st. split; [assumption|].
  apply List.in_map, in_scores, Hx.
Qed.

Lemma stage8_final_ok : List.forallb final_ok stage8 = true.
Proof. vm_compute. reflexivity. Qed.

Lemma round_half_even_int (q : Q) (n : Z) :
  (q == inject_Z n)%Q -> round_half_even q = n.
Proof.
  intros Hq. unfold round_half_even.
  assert (Qfloor q = n) as Hf.
  { rewrite (Qfloor_comp _ _ Hq). apply Qfloor_Z. }
  rewrite Hf.
  assert (Qcompare (q - inject_Z n) (1 # 2) = Lt) as ->; [|reflexivity].
  rewrite <- Qlt_alt. rewrite Hq.
  unfold Qlt, Qminus, Qplus, Qopp, inject_Z; simpl. lia.
Qed.

Lemma round_1dp_weighted_sum (t s c1 c2 c3 c4 c5 c6 : Z) :
  (round_1dp (weighted_sum t s c1 c2 c3 c4 c5 c6)
   == (t + s + 3 * (c1 + c2 + c3 + c4 + c5 + c6)) # 2)%Q.
Proof.
  unfold round_1dp.
  rewrite (round_half_even_int _
             (5 * (t + s + 3 * (c1 + c2 + c3 + c4 + c5 + c6)))).
  - unfold Qeq, Qdiv, Qmult, Qinv, inject_Z; simpl. lia.
  - unfold weighted_sum, Qeq, Qmult, Qplus, inject_Z; simpl. lia.
Qed.

Lemma accumulate_step (w : float) (coef : Z) (st : state) (x : Z) :
  0 <= x <= 10 ->
  accumulate (snd st) x w = Ok (snd (step w coef st x)).
Proof. intros H. rewrite (accumulate_in_range _ _ _ H). reflexivity. Qed.

Lemma final_ok_spec (st : state) :
  final_ok st = true ->
  is_finite (round1 (snd st)) = true
  /\ (to_Q (round1 (snd st)) == fst st # 2)%Q
  /\ fle (of_Z 0) (round1 (snd st)) = true
  /\ fle (round1 (snd st)) (of_Z 100) = true.
Proof.
  unfold final_ok. intros H.
  apply andb_prop in H as [H Hle100].
  apply andb_prop in H as [H Hle0].
  apply andb_prop in H as [Hfin Heq].
  apply Qeq_bool_iff in Heq. auto.
Qed.

(** The total before rounding is one of the reachable ones. *)
Lemma calc_total_score_reachable (t s c1 c2 c3 c4 c5 c6 : Z) :
  0 <= t <= 10 -> 0 <= s <= 10 -> 0 <= c1 <= 10 -> 0 <= c2 <= 10 ->
  0 <= c3 <= 10 -> 0 <= c4 <= 10 -> 0 <= c5 <= 10 -> 0 <= c6 <= 10 ->
  exists st : state,
    In st stage8
    /\ fst st = t + s + 3 * (c1 + c2 + c3 + c4 + c5 + c6)
    /\ _calc_total_score t s c1 c2 c3 c4 c5 c6 = Ok (round1 (snd st)).
Proof.
  intros Ht Hs H1 H2 H3 H4 H5 H6.
  set (st0 := (0, S754_zero false) : state).
  set (st1 := step (w_type weights) 1 st0 t).
  set (st2 := step (w_size weights) 1 st1 s).
  set (st3 := step (w_code weights) 3 st2 c1).
  set (st4 := step (w_test weights) 3 st3 c2).
  set (st5 := step (w_doc weights) 3 st4 c3).
  set (st6 := step (w_security weights) 3 st5 c4).
  set (st7 := step (w_merge weights) 3 st6 c5).
  set (st8 := step (w_collab weights) 3 st7 c6).
  exists st8. split; [|split].
  - assert (In st0 stage0) as R0 by (left; reflexivity).
    pose proof (next_step (w_type weights) 1 _ _ _ R0 Ht) as R1.
    pose proof (next_step (w_size weights) 1 _ _ _ R1 Hs) as R2.
    pose proof (next_step (w_code weights) 3 _ _ _ R2 H1) as R3.
    pose proof (next_step (w_test weights) 3 _ _ _ R3 H2) as R4.
    pose proof (next_step (w_doc weights) 3 _ _ _ R4 H3) as R5.
    pose proof (next_step (w_security weights) 3 _ _ _ R5 H4) as R6.
    pose proof (next_step (w_merge weights) 3 _ _ _ R6 H5) as R7.
    exact (next_step (w_collab weights) 3 _ _ _ R7 H6).
  - unfold st8, st7, st6, st5, st4, st3, st2, st1, st0, step.
    cbn [fst]. lia.
  - unfold _calc_total_score.
    change (S754_zero false) with (snd st0).
    rewrite (accumulate_step (w_type weights) 1 st0 t Ht).
    cbn [mbind result_bind Py.bind]. fold st1.
    rewrite (accumulate_step (w_size weights) 1 st1 s Hs).
    cbn [mbind result_bind Py.bind]. fold st2.
    rewrite (accumulate_step (w_code weights) 3 st2 c1 H1).
    cbn [mbind result_bind Py.bind]. fold st3.
    rewrite (accumulate_step (w_test weights) 3 st3 c2 H2).
    cbn [mbind result_bind Py.bind]. fold st4.
    rewrite (accumulate_step (w_doc weights) 3 st4 c3 H3).
    cbn [mbind result_bind Py.bind]. fold st5.
    rewrite (accumulate_step (w_security weights) 3 st5 c4 H4).
    cbn [mbind result_bind Py.bind]. fold st6.
    rewrite (accumulate_step (w_merge weights) 3 st6 c5 H5).
    cbn [mbind result_bind Py.bind]. fold st7.
    rewrite (accumulate_step (w_collab weights) 3 st7 c6 H6).
    reflexivity.
Qed.
(** C1. For scores between 0 and 10 (the type and size scores lie in
    that range too), [_calc_total_score] returns a finite float whose
    exact value is the weighted sum (each input times 10 times its
    weight, 0.05 for type and size and 0.15 for each dimension) rounded
    to one decimal place, and that lies between 0 and 100. *)
Theorem calc_total_score_weighted_sum
    (type_score size_score code_quality test_coverage doc_maintain
     compliance_security merge_history collaboration : Z) :
  0 <= type_score <= 10 -> 0 <= size_score <= 10 ->
  0 <= code_quality <= 10 -> 0 <= test_coverage <= 10 ->
  0 <= doc_maintain <= 10 -> 0 <= compliance_security <= 10 ->
  0 <= merge_history <= 10 -> 0 <= collaboration <= 10 ->
  exists total : float,
    _calc_total_score type_score size_score code_quality test_coverage
      doc_maintain compliance_security merge_history collaboration
    = Ok total
    /\ is_finite total = true
    /\ (to_Q total
        == round_1dp (weighted_sum type_score size_score code_quality
                        test_coverage doc_maintain compliance_security
                        merge_history collaboration))%Q
    /\ fle (of_Z 0) total = true
    /\ fle total (of_Z 100) = true.
Proof.
  intros Ht Hs H1 H2 H3 H4 H5 H6.
  destruct (calc_total_score_reachable _ _ _ _ _ _ _ _
              Ht Hs H1 H2 H3 H4 H5 H6) as (st & Hin & Hfst & Hcalc).
  pose proof stage8_final_ok as Hall.
  rewrite List.forallb_forall in Hall.
  destruct (final_ok_spec st (Hall st Hin)) as (Hfin & Heq & Hle0 & Hle100).
  exists (round1 (snd st)).
  split; [exact Hcalc|]. split; [exact Hfin|].
  split; [|split; [exact Hle0 | exact Hle100]].
  rewrite Heq, round_1dp_weighted_sum, Hfst. reflexivity.
Qed.

(** The end-to-end example of the specification: type score 10, size
    score 9 and six dimension scores of 7 give 72.5. *)
Lemma calc_total_score_witness :
  exists total : float,
    _calc_total_score 10 9 7 7 7 7 7 7 = Ok total
    /\ is_finite total = true
    /\ (to_Q total == round_1dp (weighted_sum 10 9 7 7 7 7 7 7))%Q
    /\ fle (of_Z 0) total = true
    /\ fle total (of_Z 100) = true.
Proof.
  apply (calc_total_score_weighted_sum 10 9 7 7 7 7 7 7); lia.
Defined.

(** C3. With [lines = additions + deletions]: below 50 lines the size
    is (small, 5); from 50 to 200 lines, both ends included, it is
    (medium, 7); above 200 lines it is (large, 9). *)
Theorem size_category_and_score_thresholds (additions deletions : Z) :
  let lines := additions + deletions in
  (lines < 50 ->
     _size_category_and_score additions deletions = ("small", 5))
  /\ (50 <= lines <= 200 ->
     _size_category_and_score additions deletions = ("medium", 7))
  /\ (200 < lines ->
     _size_category_and_score additions deletions = ("large", 9)).
Proof.
  intros lines. unfold _size_category_and_score. fold lines.
  repeat split; intros H.
  - destruct (Z.ltb_spec lines 50); [reflexivity | lia].
  - destruct (Z.ltb_spec lines 50); [lia|].
    destruct (Z.leb_spec lines 200); [reflexivity | lia].
  - destruct (Z.ltb_spec lines 50); [lia|].
    destruct (Z.leb_spec lines 200); [lia | reflexivity].
Qed.

(** Comparing the other way round gives the opposite answer. *)
Lemma SFcompare_antisym (x y : float) (c : comparison) :
  SFcompare x y = Some c -> SFcompare y x = Some (CompOpp c).
Proof.
  destruct x as [sx | sx | | sx mx ex], y as [sy | sy | | sy my ey];
    simpl; try discriminate;
    try (destruct sx; intros [= <-]; reflexivity);
    try (destruct sy; intros [= <-]; reflexivity);
    try (destruct sx, sy; intros [= <-]; reflexivity).
  intros [= <-]. f_equal.
  rewrite (Z.compare_antisym ex ey).
  rewrite (Pos.compare_cont_antisym mx my Eq). simpl CompOpp at 1.
  destruct sx, sy; try reflexivity;
    destruct (ex ?= ey); simpl; try reflexivity.
  all: try (destruct (Pos.compare_cont Eq mx my); reflexivity).
  all: try (symmetry; exact (Pos.compare_cont_antisym mx my Eq)).
  all: try (rewrite <- (Pos.compare_cont_antisym mx my Eq); simpl; rewrite CompOpp_involutive; reflexivity).
Qed.

(** On numbers, [not (y < x)] is [x <= y]. *)
Lemma fgt_false_fle (x y : float) :
  is_nan x = false -> is_nan y = false ->
  fgt x y = false <-> fle x y = true.
Proof.
  intros Hx Hy. unfold fgt, fle, SFltb, SFleb.
  destruct (SFcompare x y) as [c|] eqn:E.
  - rewrite (SFcompare_antisym _ _ _ E).
    destruct c; simpl; split; congruence.
  - destruct x, y; simpl in *; discriminate.
Qed.

(** Below a positive finite number with a smaller exponent means not
    above one with a larger exponent. *)
Lemma fle_small_not_fgt_large (x : float) (ma mb : positive) (ea eb : Z) :
  ea < eb ->
  fle x (S754_finite false ma ea) = true ->
  fgt x (S754_finite false mb eb) = false.
Proof.
  intros Hlt. unfold fle, fgt, SFleb, SFltb.
  destruct x as [s | s | | s m e]; cbn [SFcompare]; try discriminate;
    try (destruct s; congruence).
  destruct s; [reflexivity|].
  destruct (e ?= ea) eqn:E.
  - apply Z.compare_eq in E. subst e.
    assert ((eb ?= ea) = Gt) as -> by (rewrite Z.compare_gt_iff; lia).
    reflexivity.
  - rewrite Z.compare_lt_iff in E.
    assert ((eb ?= e) = Gt) as -> by (rewrite Z.compare_gt_iff; lia).
    reflexivity.
  - discriminate.
Qed.

Lemma of_Z_60 : of_Z 60 = S754_finite false 8444249301319680 (-47).
Proof. vm_compute. reflexivity. Qed.

Lemma of_Z_80 : of_Z 80 = S754_finite false 5629499534213120 (-46).
Proof. vm_compute. reflexivity. Qed.

(** A number that is at most 60 is not above 80. *)
Lemma fle_60_not_fgt_80 (x : float) :
  fle x (of_Z 60) = true -> fgt x (of_Z 80) = false.
Proof.
  rewrite of_Z_60, of_Z_80. apply fle_small_not_fgt_large. lia.
Qed.

Lemma rating_names_differ : excellent <> good /\ excellent <> fair /\ good <> fair.
Proof. repeat split; discriminate. Qed.

(** C2. For every total score that is a number: the rating is 优秀
    (excellent) iff the score is above 80, 良好 (good) iff it is above 60
    and at most 80, and 一般 (fair) iff it is at most 60.  The bounds are
    strict, so 80.0 is rated good and 60.0 fair, while 80.1 is excellent
    and 60.1 good. *)
Theorem rating_tiers (total_score : float) :
  is_nan total_score = false ->
  (_rating total_score = excellent <-> fgt total_score (of_Z 80) = true)
  /\ (_rating total_score = good <->
        fgt total_score (of_Z 60) = true /\ fle total_score (of_Z 80) = true)
  /\ (_rating total_score = fair <-> fle total_score (of_Z 60) = true)
  /\ _rating (of_Z 80) = good
  /\ _rating (lit 801 10) = excellent
  /\ _rating (of_Z 60) = fair
  /\ _rating (lit 601 10) = good.
Proof.
  intros Hnum.
  destruct rating_names_differ as (Heg & Hef & Hgf).
  assert (is_nan (of_Z 80) = false) as N80 by (rewrite of_Z_80; reflexivity).
  assert (is_nan (of_Z 60) = false) as N60 by (rewrite of_Z_60; reflexivity).
  pose proof (fgt_false_fle total_score (of_Z 80) Hnum N80) as H80.
  pose proof (fgt_false_fle total_score (of_Z 60) Hnum N60) as H60.
  pose proof (fle_60_not_fgt_80 total_score) as H6080.
  split; [|split; [|split]].
  - unfold _rating.
    destruct (fgt total_score (of_Z 80)); [tauto|].
    destruct (fgt total_score (of_Z 60)); split; congruence.
  - unfold _rating.
    destruct (fgt total_score (of_Z 80)) eqn:E80.
    + split; [congruence|]. intros [_ Hle]. apply H80 in Hle. congruence.
    + destruct (fgt total_score (of_Z 60)) eqn:E60.
      * split; [|reflexivity]. intros _. split; [reflexivity|]. tauto.
      * split; [congruence|]. intros [Hgt _]. congruence.
  - unfold _rating.
    destruct (fgt total_score (of_Z 80)) eqn:E80.
    + split; [congruence|]. intros Hle. apply H6080 in Hle. congruence.
    + destruct (fgt total_score (of_Z 60)) eqn:E60.
      * split; [congruence|]. intros Hle. apply H60 in Hle. congruence.
      * split; [|reflexivity]. intros _. tauto.
  - repeat split; vm_compute; reflexivity.
Qed.

(** The score of the end-to-end example, 72.5, is rated good. *)
Lemma rating_tiers_witness :
  is_nan (lit 725 10) = false /\ _rating (lit 725 10) = good.
Proof.
  assert (is_nan (lit 725 10) = false) as H by (vm_compute; reflexivity).
  split; [exact H|].
  destruct (rating_tiers (lit 725 10) H) as (_ & Hgood & _).
  apply Hgood. split; vm_compute; reflexivity.
Defined.

End ScoringProperties.

(* ================================================================== *)
(** * Regular-expression substitution, as [_clean_references] uses it *)
(* ================================================================== *)

Module Re.

(** A text is a sequence of Unicode code points. *)
Definition char := N.
Definition text := list char.

Definition text_of (s : string) : text :=
  List.map N_of_ascii (list_ascii_of_string s).

(** The character tables of the Python runtime that the patterns consult:
    the classes behind [\d], [\w] and [\s], and which characters a
    pattern literal matches under [re.IGNORECASE].  They are not part of
    the repository, so the development is parametric in them. *)
Record tables := {
  is_digit : char -> bool;
  is_word : char -> bool;
  is_space : char -> bool;
  ci_eq : char -> char -> bool
}.

Inductive cls := Digit | Word | Space.

(** The patterns of [_clean_references] are sequences of literals and
    of greedy one-or-more repetitions of a class, captured or not:
    [(\w+)] is [Rep Word true], [\s+] is [Rep Space false]. *)
Inductive atom :=
| Lit (c : char)
| Rep (k : cls) (captured : bool).

Record pattern := {
  atoms : list atom;
  ignorecase : bool
}.

(** A replacement template: literal text and group references [\n]. *)
Inductive titem :=
| TLit (t : text)
| TGroup (n : nat).

Definition hash : char := 35%N.

Definition lits (s : string) : list atom := List.map Lit (text_of s).

Section Matching.

Variable T : tables.

Definition in_class (k : cls) (c : char) : bool :=
  match k with
  | Digit => is_digit T c
  | Word => is_word T c
  | Space => is_space T c
  end.

Definition lit_match (ic : bool) (p c : char) : bool :=
  if ic then ci_eq T p c else N.eqb p c.

(** Length of the longest prefix of [s] made of characters of [k]. *)
Fixpoint run_length (k : cls) (s : text) : nat :=
  match s with
  | c :: s' => if in_class k c then S (run_length k s') else O
  | [] => O
  end.

(** Try the lengths [n], [n-1], ..., 1 in turn: the first success wins. *)
Fixpoint try_lengths {A : Type} (attempt : nat -> option A) (n : nat)
    : option A :=
  match n with
  | O => None
  | S n' =>
      match attempt n with
      | Some r => Some r
      | None => try_lengths attempt n'
      end
  end.

(** Match the atoms at the start of [s]: a repetition first takes the
    longest run and gives characters back one at a time until the rest
    of the pattern matches.  Returns the groups and the text left. *)
Fixpoint match_here (ic : bool) (ats : list atom) (s : text)
    (groups : list text) {struct ats} : option (list text * text) :=
  match ats with
  | [] => Some (groups, s)
  | Lit p :: rest =>
      match s with
      | c :: s' =>
          if lit_match ic p c then match_here ic rest s' groups else None
      | [] => None
      end
  | Rep k captured :: rest =>
      try_lengths
        (fun n =>
           let groups' :=
             if captured then (groups ++ [List.firstn n s])%list
             else groups in
           match_here ic rest (List.skipn n s) groups')
        (run_length k s)
  end.

Definition expand (groups : list text) (template : list titem) : text :=
  List.flat_map
    (fun it =>
       match it with
       | TLit t => t
       | TGroup n => List.nth (Nat.pred n) groups []
       end) template.

(** [re.sub]: scan from the left; where the pattern matches, emit the
    expanded template and resume after the match, otherwise copy one
    character.  [skip] counts the characters of a match still to pass. *)
Fixpoint sub_from (p : pattern) (template : list titem) (s : text)
    (skip : nat) : text :=
  match s with
  | [] => []
  | c :: s' =>
      match skip with
      | S k => sub_from p template s' k
      | O =>
          match match_here (ignorecase p) (atoms p) s [] with
          | Some (groups, rest) =>
              (expand groups template
               ++ sub_from p template s'
                    (Nat.pred (List.length s - List.length rest)))%list
          | None => c :: sub_from p template s' O
          end
      end
  end.

Definition re_sub (p : pattern) (template : list titem) (s : text) : text :=
  sub_from p template s O.

(** The [patterns] list of [_clean_references], in source order. *)
Definition ref_tail : list atom := [Lit hash; Rep Digit true].

Definition word_ref : pattern * list titem :=
  ({| atoms := Rep Word true :: ref_tail; ignorecase := false |},
   [TGroup 1; TLit (text_of "-"); TGroup 2]).

Definition bare_ref : pattern * list titem :=
  ({| atoms := ref_tail; ignorecase := false |},
   [TLit (text_of "Item-"); TGroup 1]).

Definition issue_ref : pattern * list titem :=
  ({| atoms := (lits "issue" ++ Rep Space false :: ref_tail)%list;
      ignorecase := true |},
   [TLit (text_of "Issue-"); TGroup 1]).

Definition pr_ref : pattern * list titem :=
  ({| atoms := (lits "pr" ++ Rep Space false :: ref_tail)%list;
      ignorecase := true |},
   [TLit (text_of "PR-"); TGroup 1]).

Definition pull_request_ref : pattern * list titem :=
  ({| atoms := (lits "pull" ++ Rep Space false :: lits "request"
                ++ Rep Space false :: ref_tail)%list;
      ignorecase := true |},
   [TLit (text_of "PR-"); TGroup 1]).

Definition discussion_ref : pattern * list titem :=
  ({| atoms := (lits "discussion" ++ Rep Space false :: ref_tail)%list;
      ignorecase := true |},
   [TLit (text_of "Discussion-"); TGroup 1]).

Definition patterns : list (pattern * list titem) :=
  [word_ref; bare_ref; issue_ref; pr_ref; pull_request_ref; discussion_ref].

Definition _clean_references (s : text) : text :=
  List.fold_left (fun cleaned pt => re_sub (fst pt) (snd pt) cleaned)
    patterns s.

End Matching.

(** The tables on ASCII text, where they are beyond doubt: digits 0-9,
    word characters are letters, digits and the underscore, white space
    is space, tab, newline, vertical tab, form feed, carriage return
    and the four separators 28-31; case is ignored on letters. *)
Definition ascii_lower (c : char) : char :=
  if (65 <=? c)%N && (c <=? 90)%N then (c + 32)%N else c.

Definition ascii_tables : tables := {|
  is_digit := fun c => (48 <=? c)%N && (c <=? 57)%N;
  is_word := fun c =>
    (48 <=? c)%N && (c <=? 57)%N || (65 <=? c)%N && (c <=? 90)%N
    || (97 <=? c)%N && (c <=? 122)%N || (c =? 95)%N;
  is_space := fun c =>
    (c =? 32)%N || (9 <=? c)%N && (c <=? 13)%N
    || (28 <=? c)%N && (c <=? 31)%N;
  ci_eq := fun p c => (ascii_lower p =? ascii_lower c)%N
|}.

End Re.

(* ================================================================== *)
(** * Properties of [_clean_references] *)
(* ================================================================== *)

Section CleanReferences.

Import Re.

Variable T : tables.

(** What the proofs need to know of the tables: ['#'] is not a digit,
    ['I'] (the first letter of the replacement [Item-]) is not a digit,
    and ignoring case lets the literal ['#'] match only itself. *)
Record sane : Prop := {
  hash_not_digit : is_digit T hash = false;
  cap_I_not_digit : is_digit T 73%N = false;
  hash_ci : forall c, ci_eq T hash c = true -> c = hash
}.

Definition starts_digit (s : text) : bool :=
  match s with
  | d :: _ => is_digit T d
  | [] => false
  end.

(** Does the text hold a ['#'] immediately followed by a digit? *)
Fixpoint has_ref (s : text) : bool :=
  match s with
  | c :: s' => (N.eqb c hash && starts_digit s') || has_ref s'
  | [] => false
  end.

Lemma has_ref_skipn (n : nat) (s : text) :
  has_ref (List.skipn n s) = true -> has_ref s = true.
Proof.
  revert s. induction n as [|n IH]; intros [|c s]; simpl; auto.
  intros H. rewrite (IH _ H). apply orb_true_r.
Qed.

Lemma run_length_pos_starts (s : text) :
  run_length T Digit s <> O -> starts_digit s = true.
Proof.
  destruct s as [|c s]; simpl; [congruence|].
  destruct (is_digit T c); congruence.
Qed.

Lemma lit_match_hash (ic : bool) (c : char) :
  sane -> lit_match T ic hash c = true -> c = hash.
Proof.
  intros HT. unfold lit_match. destruct ic.
  - apply (hash_ci HT).
  - intros H. apply N.eqb_eq in H. congruence.
Qed.

(** The backtracking loop succeeds only through a successful attempt. *)
Lemma try_lengths_some {A : Type} (attempt : nat -> option A) (n : nat)
    (r : A) :
  try_lengths attempt n = Some r ->
  exists m : nat, m <> O /\ (m <= n)%nat /\ attempt m = Some r.
Proof.
  induction n as [|n IH]; simpl; [discriminate|].
  destruct (attempt (S n)) eqn:E.
  - intros [= <-]. exists (S n). repeat split; [lia | lia | exact E].
  - intros H. destruct (IH H) as (m & Hm & Hle & Hmatch).
    exists m. repeat split; [assumption | lia | assumption].
Qed.

(** The longest attempt wins when it succeeds. *)
Lemma try_lengths_first {A : Type} (attempt : nat -> option A) (n : nat)
    (r : A) :
  attempt (S n) = Some r -> try_lengths attempt (S n) = Some r.
Proof. intros H. simpl. rewrite H. reflexivity. Qed.


(** Every pattern of the list ends in [#(\d+)], so it can only match a
    text that holds a ['#'] followed by a digit. *)
Lemma match_needs_ref (ic : bool) (pre : list atom) (s : text)
    (groups : list text) (r : list text * text) :
  sane ->
  match_here T ic (pre ++ ref_tail)%list s groups = Some r ->
  has_ref s = true.
Proof.
  intros HT. revert s groups.
  induction pre as [|a pre IH]; intros s groups.
  - cbn [app ref_tail match_here].
    destruct s as [|c s]; [discriminate|].
    destruct (lit_match T ic hash c) eqn:E; [|discriminate].
    apply (lit_match_hash _ _ HT) in E. subst c.
    intros H. apply try_lengths_some in H as (m & Hm & Hle & _).
    cbn [has_ref]. rewrite N.eqb_refl.
    rewrite run_length_pos_starts; [reflexivity | lia].
  - destruct a as [p | k captured]; cbn [app match_here].
    + destruct s as [|c s]; [discriminate|].
      destruct (lit_match T ic p c); [|discriminate].
      intros H. cbn [has_ref]. rewrite (IH _ _ H). apply orb_true_r.
    + intros H. apply try_lengths_some in H as (m & _ & _ & H).
      apply IH in H. exact (has_ref_skipn _ _ H).
Qed.

(** A pattern that ends in [#(\d+)] leaves a text without references
    as it is. *)
Lemma sub_from_no_ref (p : pattern) (pre : list atom)
    (template : list titem) (s : text) :
  sane ->
  atoms p = (pre ++ ref_tail)%list ->
  has_ref s = false ->
  sub_from T p template s O = s.
Proof.
  intros HT Hp. induction s as [|c s IH]; intros Hs; [reflexivity|].
  cbn [sub_from].
  destruct (match_here T (ignorecase p) (atoms p) (c :: s) []) as [r|] eqn:E.
  - rewrite Hp in E. apply (match_needs_ref _ _ _ _ _ HT) in E. congruence.
  - f_equal. apply IH. cbn [has_ref] in Hs.
    apply orb_false_elim in Hs. tauto.
Qed.

(** Passing over the characters of a match is dropping them. *)
Lemma sub_from_skip (p : pattern) (template : list titem) (s : text)
    (k : nat) :
  sub_from T p template s k = sub_from T p template (List.skipn k s) O.
Proof.
  revert k. induction s as [|c s IH]; intros [|k]; try reflexivity.
  cbn [sub_from List.skipn]. apply IH.
Qed.

Lemma has_ref_app_no_hash (l s : text) :
  List.Forall (fun c => c <> hash) l ->
  has_ref (l ++ s)%list = has_ref s.
Proof.
  intros Hl. induction Hl as [|c l Hc Hl IH]; [reflexivity|].
  cbn [app has_ref].
  apply N.eqb_neq in Hc. rewrite Hc. cbn [andb orb]. exact IH.
Qed.

Lemma run_length_le (k : cls) (s : text) :
  (run_length T k s <= List.length s)%nat.
Proof.
  induction s as [|c s IH]; simpl; [lia|].
  destruct (in_class T k c); simpl; lia.
Qed.

Lemma run_length_firstn (k : cls) (s : text) :
  List.Forall (fun c => in_class T k c = true)
    (List.firstn (run_length T k s) s).
Proof.
  induction s as [|c s IH]; simpl; [constructor|].
  destruct (in_class T k c) eqn:E; simpl; constructor; assumption.
Qed.

(** The bare pattern [#(\d+)] at the head of a text. *)
Lemma match_bare (c : char) (s : text) :
  match_here T false ref_tail (c :: s) [] =
  if N.eqb hash c then
    match run_length T Digit s with
    | O => None
    | S n => Some ([List.firstn (S n) s], List.skipn (S n) s)
    end
  else None.
Proof.
  cbn [ref_tail match_here lit_match].
  destruct (N.eqb hash c); [|reflexivity].
  destruct (run_length T Digit s) as [|n]; reflexivity.
Qed.

Definition item : text := text_of "Item-".

(** One step of the substitution of the bare pattern. *)
Lemma sub_bare_cons (c : char) (s : text) :
  re_sub T (fst bare_ref) (snd bare_ref) (c :: s) =
  if N.eqb hash c && negb (Nat.eqb (run_length T Digit s) O) then
    (item ++ List.firstn (run_length T Digit s) s
     ++ re_sub T (fst bare_ref) (snd bare_ref)
          (List.skipn (run_length T Digit s) s))%list
  else c :: re_sub T (fst bare_ref) (snd bare_ref) s.
Proof.
  unfold re_sub. cbn [sub_from bare_ref fst snd atoms ignorecase].
  rewrite match_bare.
  destruct (N.eqb hash c); [|reflexivity].
  pose proof (run_length_le Digit s) as Hle.
  destruct (run_length T Digit s) as [|n] eqn:E; [reflexivity|].
  cbn [andb negb Nat.eqb].
  rewrite sub_from_skip.
  replace (Nat.pred (List.length (c :: s)
                     - List.length (List.skipn (S n) s))) with (S n).
  - cbn [expand List.flat_map List.nth Nat.pred]. unfold item.
    rewrite List.app_nil_r, <- List.app_assoc. reflexivity.
  - rewrite List.length_skipn. cbn [List.length]. lia.
Qed.

Lemma digit_not_hash (c : char) :
  sane -> is_digit T c = true -> c <> hash.
Proof. intros HT Hc ->. rewrite (hash_not_digit HT) in Hc. discriminate. Qed.

Lemma item_no_hash : List.Forall (fun c => c <> hash) item.
Proof. repeat constructor; discriminate. Qed.

(** After the bare pattern has been substituted, no ['#'] is followed
    by a digit, and the output starts with a digit only if the input
    did. *)
Lemma sub_bare_no_ref (m : nat) (s : text) :
  sane ->
  (List.length s <= m)%nat ->
  has_ref (re_sub T (fst bare_ref) (snd bare_ref) s) = false
  /\ (starts_digit (re_sub T (fst bare_ref) (snd bare_ref) s) = true ->
      starts_digit s = true).
Proof.
  intros HT. revert s. induction m as [|m IH]; intros [|c s] Hlen;
    try (split; [reflexivity | auto]); [cbn [List.length] in Hlen; lia|].
  cbn [List.length] in Hlen.
  rewrite sub_bare_cons.
  destruct (N.eqb hash c && negb (Nat.eqb (run_length T Digit s) O)) eqn:E.
  - pose proof (run_length_le Digit s) as Hle.
    destruct (IH (List.skipn (run_length T Digit s) s)) as [Href _].
    { rewrite List.length_skipn. lia. }
    split.
    + rewrite has_ref_app_no_hash by exact item_no_hash.
      rewrite has_ref_app_no_hash; [exact Href|].
      eapply List.Forall_impl; [|apply (run_length_firstn Digit)].
      intros d Hd. apply (digit_not_hash _ HT Hd).
    + cbn [item text_of list_ascii_of_string List.map app starts_digit].
      change (is_digit T 73%N = true -> starts_digit (c :: s) = true).
      rewrite (cap_I_not_digit HT). discriminate.
  - destruct (IH s) as [Href Hstart]; [lia|].
    split; [|exact (fun H => H)].
    cbn [has_ref]. rewrite Href, orb_false_r.
    destruct (N.eqb c hash) eqn:Ec; [|reflexivity].
    apply N.eqb_eq in Ec. subst c. rewrite N.eqb_refl in E.
    cbn [andb] in E. apply negb_false_iff, Nat.eqb_eq in E.
    destruct (starts_digit (re_sub T (fst bare_ref) (snd bare_ref) s))
      eqn:Es; [|reflexivity].
    specialize (Hstart eq_refl).
    destruct s as [|d s]; [discriminate|].
    cbn [run_length in_class starts_digit] in E, Hstart.
    rewrite Hstart in E. discriminate.
Qed.

Lemma clean_references_unfold (s : text) :
  _clean_references T s =
  re_sub T (fst discussion_ref) (snd discussion_ref)
    (re_sub T (fst pull_request_ref) (snd pull_request_ref)
       (re_sub T (fst pr_ref) (snd pr_ref)
          (re_sub T (fst issue_ref) (snd issue_ref)
             (re_sub T (fst bare_ref) (snd bare_ref)
                (re_sub T (fst word_ref) (snd word_ref) s))))).
Proof. reflexivity. Qed.

(** None of the six patterns changes a text without references. *)
Lemma re_sub_no_ref (pt : pattern * list titem) (s : text) :
  sane -> In pt patterns -> has_ref s = false ->
  re_sub T (fst pt) (snd pt) s = s.
Proof.
  intros HT Hin Hs. unfold re_sub.
  destruct Hin as [<- | [<- | [<- | [<- | [<- | [<- | []]]]]]].
  - apply (sub_from_no_ref _ [Rep Word true] _ _ HT); [reflexivity | exact Hs].
  - apply (sub_from_no_ref _ [] _ _ HT); [reflexivity | exact Hs].
  - apply (sub_from_no_ref _ (lits "issue" ++ [Rep Space false])%list _ _ HT);
      [reflexivity | exact Hs].
  - apply (sub_from_no_ref _ (lits "pr" ++ [Rep Space false])%list _ _ HT);
      [reflexivity | exact Hs].
  - apply (sub_from_no_ref _
             (lits "pull" ++ Rep Space false :: lits "request"
              ++ [Rep Space false])%list _ _ HT);
      [reflexivity | exact Hs].
  - apply (sub_from_no_ref _ (lits "discussion" ++ [Rep Space false])%list
             _ _ HT);
      [reflexivity | exact Hs].
Qed.

Lemma clean_references_no_ref_id (s : text) :
  sane -> has_ref s = false -> _clean_references T s = s.
Proof.
  intros HT Hs. rewrite clean_references_unfold.
  rewrite (re_sub_no_ref word_ref) by (simpl; auto 10).
  rewrite (re_sub_no_ref bare_ref) by (simpl; auto 10).
  rewrite (re_sub_no_ref issue_ref) by (simpl; auto 10).
  rewrite (re_sub_no_ref pr_ref) by (simpl; auto 10).
  rewrite (re_sub_no_ref pull_request_ref) by (simpl; auto 10).
  rewrite (re_sub_no_ref discussion_ref) by (simpl; auto 10).
  reflexivity.
Qed.

(** The four case-insensitive patterns never fire: the two patterns
    before them have used up every reference. *)
Lemma clean_references_two_passes (s : text) :
  sane ->
  _clean_references T s =
  re_sub T (fst bare_ref) (snd bare_ref)
    (re_sub T (fst word_ref) (snd word_ref) s).
Proof.
  intros HT. rewrite clean_references_unfold.
  set (t := re_sub T (fst bare_ref) (snd bare_ref) _).
  assert (has_ref t = false) as Ht
    by (apply (sub_bare_no_ref _ _ HT (Nat.le_refl _))).
  rewrite (re_sub_no_ref issue_ref) by (simpl; auto 10).
  rewrite (re_sub_no_ref pr_ref) by (simpl; auto 10).
  rewrite (re_sub_no_ref pull_request_ref) by (simpl; auto 10).
  rewrite (re_sub_no_ref discussion_ref) by (simpl; auto 10).
  reflexivity.
Qed.

Lemma clean_references_no_ref (s : text) :
  sane -> has_ref (_clean_references T s) = false.
Proof.
  intros HT. rewrite (clean_references_two_passes _ HT).
  apply (sub_bare_no_ref _ _ HT (Nat.le_refl _)).
Qed.

(** C10. [_clean_references] is idempotent: one application leaves no
    ['#'] followed by a digit, so a second one finds nothing to rewrite.
    It holds for any character tables in which ['#'] and ['I'] are not
    digits and ['#'] has no other case. *)
Theorem clean_references_idempotent (s : text) :
  sane ->
  _clean_references T (_clean_references T s) = _clean_references T s.
Proof.
  intros HT. apply (clean_references_no_ref_id _ HT).
  apply (clean_references_no_ref _ HT).
Qed.

End CleanReferences.

Section ReferenceForms.

Import Re.

Variable T : tables.
Hypothesis HT : sane T.
Hypothesis hash_not_word : is_word T hash = false.

Lemma run_length_all (k : cls) (l rest : text) :
  List.Forall (fun c => in_class T k c = true) l ->
  run_length T k rest = O ->
  run_length T k (l ++ rest)%list = List.length l.
Proof.
  intros Hl Hrest. induction Hl as [|c l Hc Hl IH]; [exact Hrest|].
  cbn [app run_length List.length]. rewrite Hc, IH. reflexivity.
Qed.

Lemma no_ref_without_hash (l : text) :
  List.Forall (fun c => c <> hash) l -> has_ref T l = false.
Proof.
  intros Hl. rewrite <- (List.app_nil_r l).
  rewrite has_ref_app_no_hash by exact Hl. reflexivity.
Qed.

Lemma digits_no_hash (d : text) :
  List.Forall (fun c => is_digit T c = true) d ->
  List.Forall (fun c => c <> hash) d.
Proof.
  apply List.Forall_impl. intros c Hc. exact (digit_not_hash T c HT Hc).
Qed.

Lemma word_no_hash (w : text) :
  List.Forall (fun c => is_word T c = true) w ->
  List.Forall (fun c => c <> hash) w.
Proof.
  apply List.Forall_impl. intros c Hc ->. congruence.
Qed.

(** [#(\d+)] on a ['#'] followed by digits up to the end of the text. *)
Lemma match_ref_tail_digits (d : text) (groups : list text) :
  d <> [] ->
  List.Forall (fun c => is_digit T c = true) d ->
  match_here T false ref_tail (hash :: d) groups
  = Some ((groups ++ [d])%list, []).
Proof.
  intros Hne Hd. cbn [ref_tail match_here lit_match].
  rewrite N.eqb_refl.
  pose proof (run_length_all Digit d [] Hd eq_refl) as Hrun.
  rewrite List.app_nil_r in Hrun. rewrite Hrun.
  destruct (List.length d) as [|n] eqn:E.
  - destruct d; [congruence | discriminate].
  - apply try_lengths_first. cbn beta zeta. cbn [match_here].
    rewrite <- E, List.firstn_all, List.skipn_all. reflexivity.
Qed.

Definition dash : text := text_of "-".

(** A word immediately followed by ['#'] and digits, alone in the text:
    the first pattern joins them with a dash. *)
Lemma sub_word_ref_form (w d : text) :
  w <> [] -> d <> [] ->
  List.Forall (fun c => is_word T c = true) w ->
  List.Forall (fun c => is_digit T c = true) d ->
  re_sub T (fst word_ref) (snd word_ref) (w ++ hash :: d)%list
  = (w ++ dash ++ d)%list.
Proof.
  intros Hw Hd Fw Fd. unfold re_sub.
  destruct w as [|c w]; [congruence|].
  cbn [app sub_from word_ref fst snd atoms ignorecase].
  assert (match_here T false (Rep Word true :: ref_tail)
            (c :: w ++ hash :: d)%list []
          = Some ([c :: w; d], [])) as ->.
  { cbn [match_here].
    pose proof (run_length_all Word (c :: w) (hash :: d) Fw) as Hrun.
    cbn [app] in Hrun. rewrite Hrun by (cbn; rewrite hash_not_word; reflexivity).
    cbn [List.length]. apply try_lengths_first. cbn beta zeta.
    change (S (List.length w)) with (List.length (c :: w)).
    change (c :: w ++ hash :: d)%list with ((c :: w) ++ hash :: d)%list.
    rewrite List.firstn_app, List.firstn_all, Nat.sub_diag.
    rewrite List.skipn_app, List.skipn_all, Nat.sub_diag.
    cbn [List.firstn List.skipn app]. rewrite List.app_nil_r.
    apply (match_ref_tail_digits d [c :: w] Hd Fd). }
  rewrite sub_from_skip.
  cbn [List.length Nat.sub Nat.pred]. rewrite List.skipn_all.
  cbn [sub_from expand List.flat_map List.nth Nat.pred app].
  rewrite !List.app_nil_r. unfold dash. reflexivity.
Qed.

(** A bare ['#'] followed by digits, alone in the text: the first
    pattern does not apply, the second one writes [Item-]. *)
Lemma sub_word_ref_bare_form (d : text) :
  List.Forall (fun c => is_digit T c = true) d ->
  re_sub T (fst word_ref) (snd word_ref) (hash :: d) = hash :: d.
Proof.
  intros Fd. unfold re_sub.
  cbn [sub_from word_ref fst snd atoms ignorecase match_here run_length
       in_class].
  rewrite hash_not_word. cbn [try_lengths]. f_equal.
  apply (sub_from_no_ref T _ [Rep Word true] _ _ HT); [reflexivity|].
  apply no_ref_without_hash, digits_no_hash, Fd.
Qed.

Lemma sub_bare_ref_form (d : text) :
  d <> [] ->
  List.Forall (fun c => is_digit T c = true) d ->
  re_sub T (fst bare_ref) (snd bare_ref) (hash :: d) = (item ++ d)%list.
Proof.
  intros Hd Fd. rewrite sub_bare_cons. rewrite N.eqb_refl.
  pose proof (run_length_all Digit d [] Fd eq_refl) as Hrun.
  rewrite List.app_nil_r in Hrun. rewrite Hrun.
  destruct (List.length d) as [|n] eqn:E.
  - destruct d; [congruence | discriminate].
  - cbn [andb negb Nat.eqb]. rewrite <- E.
    rewrite List.firstn_all, List.skipn_all.
    unfold re_sub. cbn [sub_from]. rewrite List.app_nil_r. reflexivity.
Qed.

End ReferenceForms.

Lemma ascii_tables_sane : sane Re.ascii_tables.
Proof.
  split; [reflexivity | reflexivity |].
  intros c H. cbn [Re.ci_eq Re.ascii_tables] in H.
  apply N.eqb_eq in H. unfold Re.ascii_lower in H.
  change ((65 <=? Re.hash)%N && (Re.hash <=? 90)%N) with false in H.
  destruct ((65 <=? c)%N && (c <=? 90)%N) eqn:E; [|congruence].
  apply andb_prop in E as [E1 E2].
  apply N.leb_le in E1. unfold Re.hash in *. lia.
Qed.

(** The two passes that do the work, on the tables and text of the
    example of the specification. *)
Lemma clean_references_idempotent_witness :
  Re._clean_references Re.ascii_tables
    (Re._clean_references Re.ascii_tables
       (Re.text_of "Fixes apache#123 and #45"))
  = Re._clean_references Re.ascii_tables
      (Re.text_of "Fixes apache#123 and #45").
Proof.
  apply (clean_references_idempotent Re.ascii_tables
           (Re.text_of "Fixes apache#123 and #45") ascii_tables_sane).
Defined.

(* ================================================================== *)
(** * Every reference of a text *)
(* ================================================================== *)

Section EveryReference.

Import Re.

Variable T : tables.
Hypothesis HT : sane T.
Hypothesis hash_not_word : is_word T hash = false.

Local Abbreviation word_sub :=
  (re_sub T (fst word_ref) (snd word_ref)).
Local Abbreviation bare_sub :=
  (re_sub T (fst bare_ref) (snd bare_ref)).






(** ** The second pattern, one character at a time *)







(** ** The first pattern at the head of a text *)











(** ** The scan and the first pattern *)









End EveryReference.


(** Texts made of one reference.  For any character tables in which
    ['#'] is neither a digit nor a word character: a text made of a
    word, ['#'] and digits becomes word, dash, digits; a text made of
    ['#'] and digits becomes [Item-] and the digits.  On ASCII text:
    [apache#123] becomes [apache-123], [owner/repo#123] becomes
    [owner/repo-123] (the slash is kept), [#123] becomes [Item-123], and
    [Fixes apache#123 and #45] becomes [Fixes apache-123 and Item-45]. *)
Theorem clean_references_forms (T : Re.tables) :
  sane T -> Re.is_word T Re.hash = false ->
  (forall w d : Re.text,
      w <> [] -> d <> [] ->
      List.Forall (fun c => Re.is_word T c = true) w ->
      List.Forall (fun c => Re.is_digit T c = true) d ->
      Re._clean_references T (w ++ Re.hash :: d)%list
      = (w ++ Re.text_of "-" ++ d)%list)
  /\ (forall d : Re.text,
      d <> [] ->
      List.Forall (fun c => Re.is_digit T c = true) d ->
      Re._clean_references T (Re.hash :: d)
      = (Re.text_of "Item-" ++ d)%list)
  /\ Re._clean_references Re.ascii_tables (Re.text_of "apache#123")
     = Re.text_of "apache-123"
  /\ Re._clean_references Re.ascii_tables (Re.text_of "owner/repo#123")
     = Re.text_of "owner/repo-123"
  /\ Re._clean_references Re.ascii_tables (Re.text_of "#123")
     = Re.text_of "Item-123"
  /\ Re._clean_references Re.ascii_tables
       (Re.text_of "Fixes apache#123 and #45")
     = Re.text_of "Fixes apache-123 and Item-45".
Proof.
  intros HT Hw. split; [|split].
  - intros w d Hwne Hdne Fw Fd.
    rewrite (clean_references_two_passes T _ HT).
    rewrite (sub_word_ref_form T) by assumption.
    apply (re_sub_no_ref T Re.bare_ref _ HT); [simpl; auto|].
    apply no_ref_without_hash.
    apply List.Forall_app. split; [apply (word_no_hash T); assumption|].
    apply List.Forall_app. split; [|apply (digits_no_hash T); assumption].
    repeat constructor; discriminate.
  - intros d Hdne Fd.
    rewrite (clean_references_two_passes T _ HT).
    rewrite (sub_word_ref_bare_form T) by assumption.
    apply (sub_bare_ref_form T); assumption.
  - repeat split; vm_compute; reflexivity.
Qed.

Lemma clean_references_forms_witness :
  Re._clean_references Re.ascii_tables
    (Re.text_of "repo" ++ Re.hash :: Re.text_of "123")%list
  = (Re.text_of "repo" ++ Re.text_of "-" ++ Re.text_of "123")%list.
Proof.
  destruct (clean_references_forms Re.ascii_tables ascii_tables_sane eq_refl)
    as (Hword & _).
  apply Hword; try discriminate; repeat constructor.
Defined.


(* ================================================================== *)
(** * The issue partitioner of main.py *)
(* ================================================================== *)

Module Partition.

(** A raw issue as the partitioner reads it.  A field is [None] when the
    key is absent or null.  [title] stands for the fields the
    partitioner never reads; [_created_in_period] is the annotation it
    attaches. *)
Record RawRecord := {
  number : option Z;
  created_at : option string;
  updated_at : option string;
  title : string;
  _created_in_period : option bool
}.

#[global] Instance RawRecord_eq_dec : EqDecision RawRecord.
Proof. solve_decision. Defined.

(** [issue["_created_in_period"] = tag] *)
Definition set_tag (tag : bool) (r : RawRecord) : RawRecord :=
  {| number := number r;
     created_at := created_at r;
     updated_at := updated_at r;
     title := title r;
     _created_in_period := Some tag |}.

(** The period: its bounds as instants, and whether [period == "today"],
    which closes the interval on the right. *)
Record window := {
  period_start : Z;
  period_end : Z;
  today : bool
}.

Definition in_window (w : window) (t : Z) : bool :=
  if today w then (period_start w <=? t) && (t <=? period_end w)
  else (period_start w <=? t) && (t <? period_end w).

(** [s.replace("Z", "+00:00")] *)
Fixpoint replace_Z (s : string) : string :=
  match s with
  | EmptyString => EmptyString
  | String c s' =>
      if Ascii.eqb c "Z" then "+00:00" +:+ replace_Z s'
      else String c (replace_Z s')
  end.

Inductive bucket := Created | Updated.

#[global] Instance bucket_eq_dec : EqDecision bucket.
Proof. solve_decision. Defined.

(** The truth value of [issue.get("number")]. *)
Definition truthy_number (n : option Z) : option Z :=
  match n with
  | Some k => if k =? 0 then None else Some k
  | None => None
  end.

(** The truth value of a timestamp field: absent, null and the empty
    string are false. *)
Definition truthy_string (s : option string) : option string :=
  match s with
  | Some EmptyString => None
  | other => other
  end.

Section Partitioner.

(** [datetime.fromisoformat] followed by the comparison with the aware
    bounds of the period: [Some t] for a string that denotes the instant
    [t] with a UTC offset, [None] when parsing raises or the datetime is
    naive (the comparison raises then).  The function belongs to the
    Python library, so the partitioner is parametric in it. *)
Variable fromisoformat : string -> option Z.

Definition parse (s : string) : option Z := fromisoformat (replace_Z s).

(** The body of the first loop for one issue: the bucket it is appended
    to, if any.  Every exception inside the [try] leaves both lists as
    they were. *)
Definition classify (w : window) (issue : RawRecord) : option bucket :=
  match truthy_string (created_at issue) with
  | None => None
  | Some issue_created =>
      created_date ← parse issue_created;
      updated_date ←
        match truthy_string (updated_at issue) with
        | Some issue_updated => parse issue_updated
        | None => Some created_date
        end;
      let in_period_created := in_window w created_date in
      let in_period_updated :=
        in_window w updated_date && negb (updated_date =? created_date) in
      if in_period_created then Some Created
      else if in_period_updated then Some Updated
      else None
  end.

(** The lists hold references to the records of [raw_issues]; a
    reference is the position of the record in that list, and the store
    is the list itself, updated in place by the annotation. *)
Abbreviation store := (list RawRecord).

Definition select (w : window) (b : bucket) (raw : store) : list nat :=
  List.filter
    (fun i =>
       match raw !! i with
       | Some issue => bool_decide (classify w issue = Some b)
       | None => false
       end)
    (List.seq 0 (List.length raw)).

(** [issue in created_issues]: some element is the same object or an
    equal dictionary. *)
Definition py_in (h : store) (i : nat) (l : list nat) : bool :=
  List.existsb
    (fun j => Nat.eqb j i || bool_decide (h !! j = h !! i)) l.

Record merge_state := {
  heap : store;
  seen_numbers : gset Z;
  filtered_issues : list nat
}.

(** The body of the merging loop. *)
Definition merge_step (created_issues : list nat) (st : merge_state)
    (i : nat) : merge_state :=
  match heap st !! i with
  | None => st
  | Some issue =>
      match truthy_number (number issue) with
      | Some issue_num =>
          if bool_decide (issue_num ∈ seen_numbers st) then st
          else
            let tag := py_in (heap st) i created_issues in
            {| heap := <[i := set_tag tag issue]> (heap st);
               seen_numbers := {[issue_num]} ∪ seen_numbers st;
               filtered_issues := (filtered_issues st ++ [i])%list |}
      | None => st
      end
  end.

Definition merge (created_issues updated_issues : list nat) (raw : store)
    : merge_state :=
  List.fold_left (merge_step created_issues)
    (created_issues ++ updated_issues)%list
    {| heap := raw; seen_numbers := ∅; filtered_issues := [] |}.

(** The records of [raw_issues] after the filter. *)
Definition partition_issues (w : window) (raw : store) : list RawRecord :=
  let created_issues := select w Created raw in
  let updated_issues := select w Updated raw in
  let st := merge created_issues updated_issues raw in
  omap (fun i => heap st !! i) (filtered_issues st).

End Partitioner.

End Partition.

(* ================================================================== *)
(** * Timestamps in the format of the GitHub API *)
(* ================================================================== *)

(** The examples need timestamps to be read.  [Iso.fromisoformat] reads
    the one format the GitHub API sends, after [Z] has become [+00:00]:
    [YYYY-MM-DDTHH:MM:SS+HH:MM], and gives the instant in seconds since
    1970-01-01T00:00:00+00:00.  Any other string is [None]; the general
    results do not depend on this function. *)
Module Iso.

Definition digit (c : ascii) : option Z :=
  let n := Z.of_N (N_of_ascii c) in
  if (48 <=? n) && (n <=? 57) then Some (n - 48) else None.

Definition two (a b : ascii) : option Z :=
  x ← digit a; y ← digit b; Some (10 * x + y).

Definition four (a b c d : ascii) : option Z :=
  x ← two a b; y ← two c d; Some (100 * x + y).

Definition is_leap (y : Z) : bool :=
  (y mod 4 =? 0) && (negb (y mod 100 =? 0) || (y mod 400 =? 0)).

Definition days_in_month (y m : Z) : Z :=
  if m =? 2 then (if is_leap y then 29 else 28)
  else if (m =? 4) || (m =? 6) || (m =? 9) || (m =? 11) then 30
  else 31.

(** Days from 1970-01-01 to the given date of the proleptic Gregorian
    calendar. *)
Definition days_from_civil (y m d : Z) : Z :=
  let y' := if m <=? 2 then y - 1 else y in
  let era := y' / 400 in
  let yoe := y' - era * 400 in
  let mp := if 2 <? m then m - 3 else m + 9 in
  let doy := (153 * mp + 2) / 5 + d - 1 in
  let doe := yoe * 365 + yoe / 4 - yoe / 100 + doy in
  era * 146097 + doe - 719468.

Definition fromisoformat (s : string) : option Z :=
  match list_ascii_of_string s with
  | [y1; y2; y3; y4; dash1; m1; m2; dash2; d1; d2; sep;
     h1; h2; colon1; mi1; mi2; colon2; s1; s2;
     sign; o1; o2; colon3; o3; o4] =>
      if Ascii.eqb dash1 "-" && Ascii.eqb dash2 "-"
         && Ascii.eqb colon1 ":" && Ascii.eqb colon2 ":"
         && Ascii.eqb colon3 ":"
         && (Ascii.eqb sign "+" || Ascii.eqb sign "-")
      then
        year ← four y1 y2 y3 y4;
        month ← two m1 m2;
        day ← two d1 d2;
        hour ← two h1 h2;
        minute ← two mi1 mi2;
        second ← two s1 s2;
        off_h ← two o1 o2;
        off_m ← two o3 o4;
        if (1 <=? year) && (1 <=? month) && (month <=? 12)
           && (1 <=? day) && (day <=? days_in_month year month)
           && (hour <? 24) && (minute <? 60) && (second <? 60)
           && (off_h <? 24) && (off_m <? 60)
        then
          let offset := (off_h * 3600 + off_m * 60)
                        * (if Ascii.eqb sign "-" then -1 else 1) in
          Some (days_from_civil year month day * 86400
                + hour * 3600 + minute * 60 + second - offset)
        else None
      else None
  | _ => None
  end.

End Iso.

(* ================================================================== *)
(** * Properties of the partitioner *)
(* ================================================================== *)

Section PartitionProperties.

Import Partition.

Variable fromisoformat : string -> option Z.
Variable w : window.

Local Abbreviation classify := (classify fromisoformat w).

Definition is_created (r : RawRecord) : bool :=
  bool_decide (classify r = Some Created).

Definition retag (r : RawRecord) : RawRecord := set_tag (is_created r) r.

(** Keep the first record of each non-zero number that is not in
    [seen]: what the merging loop computes, on the records themselves. *)
Fixpoint dedup (seen : gset Z) (l : list RawRecord) : list RawRecord :=
  match l with
  | [] => []
  | r :: l' =>
      match truthy_number (number r) with
      | Some n =>
          if bool_decide (n ∈ seen) then dedup seen l'
          else r :: dedup ({[n]} ∪ seen) l'
      | None => dedup seen l'
      end
  end.

Definition in_bucket (b : bucket) (r : RawRecord) : bool :=
  bool_decide (classify r = Some b).

(** The partitioner without the store. *)
Definition partition_spec (raw : list RawRecord) : list RawRecord :=
  retag <$> dedup ∅ (List.filter (in_bucket Created) raw
                     ++ List.filter (in_bucket Updated) raw)%list.

Lemma classify_set_tag (b : bool) (r : RawRecord) :
  classify (set_tag b r) = classify r.
Proof. reflexivity. Qed.

Lemma is_created_retag (r : RawRecord) : is_created (retag r) = is_created r.
Proof. reflexivity. Qed.

Lemma retag_retag (r : RawRecord) : retag (retag r) = retag r.
Proof. reflexivity. Qed.

Lemma number_retag (r : RawRecord) : number (retag r) = number r.
Proof. reflexivity. Qed.

(** Selecting positions and reading them back is filtering. *)
Lemma select_from (P : RawRecord -> bool) (pre suf : list RawRecord) :
  omap (fun i => (pre ++ suf)%list !! i)
    (List.filter
       (fun i =>
          match (pre ++ suf)%list !! i with
          | Some r => P r
          | None => false
          end)
       (List.seq (List.length pre) (List.length suf)))
  = List.filter P suf.
Proof.
  revert pre. induction suf as [|x suf IH]; intros pre; [reflexivity|].
  cbn [List.length List.seq List.filter].
  assert ((pre ++ x :: suf)%list !! List.length pre = Some x) as Hx.
  { rewrite lookup_app_r by reflexivity.
    rewrite Nat.sub_diag. reflexivity. }
  rewrite Hx.
  specialize (IH (pre ++ [x])%list).
  rewrite <- List.app_assoc in IH. cbn [app] in IH.
  rewrite List.length_app in IH. cbn [List.length] in IH.
  rewrite Nat.add_1_r in IH.
  destruct (P x).
  - cbn [omap list_omap]. rewrite Hx. f_equal. exact IH.
  - exact IH.
Qed.

Lemma select_records (b : bucket) (raw : list RawRecord) :
  omap (fun i => raw !! i) (select fromisoformat w b raw)
  = List.filter (in_bucket b) raw.
Proof. exact (select_from (in_bucket b) [] raw). Qed.

Lemma select_elem (b : bucket) (raw : list RawRecord) (i : nat) :
  i ∈ select fromisoformat w b raw <->
  exists r, raw !! i = Some r /\ classify r = Some b.
Proof.
  unfold select. rewrite list_elem_of_In, List.filter_In, List.in_seq.
  split.
  - intros [_ H]. cbn beta in H.
    destruct (raw !! i) as [r|]; [|discriminate H].
    exists r. split; [reflexivity|]. apply bool_decide_eq_true in H. exact H.
  - intros (r & Hr & Hc). split.
    + apply lookup_lt_Some in Hr. lia.
    + cbn beta. rewrite Hr. apply bool_decide_eq_true. exact Hc.
Qed.

Lemma select_NoDup (b : bucket) (raw : list RawRecord) :
  NoDup (select fromisoformat w b raw).
Proof.
  apply NoDup_ListNoDup, List.NoDup_filter, List.seq_NoDup.
Qed.

(** The store after some annotations: the records at the positions kept
    so far carry their tag, the others are as they came. *)
Definition heap_ok (raw h : list RawRecord) (kept : list nat) : Prop :=
  forall k : nat,
    h !! k = if bool_decide (k ∈ kept) then retag <$> raw !! k else raw !! k.

Lemma heap_ok_classify (raw h : list RawRecord) (kept : list nat)
    (j : nat) (x y : RawRecord) :
  heap_ok raw h kept -> raw !! j = Some x -> h !! j = Some y ->
  classify y = classify x.
Proof.
  intros Hh Hx Hy. rewrite (Hh j), Hx in Hy.
  destruct (bool_decide (j ∈ kept)); cbn in Hy; injection Hy as <-;
    reflexivity.
Qed.

(** The test [issue in created_issues] answers whether the issue was
    classified as created: no record of the created list equals a record
    that was not, whatever tags have been attached meanwhile. *)
Lemma py_in_created (raw h : list RawRecord) (kept created : list nat)
    (i : nat) (r : RawRecord) :
  heap_ok raw h kept ->
  (forall j, j ∈ created ->
     exists x, raw !! j = Some x /\ classify x = Some Created) ->
  raw !! i = Some r -> h !! i = Some r ->
  i ∈ created \/ classify r <> Some Created ->
  py_in h i created = is_created r.
Proof.
  intros Hh Hcreated Hraw Hi Hcase. unfold py_in, is_created.
  destruct Hcase as [Hin | Hnot].
  - destruct (Hcreated i Hin) as (x & Hx & Hcx).
    rewrite Hraw in Hx. injection Hx as <-.
    rewrite (bool_decide_eq_true_2 _ Hcx).
    apply List.existsb_exists. exists i. split.
    + apply list_elem_of_In, Hin.
    + rewrite Nat.eqb_refl. reflexivity.
  - rewrite (bool_decide_eq_false_2 _ Hnot).
    apply not_true_is_false. intros H.
    apply List.existsb_exists in H as (j & Hj & H).
    apply list_elem_of_In in Hj.
    destruct (Hcreated j Hj) as (x & Hx & Hcx).
    apply orb_prop in H as [H | H].
    + apply Nat.eqb_eq in H. subst j. congruence.
    + apply bool_decide_eq_true in H. rewrite Hi in H.
      rewrite <- (heap_ok_classify raw h kept j x r Hh Hx H) in Hcx.
      contradiction.
Qed.

Lemma heap_ok_insert (raw h : list RawRecord) (kept : list nat) (i : nat)
    (r : RawRecord) :
  heap_ok raw h kept -> raw !! i = Some r -> h !! i = Some r ->
  heap_ok raw (<[i := retag r]> h) (kept ++ [i]).
Proof.
  intros Hh Hraw Hi k.
  destruct (decide (k = i)) as [-> | Hne].
  - rewrite list_lookup_insert_eq by (apply lookup_lt_Some in Hi; exact Hi).
    rewrite bool_decide_eq_true_2 by (apply elem_of_app; right; constructor).
    rewrite Hraw. reflexivity.
  - rewrite list_lookup_insert_ne by congruence. rewrite (Hh k).
    destruct (bool_decide (k ∈ kept)) eqn:E.
    + apply bool_decide_eq_true in E.
      rewrite bool_decide_eq_true_2 by (apply elem_of_app; left; exact E).
      reflexivity.
    + apply bool_decide_eq_false in E.
      rewrite bool_decide_eq_false_2; [reflexivity|].
      rewrite elem_of_app, list_elem_of_singleton. tauto.
Qed.

(** One turn of the merging loop on a position not yet kept. *)
Lemma merge_step_eq (raw h : list RawRecord) (created kept : list nat)
    (seen : gset Z) (i : nat) (r : RawRecord) :
  heap_ok raw h kept ->
  (forall j, j ∈ created ->
     exists x, raw !! j = Some x /\ classify x = Some Created) ->
  raw !! i = Some r -> h !! i = Some r ->
  i ∈ created \/ classify r <> Some Created ->
  merge_step created
    {| heap := h; seen_numbers := seen; filtered_issues := kept |} i
  = match truthy_number (number r) with
    | Some n =>
        if bool_decide (n ∈ seen)
        then {| heap := h; seen_numbers := seen; filtered_issues := kept |}
        else {| heap := <[i := retag r]> h;
                seen_numbers := {[n]} ∪ seen;
                filtered_issues := (kept ++ [i])%list |}
    | None => {| heap := h; seen_numbers := seen; filtered_issues := kept |}
    end.
Proof.
  intros Hh Hcreated Hraw Hi Hcase. unfold merge_step.
  cbn [heap seen_numbers filtered_issues]. rewrite Hi.
  destruct (truthy_number (number r)) as [n|]; [|reflexivity].
  destruct (bool_decide (n ∈ seen)); [reflexivity|].
  rewrite (py_in_created raw h kept created i r Hh Hcreated Hraw Hi Hcase).
  reflexivity.
Qed.

(** The merging loop, from any point of its run: it appends to the kept
    positions those of the first records with a new non-zero number,
    and tags exactly those records. *)
Lemma merge_loop (raw : list RawRecord) (created : list nat) :
  (forall j, j ∈ created ->
     exists x, raw !! j = Some x /\ classify x = Some Created) ->
  forall (rest : list nat) (h : list RawRecord) (seen : gset Z)
         (kept : list nat),
    heap_ok raw h kept ->
    NoDup rest ->
    (forall i, i ∈ rest -> i ∉ kept) ->
    (forall i, i ∈ rest ->
       exists r, raw !! i = Some r
                 /\ (i ∈ created \/ classify r <> Some Created)) ->
    exists more : list nat,
      filtered_issues
        (List.fold_left (merge_step created) rest
           {| heap := h; seen_numbers := seen; filtered_issues := kept |})
      = (kept ++ more)%list
      /\ heap_ok raw
           (heap (List.fold_left (merge_step created) rest
                    {| heap := h; seen_numbers := seen;
                       filtered_issues := kept |}))
           (kept ++ more)
      /\ omap (fun i => raw !! i) more
         = dedup seen (omap (fun i => raw !! i) rest).
Proof.
  intros Hcreated rest.
  induction rest as [|i rest IH]; intros h seen kept Hh Hnd Hfresh Hvalid.
  - exists []. rewrite List.app_nil_r. repeat split; exact Hh.
  - apply NoDup_cons in Hnd as [Hi_rest Hnd].
    destruct (Hvalid i) as (r & Hraw & Hcase); [left|].
    assert (h !! i = Some r) as Hi.
    { rewrite (Hh i), bool_decide_eq_false_2, Hraw; [reflexivity|].
      apply Hfresh. left. }
    assert (forall i0, i0 ∈ rest -> i0 ∉ kept) as Hfresh'
      by (intros i0 Hi0; apply Hfresh; right; exact Hi0).
    assert (forall i0, i0 ∈ rest ->
              exists r0, raw !! i0 = Some r0
                /\ (i0 ∈ created \/ classify r0 <> Some Created)) as Hvalid'
      by (intros i0 Hi0; apply Hvalid; right; exact Hi0).
    cbn [List.fold_left].
    rewrite (merge_step_eq raw h created kept seen i r Hh Hcreated Hraw Hi
               Hcase).
    cbn [omap list_omap]. rewrite Hraw. cbn [dedup].
    destruct (truthy_number (number r)) as [n|];
      [destruct (bool_decide (n ∈ seen))|].
    + exact (IH h seen kept Hh Hnd Hfresh' Hvalid').
    + destruct (IH (<[i := retag r]> h) ({[n]} ∪ seen) (kept ++ [i])%list)
        as (more & Hf & Hh' & Hd).
      * exact (heap_ok_insert raw h kept i r Hh Hraw Hi).
      * exact Hnd.
      * intros i0 Hi0. rewrite elem_of_app, list_elem_of_singleton.
        intros [Hk | ->]; [|contradiction].
        exact (Hfresh' i0 Hi0 Hk).
      * exact Hvalid'.
      * exists (i :: more). rewrite <- List.app_assoc in Hf, Hh'.
        cbn [app] in Hf, Hh'. repeat split; [exact Hf | exact Hh' |].
        cbn [omap list_omap]. rewrite Hraw, Hd. reflexivity.
    + exact (IH h seen kept Hh Hnd Hfresh' Hvalid').
Qed.

Lemma omap_retag (raw h : list RawRecord) (kept more : list nat) :
  heap_ok raw h kept ->
  (forall i, i ∈ more -> i ∈ kept) ->
  omap (fun i => h !! i) more = retag <$> omap (fun i => raw !! i) more.
Proof.
  intros Hh. induction more as [|i more IH]; intros Hsub; [reflexivity|].
  cbn [omap list_omap].
  rewrite (Hh i), bool_decide_eq_true_2 by (apply Hsub; left).
  rewrite IH by (intros k Hk; apply Hsub; right; exact Hk).
  destruct (raw !! i); reflexivity.
Qed.

(** The partitioner computes [partition_spec]: the store and its
    aliasing make no difference to the result. *)
Lemma partition_issues_spec (raw : list RawRecord) :
  partition_issues fromisoformat w raw = partition_spec raw.
Proof.
  unfold partition_issues, partition_spec, merge.
  set (created := select fromisoformat w Created raw).
  set (updated := select fromisoformat w Updated raw).
  assert (forall j, j ∈ created ->
            exists x, raw !! j = Some x /\ classify x = Some Created)
    as Hcreated by (intros j Hj; apply select_elem in Hj; exact Hj).
  destruct (merge_loop raw created Hcreated (created ++ updated)%list
              raw ∅ []) as (more & Hf & Hh & Hd).
  - intros k. rewrite bool_decide_eq_false_2; [reflexivity|].
    apply not_elem_of_nil.
  - apply NoDup_app. repeat split; try apply select_NoDup.
    intros i Hc Hu. apply select_elem in Hc as (r & Hr & Hc).
    apply select_elem in Hu as (r' & Hr' & Hu). congruence.
  - intros i _. apply not_elem_of_nil.
  - intros i Hi. apply elem_of_app in Hi as [Hi | Hi].
    + destruct (Hcreated i Hi) as (r & Hr & _). exists r. auto.
    + apply select_elem in Hi as (r & Hr & Hu). exists r.
      split; [exact Hr|]. right. congruence.
  - cbn [app] in Hf, Hh. rewrite Hf.
    rewrite (omap_retag raw _ more more Hh) by auto.
    rewrite Hd, omap_app. unfold created, updated.
    rewrite !select_records. reflexivity.
Qed.

End PartitionProperties.

Section PartitionTheorems.

Import Partition.

Variable fromisoformat : string -> option Z.
Variable w : window.

Local Abbreviation classify := (classify fromisoformat w).
Local Abbreviation retag := (retag fromisoformat w).
Local Abbreviation in_b := (in_bucket fromisoformat w).

Lemma truthy_number_Some (x : option Z) (n : Z) :
  truthy_number x = Some n -> x = Some n /\ n <> 0.
Proof.
  destruct x as [k|]; cbn; [|discriminate].
  destruct (Z.eqb_spec k 0); [discriminate|].
  intros [= <-]. auto.
Qed.

(** What the merge keeps comes from its input, has a non-zero number,
    and that number had not been seen. *)
Lemma dedup_elem (seen : gset Z) (l : list RawRecord) (r : RawRecord) :
  r ∈ dedup seen l ->
  r ∈ l /\ exists n, truthy_number (number r) = Some n /\ n ∉ seen.
Proof.
  revert seen. induction l as [|x l IH]; intros seen; cbn [dedup].
  - intros H. apply elem_of_nil in H. contradiction.
  - destruct (truthy_number (number x)) as [m|] eqn:Em.
    + destruct (bool_decide (m ∈ seen)) eqn:Es.
      * intros H. apply IH in H as (Hin & n & Hn & Hs).
        split; [right; exact Hin | eauto].
      * apply bool_decide_eq_false in Es.
        intros H. apply elem_of_cons in H as [-> | H].
        -- split; [left | eauto].
        -- apply IH in H as (Hin & n & Hn & Hs).
           split; [right; exact Hin|]. exists n. split; [exact Hn|].
           intros Hs'. apply Hs. apply elem_of_union. right. exact Hs'.
    + intros H. apply IH in H as (Hin & n & Hn & Hs).
      split; [right; exact Hin | eauto].
Qed.

Lemma dedup_NoDup (seen : gset Z) (l : list RawRecord) :
  NoDup (number <$> dedup seen l).
Proof.
  revert seen. induction l as [|x l IH]; intros seen; cbn [dedup].
  - constructor.
  - destruct (truthy_number (number x)) as [m|] eqn:Em; [|apply IH].
    destruct (bool_decide (m ∈ seen)); [apply IH|].
    cbn [fmap list_fmap]. constructor; [|apply IH].
    intros H. apply list_elem_of_fmap in H as (r & Hnum & Hr).
    apply dedup_elem in Hr as (_ & n & Hn & Hs).
    rewrite <- Hnum, Em in Hn. injection Hn as <-.
    apply Hs. apply elem_of_union. left. apply elem_of_singleton. reflexivity.
Qed.

(** A list without repeated numbers, all of them non-zero and new, is
    kept whole. *)
Lemma dedup_fixed (seen : gset Z) (l : list RawRecord) :
  NoDup (number <$> l) ->
  (forall r, r ∈ l ->
     exists n, truthy_number (number r) = Some n /\ n ∉ seen) ->
  dedup seen l = l.
Proof.
  revert seen. induction l as [|x l IH]; intros seen Hnd Hall; [reflexivity|].
  cbn [fmap list_fmap] in Hnd. apply NoDup_cons in Hnd as [Hx Hnd].
  destruct (Hall x) as (n & Hn & Hs); [left|].
  cbn [dedup]. rewrite Hn, bool_decide_eq_false_2 by exact Hs.
  f_equal. apply IH; [exact Hnd|].
  intros r Hr. destruct (Hall r) as (k & Hk & Hks); [right; exact Hr|].
  exists k. split; [exact Hk|].
  intros Hin. apply elem_of_union in Hin as [Hin | Hin]; [|contradiction].
  apply elem_of_singleton in Hin. subst k.
  apply truthy_number_Some in Hn as [Hn _].
  apply truthy_number_Some in Hk as [Hk _].
  apply Hx. apply list_elem_of_fmap. exists r. split; [congruence | exact Hr].
Qed.

(** The first record carrying a number survives the merge. *)
Lemma dedup_covers (seen : gset Z) (l : list RawRecord) (r : RawRecord)
    (n : Z) :
  r ∈ l -> truthy_number (number r) = Some n -> n ∉ seen ->
  exists r0, r0 ∈ dedup seen l /\ number r0 = number r.
Proof.
  revert seen. induction l as [|x l IH]; intros seen Hr Hn Hs.
  - apply elem_of_nil in Hr. contradiction.
  - cbn [dedup]. apply elem_of_cons in Hr as [<- | Hr].
    + rewrite Hn, bool_decide_eq_false_2 by exact Hs.
      exists r. split; [left | reflexivity].
    + destruct (truthy_number (number x)) as [m|] eqn:Em;
        [|exact (IH seen Hr Hn Hs)].
      destruct (bool_decide (m ∈ seen)); [exact (IH seen Hr Hn Hs)|].
      destruct (decide (m = n)) as [-> | Hne].
      * exists x. split; [left|].
        apply truthy_number_Some in Hn as [-> _].
        apply truthy_number_Some in Em as [-> _]. reflexivity.
      * destruct (IH ({[m]} ∪ seen) Hr Hn) as (r0 & Hr0 & Hnum).
        -- intros Hin. apply elem_of_union in Hin as [Hin | Hin];
             [|contradiction].
           apply elem_of_singleton in Hin. congruence.
        -- exists r0. split; [right; exact Hr0 | exact Hnum].
Qed.

Lemma in_bucket_true (b : bucket) (r : RawRecord) :
  in_b b r = true <-> classify r = Some b.
Proof. apply bool_decide_eq_true. Qed.



Lemma dedup_Forall (P : RawRecord -> Prop) (seen : gset Z)
    (l : list RawRecord) :
  Forall P l -> Forall P (dedup seen l).
Proof.
  intros Hl. apply Forall_forall. intros r Hr.
  apply dedup_elem in Hr as (Hr & _).
  rewrite Forall_forall in Hl. exact (Hl r Hr).
Qed.

(** The merge of the created records followed by the updated ones is
    again created records followed by updated ones. *)
Lemma dedup_buckets (seen : gset Z) (cs us : list RawRecord) :
  Forall (fun r => classify r = Some Created) cs ->
  Forall (fun r => classify r = Some Updated) us ->
  exists cs' us',
    dedup seen (cs ++ us)%list = (cs' ++ us')%list
    /\ Forall (fun r => classify r = Some Created) cs'
    /\ Forall (fun r => classify r = Some Updated) us'.
Proof.
  intros Hcs Hus. revert seen.
  induction Hcs as [|x cs Hx Hcs IH]; intros seen.
  - exists [], (dedup seen us). repeat split; [constructor|].
    apply dedup_Forall, Hus.
  - cbn [app dedup].
    destruct (truthy_number (number x)) as [m|]; [|apply IH].
    destruct (bool_decide (m ∈ seen)); [apply IH|].
    destruct (IH ({[m]} ∪ seen)) as (cs' & us' & -> & Hc & Hu).
    exists (x :: cs'), us'. repeat split; [constructor; assumption | exact Hu].
Qed.

Lemma filter_all (P : RawRecord -> bool) (l : list RawRecord) :
  Forall (fun r => P r = true) l -> List.filter P l = l.
Proof.
  induction 1 as [|x l Hx _ IH]; [reflexivity|].
  cbn [List.filter]. rewrite Hx, IH. reflexivity.
Qed.

Lemma filter_none (P : RawRecord -> bool) (l : list RawRecord) :
  Forall (fun r => P r = false) l -> List.filter P l = [].
Proof.
  induction 1 as [|x l Hx _ IH]; [reflexivity|].
  cbn [List.filter]. rewrite Hx, IH. reflexivity.
Qed.

Lemma in_bucket_retag_Forall (b b' : bucket) (l : list RawRecord) :
  Forall (fun r => classify r = Some b) l ->
  Forall (fun r => in_b b' r = bool_decide (b = b')) (retag <$> l).
Proof.
  intros Hl. apply Forall_fmap. apply (Forall_impl _ _ _ Hl).
  intros r Hr. cbn. unfold in_bucket.
  change (Partition.classify fromisoformat w (retag r)) with (classify r).
  rewrite Hr.
  destruct (decide (b = b')) as [-> | Hne].
  - rewrite !bool_decide_eq_true_2; reflexivity.
  - rewrite !bool_decide_eq_false_2; congruence.
Qed.

Lemma filter_retag_buckets (b : bucket) (cs us : list RawRecord) :
  Forall (fun r => classify r = Some Created) cs ->
  Forall (fun r => classify r = Some Updated) us ->
  List.filter (in_b b) (retag <$> (cs ++ us)%list)
  = match b with
    | Created => retag <$> cs
    | Updated => retag <$> us
    end.
Proof.
  intros Hcs Hus. rewrite fmap_app, List.filter_app.
  pose proof (in_bucket_retag_Forall Created b cs Hcs) as Hc.
  pose proof (in_bucket_retag_Forall Updated b us Hus) as Hu.
  destruct b.
  - rewrite (filter_all _ _ Hc), (filter_none _ _ Hu).
    apply List.app_nil_r.
  - rewrite (filter_none _ _ Hc), (filter_all _ _ Hu). reflexivity.
Qed.

(** C8. Applying the partitioner to its own output, with the same
    window, gives that output again: the same records in the same
    order, with the same tags. *)
Theorem partition_idempotent (raw : list RawRecord) :
  partition_issues fromisoformat w (partition_issues fromisoformat w raw)
  = partition_issues fromisoformat w raw.
Proof.
  rewrite !partition_issues_spec. unfold partition_spec at 1 2.
  set (l := (List.filter (in_b Created) raw
             ++ List.filter (in_b Updated) raw)%list).
  assert (exists cs us,
             dedup ∅ l = (cs ++ us)%list
             /\ Forall (fun r => classify r = Some Created) cs
             /\ Forall (fun r => classify r = Some Updated) us)
    as (cs & us & Hd & Hcs & Hus).
  { apply dedup_buckets; apply Forall_forall; intros r Hr;
      apply list_elem_of_In, List.filter_In in Hr as [_ Hr];
      apply in_bucket_true in Hr; exact Hr. }
  rewrite Hd.
  rewrite (filter_retag_buckets Created cs us Hcs Hus).
  rewrite (filter_retag_buckets Updated cs us Hcs Hus).
  rewrite <- fmap_app, <- Hd.
  rewrite dedup_fixed.
  - rewrite <- list_fmap_compose. apply list_fmap_ext. reflexivity.
  - rewrite <- list_fmap_compose.
    rewrite (list_fmap_ext _ number) by reflexivity.
    apply dedup_NoDup.
  - intros r Hr. apply list_elem_of_fmap in Hr as (r0 & -> & Hr0).
    apply dedup_elem in Hr0 as (_ & n & Hn & Hs). exists n. auto.
Qed.

End PartitionTheorems.

(* ================================================================== *)
(** * The partition in terms of the timestamps *)
(* ================================================================== *)

Section PartitionCoverage.

Import Partition.

Variable fromisoformat : string -> option Z.
Variable w : window.

Local Abbreviation classify := (classify fromisoformat w).
Local Abbreviation tagged := (retag fromisoformat w).
Local Abbreviation in_b := (in_bucket fromisoformat w).

(** The instants of a record, as the first loop reads them: the
    creation, and the update, which is the creation when [updated_at]
    is absent or empty.  [None] when the text cannot be read. *)
Definition created_time (r : RawRecord) : option Z :=
  issue_created ← truthy_string (created_at r);
  parse fromisoformat issue_created.

Definition updated_time (r : RawRecord) : option Z :=
  match truthy_string (updated_at r) with
  | Some issue_updated => parse fromisoformat issue_updated
  | None => created_time r
  end.

(** Both instants, when both can be read. *)
Definition timestamps (r : RawRecord) : option (Z * Z) :=
  created_date ← created_time r;
  updated_date ← updated_time r;
  Some (created_date, updated_date).

(** Created in the period: the timestamps can be read and the creation
    falls in the window. *)
Definition created_in_period (r : RawRecord) : bool :=
  match timestamps r with
  | Some (created_date, _) => in_window w created_date
  | None => false
  end.

(** Updated in the period: the timestamps can be read, and the update
    falls in the window and is not the creation. *)
Definition updated_in_period (r : RawRecord) : bool :=
  match timestamps r with
  | Some (created_date, updated_date) =>
      in_window w updated_date && negb (updated_date =? created_date)
  | None => false
  end.

Definition qualifies (r : RawRecord) : bool :=
  created_in_period r || updated_in_period r.

(** The qualifying records in created-then-updated order: those created
    in the period, then those only updated in it, each group in the
    order of the input. *)
Definition candidates (raw : list RawRecord) : list RawRecord :=
  (List.filter created_in_period raw
   ++ List.filter
        (fun r => negb (created_in_period r) && updated_in_period r) raw)%list.

(** [r] stands in [l], and no record before it carries its identifier. *)
Definition first_with_number (l : list RawRecord) (r : RawRecord) : Prop :=
  exists before after,
    l = (before ++ r :: after)%list
    /\ Forall (fun y => number y <> number r) before.

(** The verdict of the first loop, from the timestamps. *)
Lemma classify_timestamps (r : RawRecord) :
  classify r
  = if created_in_period r then Some Created
    else if updated_in_period r then Some Updated
    else None.
Proof.
  unfold Partition.classify, created_in_period, updated_in_period,
    timestamps, updated_time, created_time.
  destruct (truthy_string (created_at r)) as [issue_created|];
    cbn [mbind option_bind]; [|reflexivity].
  destruct (parse fromisoformat issue_created) as [created_date|];
    cbn [mbind option_bind]; [|reflexivity].
  destruct (truthy_string (updated_at r)) as [issue_updated|].
  - destruct (parse fromisoformat issue_updated) as [updated_date|];
      cbn [mbind option_bind]; reflexivity.
  - cbn [mbind option_bind]. reflexivity.
Qed.

Lemma in_bucket_created (r : RawRecord) :
  in_b Created r = created_in_period r.
Proof.
  unfold in_bucket. rewrite classify_timestamps.
  destruct (created_in_period r); [reflexivity|].
  destruct (updated_in_period r); reflexivity.
Qed.

Lemma in_bucket_updated (r : RawRecord) :
  in_b Updated r = negb (created_in_period r) && updated_in_period r.
Proof.
  unfold in_bucket. rewrite classify_timestamps.
  destruct (created_in_period r); [reflexivity|].
  destruct (updated_in_period r); reflexivity.
Qed.

Lemma buckets_candidates (raw : list RawRecord) :
  (List.filter (in_b Created) raw ++ List.filter (in_b Updated) raw)%list
  = candidates raw.
Proof.
  unfold candidates.
  rewrite (List.filter_ext _ _ in_bucket_created).
  rewrite (List.filter_ext _ _ in_bucket_updated). reflexivity.
Qed.

Lemma tagged_created (r : RawRecord) :
  tagged r = set_tag (created_in_period r) r.
Proof.
  unfold retag, is_created. f_equal.
  exact (in_bucket_created r).
Qed.

Lemma partition_issues_candidates (raw : list RawRecord) :
  partition_issues fromisoformat w raw
  = (fun r => set_tag (created_in_period r) r) <$> dedup ∅ (candidates raw).
Proof.
  rewrite partition_issues_spec. unfold partition_spec.
  rewrite buckets_candidates. apply list_fmap_ext.
  intros _ r _. apply tagged_created.
Qed.

Lemma elem_of_candidates (raw : list RawRecord) (r : RawRecord) :
  r ∈ candidates raw <-> r ∈ raw /\ qualifies r = true.
Proof.
  unfold candidates, qualifies.
  rewrite elem_of_app, !list_elem_of_In, !List.filter_In.
  destruct (created_in_period r), (updated_in_period r); cbn; intuition.
Qed.

(** Among the records that carry an identifier, one comes first. *)
Lemma first_of_number (l : list RawRecord) (r : RawRecord) :
  r ∈ l ->
  exists first, first_with_number l first /\ number first = number r.
Proof.
  induction l as [|x l IH]; intros Hr.
  - apply elem_of_nil in Hr. contradiction.
  - destruct (decide (number x = number r)) as [Hx|Hx].
    + exists x. split; [|exact Hx]. exists [], l. split; [reflexivity|].
      constructor.
    + apply elem_of_cons in Hr as [-> | Hr]; [contradiction|].
      destruct (IH Hr) as (first & (before & after & -> & Hb) & Hn).
      exists first. split; [|exact Hn].
      exists (x :: before), after. split; [reflexivity|].
      constructor; [congruence | exact Hb].
Qed.

(** The merge keeps the first record of each new non-zero identifier. *)
Lemma dedup_keeps_first (seen : gset Z) (l : list RawRecord)
    (first : RawRecord) (n : Z) :
  first_with_number l first ->
  truthy_number (number first) = Some n -> n ∉ seen ->
  first ∈ dedup seen l.
Proof.
  intros (before & after & -> & Hb) Hn. revert seen.
  induction Hb as [|y before Hy Hb IH]; intros seen Hs; cbn [app dedup].
  - rewrite Hn, bool_decide_eq_false_2 by exact Hs. left.
  - destruct (truthy_number (number y)) as [m|] eqn:Em; [|apply IH, Hs].
    destruct (bool_decide (m ∈ seen)); [apply IH, Hs|].
    right. apply IH. intros Hin.
    apply elem_of_union in Hin as [Hin | Hin]; [|contradiction].
    apply elem_of_singleton in Hin. subst m.
    apply truthy_number_Some in Em as [Em _].
    apply truthy_number_Some in Hn as [Hn _]. congruence.
Qed.

(** What the merge keeps is the first record of its identifier. *)
Lemma dedup_first (seen : gset Z) (l : list RawRecord) (r : RawRecord) :
  r ∈ dedup seen l -> first_with_number l r.
Proof.
  revert seen. induction l as [|x l IH]; intros seen; cbn [dedup].
  - intros H. apply elem_of_nil in H. contradiction.
  - assert (forall seen',
              r ∈ dedup seen' l ->
              (forall n, truthy_number (number r) = Some n -> n ∉ seen' ->
                 number x <> number r) ->
              first_with_number (x :: l) r) as Hlater.
    { intros seen' Hr Hx.
      destruct (IH seen' Hr) as (before & after & -> & Hb).
      apply dedup_elem in Hr as (_ & n & Hn & Hs).
      exists (x :: before), after. split; [reflexivity|].
      constructor; [exact (Hx n Hn Hs) | exact Hb]. }
    destruct (truthy_number (number x)) as [m|] eqn:Em.
    + destruct (bool_decide (m ∈ seen)) eqn:Es.
      * apply bool_decide_eq_true in Es. intros Hr.
        apply (Hlater seen Hr). intros n Hn Hs Heq.
        rewrite Heq, Hn in Em. injection Em as <-. contradiction.
      * intros Hr. apply elem_of_cons in Hr as [-> | Hr].
        -- exists [], l. split; [reflexivity | constructor].
        -- apply (Hlater _ Hr). intros n Hn Hs Heq.
           rewrite Heq, Hn in Em. injection Em as <-.
           apply Hs, elem_of_union. left. apply elem_of_singleton.
           reflexivity.
    + intros Hr. apply (Hlater seen Hr). intros n Hn Hs Heq.
      rewrite Heq, Hn in Em. discriminate Em.
Qed.

(** C7, as the code behaves.  Take the records that qualify: both
    timestamps can be read ([created_at] parses; [updated_at] is absent,
    empty or parses), and the record was created in the window or
    updated in it at another instant than its creation.  For every
    input, each qualifying record with a non-zero identifier is
    represented in the output by the first qualifying record that
    carries its identifier, in created-then-updated order, tagged by
    whether that record was created in the period; this is the record
    itself when no other qualifying record shares the identifier.
    Conversely every record of the output is such a first qualifying
    record with a non-zero identifier, so that records with a missing
    or zero identifier, records whose identifier an earlier qualifying
    record carries and records with an unreadable timestamp are not in
    the output; the partitioner is a total function and raises
    nothing. *)
Theorem partition_keeps_identifiers (raw : list RawRecord) :
  (forall (r : RawRecord) (n : Z),
     r ∈ raw -> qualifies r = true ->
     truthy_number (number r) = Some n ->
     exists first,
       first_with_number (candidates raw) first
       /\ number first = number r
       /\ set_tag (created_in_period first) first
          ∈ partition_issues fromisoformat w raw
       /\ ((forall r2, r2 ∈ raw -> qualifies r2 = true ->
              number r2 = number r -> r2 = r) ->
           first = r))
  /\ (forall r' : RawRecord,
        r' ∈ partition_issues fromisoformat w raw ->
        exists (r : RawRecord) (n : Z),
          r ∈ raw
          /\ r' = set_tag (created_in_period r) r
          /\ qualifies r = true
          /\ truthy_number (number r) = Some n
          /\ first_with_number (candidates raw) r).
Proof.
  rewrite partition_issues_candidates. split.
  - intros r n Hr Hq Hn.
    assert (r ∈ candidates raw) as Hc by (apply elem_of_candidates; auto).
    destruct (first_of_number _ r Hc) as (first & Hfirst & Hnum).
    exists first. split; [exact Hfirst|]. split; [exact Hnum|]. split.
    + apply list_elem_of_fmap. exists first. split; [reflexivity|].
      apply (dedup_keeps_first ∅ _ first n Hfirst);
        [rewrite Hnum; exact Hn | apply not_elem_of_empty].
    + intros Huniq.
      destruct Hfirst as (before & after & Heq & _).
      assert (first ∈ candidates raw) as Hf.
      { rewrite Heq. apply elem_of_app. right. left. }
      apply elem_of_candidates in Hf as [Hf Hfq].
      apply Huniq; assumption.
  - intros r' Hr'. apply list_elem_of_fmap in Hr' as (r & -> & Hr).
    pose proof (dedup_first _ _ _ Hr) as Hfirst.
    apply dedup_elem in Hr as (Hin & n & Hn & _).
    apply elem_of_candidates in Hin as [Hin Hq].
    exists r, n. auto 10.
Qed.

End PartitionCoverage.

(** ** A run of the partitioner *)

Module PartitionExample.

Import Partition.

(** The day 2024-05-01, from 00:00:00 UTC to the next midnight. *)
Definition day : window :=
  {| period_start := 1714521600; period_end := 1714608000; today := false |}.

Definition issue (n : Z) (created updated : string) (t : string)
    : RawRecord :=
  {| number := Some n; created_at := Some created;
     updated_at := Some updated; title := t;
     _created_in_period := None |}.

Definition first_issue : RawRecord :=
  issue 1 "2024-05-01T10:00:00Z" "2024-05-01T11:00:00Z" "first".
Definition old_issue : RawRecord :=
  issue 2 "2024-04-01T10:00:00Z" "2024-05-01T11:00:00Z" "old, updated".
Definition same_number : RawRecord :=
  issue 1 "2024-05-01T10:00:00Z" "2024-05-01T12:00:00Z" "same number".
Definition number_zero : RawRecord :=
  issue 0 "2024-05-01T10:00:00Z" "2024-05-01T10:00:00Z" "number zero".
Definition bad_update : RawRecord :=
  issue 5 "2024-05-01T10:00:00Z" "yesterday" "unreadable update".

Definition raw_issues : list RawRecord :=
  [first_issue; old_issue; same_number; number_zero; bad_update].

End PartitionExample.

Lemma partition_keeps_identifiers_witness :
  exists first,
    first_with_number
      (candidates Iso.fromisoformat PartitionExample.day
         PartitionExample.raw_issues) first
    /\ Partition.number first
       = Partition.number PartitionExample.same_number
    /\ Partition.set_tag
         (created_in_period Iso.fromisoformat PartitionExample.day first)
         first
       ∈ Partition.partition_issues Iso.fromisoformat PartitionExample.day
           PartitionExample.raw_issues
    /\ ((forall r2, r2 ∈ PartitionExample.raw_issues ->
           qualifies Iso.fromisoformat PartitionExample.day r2 = true ->
           Partition.number r2
           = Partition.number PartitionExample.same_number ->
           r2 = PartitionExample.same_number) ->
        first = PartitionExample.same_number).
Proof.
  destruct (partition_keeps_identifiers Iso.fromisoformat
              PartitionExample.day PartitionExample.raw_issues)
    as [Hkept _].
  apply (Hkept PartitionExample.same_number 1).
  - apply list_elem_of_In. right. right. left. reflexivity.
  - vm_compute. reflexivity.
  - reflexivity.
Defined.

(** C7 as stated fails.  Three records of this run were created in the
    window (their [created_at] parses and falls in it), and none of them
    is in the output: one has the number of an earlier record, one has
    the number 0, one has an [updated_at] that cannot be read. *)
Lemma partition_drops_counterexample :
  List.map
    (fun r => (Partition.title r,
               option_map (Partition.in_window PartitionExample.day)
                 (from_option (Partition.parse Iso.fromisoformat) None
                    (Partition.created_at r))))
    [PartitionExample.same_number; PartitionExample.number_zero;
     PartitionExample.bad_update]
  = [("same number", Some true); ("number zero", Some true);
     ("unreadable update", Some true)]
  /\ List.map Partition.title
       (Partition.partition_issues Iso.fromisoformat PartitionExample.day
          PartitionExample.raw_issues)
     = ["first"; "old, updated"].
Proof. split; vm_compute; reflexivity. Qed.

(* ================================================================== *)
(** * Python values, as JSON decoding produces them *)
(* ================================================================== *)

Module PyVal.

(** A dictionary is the list of its items, in insertion order, with
    distinct keys. *)
#[warnings="-register-all"]
Inductive pyval :=
| PNone
| PBool (b : bool)
| PInt (z : Z)
| PFloat (f : float)
| PStr (s : string)
| PList (l : list pyval)
| PDict (items : list (string * pyval)).

Definition type_name (v : pyval) : string :=
  match v with
  | PNone => "NoneType"
  | PBool _ => "bool"
  | PInt _ => "int"
  | PFloat _ => "float"
  | PStr _ => "str"
  | PList _ => "list"
  | PDict _ => "dict"
  end.

Fixpoint lookup_item (items : list (string * pyval)) (key : string)
    : option pyval :=
  match items with
  | [] => None
  | (k, v) :: rest => if String.eqb k key then Some v else lookup_item rest key
  end.

(** [v.get(key, default)]: only a dictionary has the method. *)
Definition py_get (v : pyval) (key : string) (default : pyval)
    : result pyval :=
  match v with
  | PDict items =>
      Ok (match lookup_item items key with
          | Some x => x
          | None => default
          end)
  | _ =>
      Raise (Exn AttributeError
               ("'" +:+ type_name v +:+ "' object has no attribute 'get'"))
  end.

(** Is the byte a continuation byte of a UTF-8 sequence? *)
Definition continuation (c : ascii) : bool :=
  let n := N_of_ascii c in (128 <=? n)%N && (n <? 192)%N.

Fixpoint take_continuation (s : string) : string :=
  match s with
  | String c s' =>
      if continuation c then String c (take_continuation s') else EmptyString
  | EmptyString => EmptyString
  end.

(** [v[0]] *)
Definition py_first (v : pyval) : result pyval :=
  match v with
  | PList (x :: _) => Ok x
  | PList [] => Raise (Exn IndexError "list index out of range")
  | PStr (String c s) => Ok (PStr (String c (take_continuation s)))
  | PStr EmptyString => Raise (Exn IndexError "string index out of range")
  | PDict _ => Raise (Exn KeyError "0")
  | _ =>
      Raise (Exn TypeError
               ("'" +:+ type_name v +:+ "' object is not subscriptable"))
  end.

(** Truth value of an object. *)
Definition truthy (v : pyval) : bool :=
  match v with
  | PNone => false
  | PBool b => b
  | PInt z => negb (z =? 0)
  | PFloat f => negb (SFeqb f (S754_zero false))
  | PStr s => negb (String.eqb s "")
  | PList l => match l with [] => false | _ => true end
  | PDict d => match d with [] => false | _ => true end
  end.

End PyVal.

(* ================================================================== *)
(** * The Qwen client of qwen_client.py *)
(* ================================================================== *)

Module Qwen.

Import PyVal.

Record QwenClient := {
  base_url : string;
  api_key : option string;
  model : string;
  max_requests_per_minute : Z;
  _request_timestamps : list float
}.

(** The truth value of [self.api_key]: [None] and the empty string are
    false. *)
Definition has_api_key (c : QwenClient) : bool :=
  match api_key c with
  | Some k => negb (String.eqb k "")
  | None => false
  end.

(** What [requests.post] is called with, as far as the client decides
    it: the address, the bearer header, the model and the text under
    analysis (the fixed prompts are left out). *)
Record request := {
  url : string;
  authorization : string;
  req_model : string;
  context : string
}.

(** What the call brings back: [requests.post] raises, or it returns a
    response on which [raise_for_status] may raise and whose [json()]
    raises or gives the decoded body. *)
Inductive post_outcome :=
| PostRaises (e : exn)
| PostReturns (status_error : option exn) (body : result pyval).

(** The outside world: the successive readings of [time.time()], the
    outcome of each call to [requests.post], and what has been consumed
    of them; [slept] logs the calls to [time.sleep]. *)
Record world := {
  now : nat -> float;
  time_reads : nat;
  http : nat -> request -> post_outcome;
  http_calls : nat;
  slept : list float
}.

Definition time_time (w : world) : float * world :=
  (now w (time_reads w),
   {| now := now w; time_reads := S (time_reads w); http := http w;
      http_calls := http_calls w; slept := slept w |}).

Definition time_sleep (sec : float) (w : world) : world :=
  {| now := now w; time_reads := time_reads w; http := http w;
     http_calls := http_calls w; slept := (slept w ++ [sec])%list |}.

Definition requests_post (r : request) (w : world) : post_outcome * world :=
  (http w (http_calls w) r,
   {| now := now w; time_reads := time_reads w; http := http w;
      http_calls := S (http_calls w); slept := slept w |}).

Definition set_timestamps (c : QwenClient) (ts : list float) : QwenClient :=
  {| base_url := base_url c; api_key := api_key c; model := model c;
     max_requests_per_minute := max_requests_per_minute c;
     _request_timestamps := ts |}.

(** [_throttle]: the state changes made before an exception stay. *)
Definition _throttle (c : QwenClient) (w : world)
    : result unit * QwenClient * world :=
  let '(now, w) := time_time w in
  let ts :=
    List.filter (fun ts => flt (fsub now ts) (of_Z 60))
      (_request_timestamps c) in
  let c := set_timestamps c ts in
  if Z.of_nat (List.length ts) >=? max_requests_per_minute c then
    match ts with
    | [] => (Raise (Exn IndexError "list index out of range"), c, w)
    | first :: _ =>
        let sleep_sec :=
          fadd (fsub (of_Z 60) (fsub now first)) (of_Z 1) in
        let w := if fgt sleep_sec (of_Z 0) then time_sleep sleep_sec w
                 else w in
        let '(t, w) := time_time w in
        (Ok tt, set_timestamps c (ts ++ [t])%list, w)
    end
  else
    let '(t, w) := time_time w in
    (Ok tt, set_timestamps c (ts ++ [t])%list, w).

Section Client.

(** [json.loads] on a string, from the Python library. *)
Variable json_parse : string -> result pyval.

Definition json_loads (v : pyval) : result pyval :=
  match v with
  | PStr s => json_parse s
  | _ =>
      Raise (Exn TypeError
               ("the JSON object must be str, bytes or bytearray, not "
                +:+ type_name v))
  end.

(** The body of the [try] block, given what the call brought back. *)
Definition read_response (o : post_outcome) : result pyval :=
  match o with
  | PostRaises e => Raise e
  | PostReturns (Some e) _ => Raise e
  | PostReturns None body =>
      data ← body;
      choices ← py_get data "choices" (PList [PDict []]);
      choice ← py_first choices;
      message ← py_get choice "message" (PDict []);
      content ← py_get message "content" (PStr "{}");
      json_loads content
  end.

Definition make_request (c : QwenClient) (ctx : string) : request :=
  {| url := base_url c +:+ "/chat/completions";
     authorization := "Bearer " +:+ default "" (api_key c);
     req_model := model c;
     context := ctx |}.

Definition pr_placeholder (comment : string) : pyval :=
  PDict [("code_quality_score", PInt 0);
         ("test_coverage_score", PInt 0);
         ("doc_maintain_score", PInt 0);
         ("compliance_security_score", PInt 0);
         ("merge_history_score", PInt 0);
         ("collaboration_score", PInt 0);
         ("comment", PStr comment)].

Definition summary_placeholder (summary : string) : pyval :=
  PDict [("summary", PStr summary)].

Definition no_key_message : string :=
  "Qwen API key 未配置，未实际调用模型。".

Definition failure_message (e : exn) : string :=
  "调用 Qwen 失败：" +:+ exn_msg e.

(** The three operations share their shape: the placeholder without a
    key, the throttle, the call, and the handler of the [try]. *)
Definition analyze (no_key : pyval) (on_failure : exn -> pyval)
    (c : QwenClient) (w : world) (ctx : string)
    : result pyval * QwenClient * world :=
  if negb (has_api_key c) then (Ok no_key, c, w)
  else
    match _throttle c w with
    | (Raise e, c, w) => (Raise e, c, w)
    | (Ok _, c, w) =>
        let '(o, w) := requests_post (make_request c ctx) w in
        (Ok (try_except (read_response o) on_failure), c, w)
    end.

Definition analyze_pr :=
  analyze (pr_placeholder no_key_message)
    (fun exc => pr_placeholder (failure_message exc)).

Definition analyze_discussion :=
  analyze (summary_placeholder no_key_message)
    (fun exc => summary_placeholder (failure_message exc)).

Definition analyze_issue_summary :=
  analyze (summary_placeholder "") (fun exc => summary_placeholder "").

End Client.

End Qwen.

(* ================================================================== *)
(** * Properties of the Qwen client *)
(* ================================================================== *)

Section QwenProperties.

Import PyVal Qwen.

Variable json_parse : string -> result pyval.

(** With a positive limit the throttle cannot raise: it reads the first
    timestamp only when at least one is left. *)
Lemma throttle_returns (c : QwenClient) (w : world) :
  1 <= max_requests_per_minute c ->
  exists c' w',
    _throttle c w = (Ok tt, c', w')
    /\ base_url c' = base_url c /\ api_key c' = api_key c
    /\ model c' = model c
    /\ http w' = http w /\ http_calls w' = http_calls w.
Proof.
  intros Hmax. unfold _throttle. cbn [time_time].
  set (ts := List.filter _ (_request_timestamps c)).
  cbn [max_requests_per_minute set_timestamps].
  destruct (Z.of_nat (List.length ts) >=? max_requests_per_minute c) eqn:E.
  - destruct ts as [|first ts'].
    + cbn in E. apply Z.geb_le in E. lia.
    + destruct (fgt _ (of_Z 0)); cbn; eauto 10.
  - cbn; eauto 10.
Qed.

(** The shape shared by the three operations. *)
Lemma analyze_spec (no_key : pyval) (on_failure : exn -> pyval)
    (c : QwenClient) (w : world) (ctx : string) :
  1 <= max_requests_per_minute c ->
  exists v c' w',
    analyze json_parse no_key on_failure c w ctx = (Ok v, c', w')
    /\ (has_api_key c = false -> v = no_key /\ c' = c /\ w' = w)
    /\ (has_api_key c = true ->
        http_calls w' = S (http_calls w)
        /\ v = try_except
                 (read_response json_parse
                    (http w (http_calls w) (make_request c ctx)))
                 on_failure).
Proof.
  intros Hmax. unfold analyze.
  destruct (has_api_key c) eqn:Ekey; cbn [negb].
  - destruct (throttle_returns c w Hmax)
      as (c' & w' & -> & Hb & Hk & Hm & Hh & Hn).
    cbn [requests_post].
    eexists _, _, _. split; [reflexivity|]. split; [discriminate|].
    intros _. cbn [http_calls]. rewrite Hn, Hh. split; [reflexivity|].
    unfold make_request. rewrite Hb, Hk, Hm. reflexivity.
  - eexists _, _, _. split; [reflexivity|]. split; [auto | discriminate].
Qed.

(** What one operation owes its caller: it returns; without a key it
    returns [no_key] and touches neither the client nor the world (no
    call, no clock reading); with a key, when the call fails with [e] it
    returns [on_failure e]. *)
Definition degrades
    (op : QwenClient -> world -> string -> result pyval * QwenClient * world)
    (no_key : pyval) (on_failure : exn -> pyval)
    (c : QwenClient) (w : world) (ctx : string) : Prop :=
  exists v c' w',
    op c w ctx = (Ok v, c', w')
    /\ (has_api_key c = false -> v = no_key /\ c' = c /\ w' = w)
    /\ (has_api_key c = true ->
        forall e,
          read_response json_parse
            (http w (http_calls w) (make_request c ctx)) = Raise e ->
          v = on_failure e).

Lemma analyze_degrades (no_key : pyval) (on_failure : exn -> pyval)
    (c : QwenClient) (w : world) (ctx : string) :
  1 <= max_requests_per_minute c ->
  degrades (analyze json_parse no_key on_failure) no_key on_failure c w ctx.
Proof.
  intros Hmax.
  destruct (analyze_spec no_key on_failure c w ctx Hmax)
    as (v & c' & w' & Heq & Hno & Hyes).
  exists v, c', w'. split; [exact Heq|]. split; [exact Hno|].
  intros Hkey e He. destruct (Hyes Hkey) as [_ ->]. rewrite He. reflexivity.
Qed.

(** C9, as the code behaves.  With a limit of at least one request per
    minute, none of the three operations raises.  Without an API key
    each returns its fixed placeholder without a call: zero scores and
    the "not configured" comment for [analyze_pr], the "not configured"
    summary for [analyze_discussion], an empty summary for
    [analyze_issue_summary].  When the call fails, [analyze_pr] and
    [analyze_discussion] return the placeholder whose text is
    "调用 Qwen 失败：" followed by the reason, and
    [analyze_issue_summary] returns an empty summary. *)
Theorem qwen_operations_degrade (c : QwenClient) (w : world)
    (ctx : string) :
  1 <= max_requests_per_minute c ->
  degrades (analyze_pr json_parse)
    (pr_placeholder no_key_message)
    (fun e => pr_placeholder (failure_message e)) c w ctx
  /\ degrades (analyze_discussion json_parse)
       (summary_placeholder no_key_message)
       (fun e => summary_placeholder (failure_message e)) c w ctx
  /\ degrades (analyze_issue_summary json_parse)
       (summary_placeholder "")
       (fun _ => summary_placeholder "") c w ctx.
Proof.
  intros Hmax. repeat split; apply analyze_degrades; exact Hmax.
Qed.

End QwenProperties.

(** ** A failing call *)

Module QwenExample.

Import PyVal Qwen.

Definition client : QwenClient :=
  {| base_url := "https://dashscope.example/v1";
     api_key := Some "sk-test";
     model := "qwen-plus";
     max_requests_per_minute := 30;
     _request_timestamps := [] |}.

Definition timed_out : exn := Exn RequestException "Read timed out.".

(** Every call times out; the clock stands at 1000 seconds. *)
Definition offline : world :=
  {| now := fun _ => of_Z 1000;
     time_reads := O;
     http := fun _ _ => PostRaises timed_out;
     http_calls := O;
     slept := [] |}.

(** No string decodes. *)
Definition no_json (s : string) : result pyval :=
  Raise (Exn JSONDecodeError "Expecting value: line 1 column 1 (char 0)").

End QwenExample.

Lemma qwen_operations_degrade_witness :
  1 <= Qwen.max_requests_per_minute QwenExample.client
  /\ degrades QwenExample.no_json
       (Qwen.analyze_pr QwenExample.no_json)
       (Qwen.pr_placeholder Qwen.no_key_message)
       (fun e => Qwen.pr_placeholder (Qwen.failure_message e))
       QwenExample.client QwenExample.offline "a pull request".
Proof.
  split; [vm_compute; discriminate|].
  apply (qwen_operations_degrade QwenExample.no_json QwenExample.client
           QwenExample.offline "a pull request").
  vm_compute. discriminate.
Defined.

(** C9 as stated fails: when the call times out, [analyze_pr] carries
    the reason in its comment, but [analyze_issue_summary] returns an
    empty summary, which carries no reason. *)
Lemma qwen_issue_summary_counterexample :
  fst (fst (Qwen.analyze_pr QwenExample.no_json QwenExample.client
              QwenExample.offline "an issue"))
  = Ok (Qwen.pr_placeholder "调用 Qwen 失败：Read timed out.")
  /\ fst (fst (Qwen.analyze_issue_summary QwenExample.no_json
                 QwenExample.client QwenExample.offline "an issue"))
     = Ok (PyVal.PDict [("summary", PyVal.PStr "")]).
Proof. split; vm_compute; reflexivity. Qed.

(* ================================================================== *)
(** * Conversions of Python values *)
(* ================================================================== *)

Module Conv.

Import PyVal.

(** The integer part of a finite float, towards zero. *)
Definition trunc (f : float) : option Z :=
  match f with
  | S754_zero _ => Some 0
  | S754_finite s m e =>
      let v := match e with
               | Z0 => Zpos m
               | Zpos p => Zpos m * 2 ^ Zpos p
               | Zneg p => Zpos m / 2 ^ Zpos p
               end in
      Some (if s then - v else v)
  | _ => None
  end.

Definition is_ascii_space (c : ascii) : bool :=
  let n := N_of_ascii c in
  (n =? 32)%N || (9 <=? n)%N && (n <=? 13)%N.

Fixpoint lstrip (s : list ascii) : list ascii :=
  match s with
  | c :: s' => if is_ascii_space c then lstrip s' else s
  | [] => []
  end.

Definition strip (s : list ascii) : list ascii :=
  List.rev (lstrip (List.rev (lstrip s))).

Definition digit_value (c : ascii) : option Z :=
  let n := Z.of_N (N_of_ascii c) in
  if (48 <=? n) && (n <=? 57) then Some (n - 48) else None.

(** The digits of a decimal literal: single underscores may separate
    digits, nothing else may appear.  [acc] is the value so far and
    [after_digit] tells whether the previous character was a digit. *)
Fixpoint digits (s : list ascii) (acc : Z) (after_digit : bool)
    : option Z :=
  match s with
  | [] => if after_digit then Some acc else None
  | c :: s' =>
      match digit_value c with
      | Some d => digits s' (10 * acc + d) true
      | None =>
          if Ascii.eqb c "_" && after_digit then digits s' acc false
          else None
      end
  end.

(** [int(s)] on ASCII text: white space around, an optional sign, then
    the digits.  (The digits of other scripts, which Python also
    accepts, are not read.) *)
Definition int_of_string (s : string) : option Z :=
  match strip (list_ascii_of_string s) with
  | "-"%char :: rest => z ← digits rest 0 false; Some (- z)
  | "+"%char :: rest => digits rest 0 false
  | rest => digits rest 0 false
  end.

(** [int(v)].  The message of the [ValueError] quotes the text as
    [repr] does for a text without quotes, backslashes or unprintable
    characters. *)
Definition py_int (v : pyval) : result Z :=
  match v with
  | PInt z => Ok z
  | PBool b => Ok (if b then 1 else 0)
  | PFloat f =>
      match trunc f with
      | Some z => Ok z
      | None =>
          if is_nan f
          then Raise (Exn ValueError "cannot convert float NaN to integer")
          else Raise (Exn OverflowError
                        "cannot convert float infinity to integer")
      end
  | PStr s =>
      match int_of_string s with
      | Some z => Ok z
      | None =>
          Raise (Exn ValueError
                   ("invalid literal for int() with base 10: '"
                    +:+ s +:+ "'"))
      end
  | _ =>
      Raise (Exn TypeError
               ("int() argument must be a string, a bytes-like object "
                +:+ "or a real number, not '" +:+ type_name v +:+ "'"))
  end.

(** The first [n] characters of a UTF-8 string: a character is a byte
    that is not a continuation byte, with the continuation bytes that
    follow it. *)
Fixpoint take_chars (n : nat) (s : string) : string :=
  match s with
  | EmptyString => EmptyString
  | String c s' =>
      if continuation c then String c (take_chars n s')
      else
        match n with
        | O => EmptyString
        | S n' => String c (take_chars n' s')
        end
  end.

Definition ascii_lower (c : ascii) : ascii :=
  let n := N_of_ascii c in
  if (65 <=? n)%N && (n <=? 90)%N then ascii_of_N (n + 32) else c.

(** [s.lower()], on the ASCII letters. *)
Fixpoint lower (s : string) : string :=
  match s with
  | EmptyString => EmptyString
  | String c s' => String (ascii_lower c) (lower s')
  end.

Fixpoint starts_with (needle s : string) : bool :=
  match needle, s with
  | EmptyString, _ => true
  | String a n', String b s' => Ascii.eqb a b && starts_with n' s'
  | String _ _, EmptyString => false
  end.

(** [needle in s] *)
Fixpoint contains (needle s : string) : bool :=
  starts_with needle s
  || match s with
     | EmptyString => false
     | String _ s' => contains needle s'
     end.

(** [sep.join(l)] *)
Fixpoint join (sep : string) (l : list string) : string :=
  match l with
  | [] => ""
  | [x] => x
  | x :: rest => x +:+ sep +:+ join sep rest
  end.

End Conv.

(* ================================================================== *)
(** * Classification and assembly of pull requests (analyzer.py) *)
(* ================================================================== *)

Module Analyzer.

Import PyVal Conv.

Definition _classify_issue_category (title body : string)
    (labels : list string) : string :=
  let text := lower (title +:+ String "010"%char body) in
  let label_text := lower (join " " labels) in
  if contains "bug" label_text || contains "bug" text
     || contains "error" text || contains "fix" text
  then "bug"
  else if contains "feature" label_text || contains "enhancement" label_text
          || contains "feat" text || contains "request" text
  then "feature request"
  else if contains "question" label_text || contains "how to" text
          || contains "help" label_text
  then "question"
  else "other".

Definition _detect_pr_type (title body : string) (labels : list string)
    : string :=
  let text := lower (title +:+ String "010"%char body) in
  let label_text := lower (join " " labels) in
  if contains "feat" text || contains "feature" text
     || contains "enhancement" label_text
  then "feat"
  else if contains "fix" text || contains "bug" label_text then "fix"
  else if contains "refactor" text || contains "opt" text
          || contains "optimization" text
  then "opt"
  else if contains "test" label_text || contains "test" text then "test"
  else if contains "doc" label_text || contains "docs" text then "docs"
  else "other".

(** What an object of the API holds under a key: nothing (the key is
    absent), [null], or a value. *)
Inductive held (A : Type) :=
| Absent
| Null
| Value (a : A).
Arguments Absent {A}.
Arguments Null {A}.
Arguments Value {A} a.

(** [d.get(key, default)]; the result [None] is Python's [None]. *)
Definition get {A : Type} (h : held A) (default : A) : option A :=
  match h with
  | Absent => Some default
  | Null => None
  | Value a => Some a
  end.

(** A pull request as the GitHub API details it.  The keys that the
    code reads with a default and no [or] ("number", "title", "state",
    "created_at", "user") tell an absent key from a null one.  For the
    others [None] stands for both, which the code reads alike: [or]
    replaces null by the default, and "merged_at" is read without a
    default.  [pr_user] is the user object, seen through its "login"
    key.  [pr_labels] holds the names of the labels: the labels are
    taken to be a list of objects with string names, as the API gives
    them. *)
Record RawPR := {
  pr_number : held Z;
  pr_title : held string;
  pr_body : option string;
  pr_state : held string;
  pr_labels : list string;
  pr_created_at : held string;
  pr_merged_at : option string;
  pr_user : held (held string);
  pr_changed_files : option Z;
  pr_additions : option Z;
  pr_deletions : option Z;
  pr_commits : option Z
}.

(** The dataclass checks no type: the fields read with [.get] hold
    [None] when the key is null. *)
Record PRAnalysis := {
  number : option Z;
  title : option string;
  state : option string;
  labels : list string;
  created_at : option string;
  merged_at : option string;
  author : option string;
  changed_files : Z;
  additions : Z;
  deletions : Z;
  commits : Z;
  pr_type : string;
  size_category : string;
  priority : string;
  type_score : Z;
  size_score : Z;
  code_quality_score : Z;
  test_coverage_score : Z;
  doc_maintain_score : Z;
  compliance_security_score : Z;
  merge_history_score : Z;
  collaboration_score : Z;
  total_score : float;
  rating : string;
  qwen_comment : string
}.

Section Assembler.

(** [str(v)] for a value that is not a string, from the Python
    runtime. *)
Variable repr : pyval -> string.

Definition py_str (v : pyval) : string :=
  match v with
  | PStr s => s
  | other => repr other
  end.

(** [int(qwen_data.get(key, 0))] *)
Definition score_of (qwen_data : pyval) (key : string) : result Z :=
  v ← py_get qwen_data key (PInt 0); py_int v.

(** [qwen_results.get(pr.get("number", 0))]: the keys of
    [qwen_results] are ints, so nothing is found under [None]. *)
Definition answer_for (qwen_results : gmap Z pyval) (pr : RawPR)
    : option pyval :=
  number ← get (pr_number pr) 0; qwen_results !! number.

(** [pr.get("user", {}).get("login", "")]: a null user has no [get]. *)
Definition author_of (user : held (held string)) : result (option string) :=
  match user with
  | Absent => Ok (Some "")
  | Null =>
      Raise (Exn AttributeError "'NoneType' object has no attribute 'get'")
  | Value login => Ok (get login "")
  end.

(** The body of the loop of [analyze_pull_requests]. *)
Definition analyze_pull_request (qwen_results : gmap Z pyval) (pr : RawPR)
    : result PRAnalysis :=
  let labels := pr_labels pr in
  let pr_type :=
    _detect_pr_type (default "" (get (pr_title pr) ""))
      (default "" (pr_body pr)) labels in
  let type_score := _type_score pr_type in
  let '(size_category, size_score) :=
    _size_category_and_score (default 0 (pr_additions pr))
      (default 0 (pr_deletions pr)) in
  let priority := _priority pr_type in
  let found := default (PDict []) (answer_for qwen_results pr) in
  let qwen_data := if truthy found then found else PDict [] in
  code_quality_score ← score_of qwen_data "code_quality_score";
  test_coverage_score ← score_of qwen_data "test_coverage_score";
  doc_maintain_score ← score_of qwen_data "doc_maintain_score";
  compliance_security_score ← score_of qwen_data "compliance_security_score";
  merge_history_score ← score_of qwen_data "merge_history_score";
  collaboration_score ← score_of qwen_data "collaboration_score";
  comment_value ← py_get qwen_data "comment" (PStr "");
  let comment := take_chars 500 (py_str comment_value) in
  total_score ←
    _calc_total_score type_score size_score code_quality_score
      test_coverage_score doc_maintain_score compliance_security_score
      merge_history_score collaboration_score;
  author ← author_of (pr_user pr);
  Ok {| number := get (pr_number pr) 0;
        title := get (pr_title pr) "";
        state := get (pr_state pr) "";
        labels := labels;
        created_at := get (pr_created_at pr) "";
        merged_at := pr_merged_at pr;
        author := author;
        changed_files := default 0 (pr_changed_files pr);
        additions := default 0 (pr_additions pr);
        deletions := default 0 (pr_deletions pr);
        commits := default 0 (pr_commits pr);
        pr_type := pr_type;
        size_category := size_category;
        priority := priority;
        type_score := type_score;
        size_score := size_score;
        code_quality_score := code_quality_score;
        test_coverage_score := test_coverage_score;
        doc_maintain_score := doc_maintain_score;
        compliance_security_score := compliance_security_score;
        merge_history_score := merge_history_score;
        collaboration_score := collaboration_score;
        total_score := total_score;
        rating := _rating total_score;
        qwen_comment := comment |}.

(** [analyze_pull_requests]: the first exception ends the loop. *)
Fixpoint analyze_pull_requests (raw_pr_details : list RawPR)
    (qwen_results : gmap Z pyval) : result (list PRAnalysis) :=
  match raw_pr_details with
  | [] => Ok []
  | pr :: rest =>
      a ← analyze_pull_request qwen_results pr;
      results ← analyze_pull_requests rest qwen_results;
      Ok (a :: results)
  end.

End Assembler.

End Analyzer.

(** ** A scorer answer that is not a number *)

Module AssemblerExample.

Import PyVal Analyzer.

Definition caching_pr : RawPR :=
  {| pr_number := Value 7;
     pr_title := Value "feat: add caching layer";
     pr_body := Some "";
     pr_state := Value "open";
     pr_labels := [];
     pr_created_at := Value "2024-05-01T10:00:00Z";
     pr_merged_at := None;
     pr_user := Value (Value "octocat");
     pr_changed_files := Some 4;
     pr_additions := Some 300;
     pr_deletions := Some 10;
     pr_commits := Some 2 |}.

(** The scorer answered a word for one score. *)
Definition worded : gmap Z pyval :=
  {[ 7 := PDict [("code_quality_score", PStr "high");
                 ("test_coverage_score", PInt 7);
                 ("comment", PStr "fine")] ]}.

(** The scorer answered [null] for one score. *)
Definition nulled : gmap Z pyval :=
  {[ 7 := PDict [("code_quality_score", PNone)] ]}.

End AssemblerExample.

(** C4 fails on the code: a dimension score that is present but not a
    number does not default to 0; [int] raises and no analysis record is
    produced. *)
Theorem analyze_pull_requests_non_numeric_raises
    (repr : PyVal.pyval -> string) :
  Analyzer.analyze_pull_requests repr [AssemblerExample.caching_pr]
    AssemblerExample.worded
  = Raise (Exn ValueError "invalid literal for int() with base 10: 'high'")
  /\ Analyzer.analyze_pull_requests repr [AssemblerExample.caching_pr]
       AssemblerExample.nulled
     = Raise (Exn TypeError
                ("int() argument must be a string, a bytes-like object "
                 +:+ "or a real number, not 'NoneType'")).
Proof. split; vm_compute; reflexivity. Qed.

(* ================================================================== *)
(** * The score tables and the assembly of one analysis record *)
(* ================================================================== *)

Section AssemblyProperties.

Import PyVal Conv Analyzer.

(** [str(v)] for a value that is not a string. *)
Variable repr : pyval -> string.

(** The dictionary of [_type_score] read as a cascade: "docs" and the
    unknown types share the score 5. *)
Lemma type_score_cases (pr_type : string) :
  _type_score pr_type
  = if String.eqb pr_type "feat" then 10
    else if String.eqb pr_type "opt" then 8
    else if String.eqb pr_type "fix" then 6
    else if String.eqb pr_type "test" then 4
    else 5.
Proof.
  unfold _type_score.
  destruct (String.eqb_spec pr_type "feat") as [->|Hfeat]; [reflexivity|].
  destruct (String.eqb_spec pr_type "opt") as [->|Hopt]; [reflexivity|].
  destruct (String.eqb_spec pr_type "fix") as [->|Hfix]; [reflexivity|].
  destruct (String.eqb_spec pr_type "test") as [->|Htest]; [reflexivity|].
  rewrite !lookup_insert_ne by congruence.
  destruct (decide (pr_type = "docs")) as [->|Hdocs]; [reflexivity|].
  rewrite lookup_singleton_ne by congruence. reflexivity.
Qed.

Lemma type_score_values (pr_type : string) :
  In (_type_score pr_type) [10; 8; 6; 4; 5].
Proof.
  rewrite type_score_cases.
  repeat match goal with |- context [String.eqb ?a ?b] =>
    destruct (String.eqb a b) end; simpl; auto 10.
Qed.

Lemma size_score_values (additions deletions : Z) :
  In (snd (_size_category_and_score additions deletions)) [5; 7; 9].
Proof.
  unfold _size_category_and_score.
  destruct (_ <? 50); [simpl; auto|].
  destruct (_ <=? 200); simpl; auto.
Qed.

(** The place of a priority label in the order P1, P2, P3, P4. *)
Definition priority_rank (priority : string) : Z :=
  if String.eqb priority "P1" then 1
  else if String.eqb priority "P2" then 2
  else if String.eqb priority "P3" then 3
  else 4.

(** The six dimension keys of a scorer answer. *)
Definition dimension_keys : list string :=
  ["code_quality_score"; "test_coverage_score"; "doc_maintain_score";
   "compliance_security_score"; "merge_history_score";
   "collaboration_score"].

(** A scorer answer whose dimension scores, where present, are ints
    between 0 and 10. *)
Definition well_scored (items : list (string * pyval)) : Prop :=
  forall key v,
    In key dimension_keys -> lookup_item items key = Some v ->
    exists z, v = PInt z /\ 0 <= z <= 10.

(** The value [qwen_data.get(key, 0)] has before [int] is applied. *)
Definition answered (items : list (string * pyval)) (key : string) : pyval :=
  match lookup_item items key with
  | Some v => v
  | None => PInt 0
  end.

Lemma score_of_dict (items : list (string * pyval)) (key : string) :
  score_of (PDict items) key = py_int (answered items key).
Proof. reflexivity. Qed.

Lemma score_of_well_scored (items : list (string * pyval)) (key : string) :
  well_scored items -> In key dimension_keys ->
  exists z, score_of (PDict items) key = Ok z /\ 0 <= z <= 10
            /\ answered items key = PInt z.
Proof.
  intros Hw Hkey. rewrite score_of_dict. unfold answered.
  destruct (lookup_item items key) as [v|] eqn:E.
  - destruct (Hw key v Hkey E) as (z & -> & Hz). exists z. auto.
  - exists 0. split; [reflexivity|]. split; [lia | reflexivity].
Qed.

(** A dictionary keeps its truth value through [or {}]. *)
Lemma dict_or_empty (items : list (string * pyval)) :
  (if truthy (PDict items) then PDict items else PDict []) = PDict items.
Proof. destruct items; reflexivity. Qed.

(** Without dimension scores the total is half the sum of the type and
    size scores, which is rated fair. *)
Lemma calc_total_score_without_dimensions (t s : Z) :
  In t [10; 8; 6; 4; 5] -> In s [5; 7; 9] ->
  exists total : float,
    _calc_total_score t s 0 0 0 0 0 0 = Ok total
    /\ is_finite total = true
    /\ (to_Q total == (t + s) # 2)%Q
    /\ _rating total = fair.
Proof.
  intros Ht Hs. simpl in Ht, Hs.
  repeat (destruct Ht as [<- | Ht]; [|]);
    try (destruct Ht);
    repeat (destruct Hs as [<- | Hs]; [|]);
    try (destruct Hs);
    (eexists; split; [vm_compute; reflexivity|];
     split; [vm_compute; reflexivity|];
     split; vm_compute; reflexivity).
Qed.

(** What a record holds when every dimension score is 0. *)
Definition zero_scored (a : PRAnalysis) : Prop :=
  code_quality_score a = 0 /\ test_coverage_score a = 0
  /\ doc_maintain_score a = 0 /\ compliance_security_score a = 0
  /\ merge_history_score a = 0 /\ collaboration_score a = 0
  /\ is_finite (total_score a) = true
  /\ (to_Q (total_score a) == (type_score a + size_score a) # 2)%Q
  /\ rating a = fair.

(** How the assembly of a record ends when its scores raise nothing:
    it fails on a null "user" only, where [.get] is called on [None];
    otherwise it returns a record, of which [P] holds. *)
Definition assembled (outcome : result PRAnalysis) (pr : RawPR)
    (P : PRAnalysis -> Prop) : Prop :=
  match pr_user pr with
  | Null =>
      outcome
      = Raise (Exn AttributeError "'NoneType' object has no attribute 'get'")
  | _ => exists a, outcome = Ok a /\ P a
  end.

Lemma assembled_author (pr : RawPR) (P : PRAnalysis -> Prop)
    (build : option string -> PRAnalysis) :
  (forall author, P (build author)) ->
  assembled (author ← author_of (pr_user pr); Ok (build author)) pr P.
Proof.
  intros HP. unfold assembled.
  destruct (pr_user pr) as [| |login]; cbn [author_of mbind result_bind Py.bind].
  - eexists. split; [reflexivity | apply HP].
  - reflexivity.
  - eexists. split; [reflexivity | apply HP].
Qed.

Lemma analyze_pull_request_zero (qwen_results : gmap Z pyval) (pr : RawPR)
    (items : list (string * pyval)) :
  (let found := default (PDict []) (answer_for qwen_results pr) in
   if truthy found then found else PDict []) = PDict items ->
  (forall key, In key dimension_keys -> answered items key = PInt 0) ->
  assembled (analyze_pull_request repr qwen_results pr) pr
    (fun a =>
       zero_scored a
       /\ qwen_comment a
          = take_chars 500
              (py_str repr (match lookup_item items "comment" with
                            | Some v => v
                            | None => PStr ""
                            end))).
Proof.
  intros Hdata Hzero. cbn zeta in Hdata.
  unfold analyze_pull_request.
  pose proof (size_score_values (default 0 (pr_additions pr))
                (default 0 (pr_deletions pr))) as Hs.
  destruct (_size_category_and_score _ _) as [cat s]. cbn [snd] in Hs.
  rewrite Hdata.
  rewrite !score_of_dict.
  rewrite !Hzero by (unfold dimension_keys; simpl; auto 10).
  cbn [py_int mbind result_bind Py.bind py_get].
  destruct (calc_total_score_without_dimensions _ s
              (type_score_values (_detect_pr_type
                 (default "" (get (pr_title pr) ""))
                 (default "" (pr_body pr)) (pr_labels pr))) Hs)
    as (total & -> & Hfin & Hq & Hr).
  cbn [mbind result_bind Py.bind].
  apply (assembled_author pr _
           (fun author =>
              {| number := _; title := _; state := _; labels := _;
                 created_at := _; merged_at := _; author := author;
                 changed_files := _; additions := _; deletions := _;
                 commits := _; pr_type := _; size_category := _;
                 priority := _; type_score := _; size_score := _;
                 code_quality_score := _; test_coverage_score := _;
                 doc_maintain_score := _; compliance_security_score := _;
                 merge_history_score := _; collaboration_score := _;
                 total_score := _; rating := _; qwen_comment := _ |})).
  intros author. split; [|reflexivity].
  unfold zero_scored.
  cbn [code_quality_score test_coverage_score doc_maintain_score
       compliance_security_score merge_history_score collaboration_score
       total_score type_score size_score rating].
  auto 12.
Qed.

(** X1. When the scorer's results hold nothing for a pull request, or
    hold a value that counts as false, the scores raise nothing.  The
    assembly then fails only when "user" is null, with the
    [AttributeError] of [None.get]; otherwise it returns a record whose
    six dimension scores are 0, whose comment is empty, whose total is
    half the sum of the type and size scores, and whose rating is 一般
    (fair). *)
Theorem analyze_pull_request_without_answer
    (qwen_results : gmap Z pyval) (pr : RawPR) :
  truthy (default (PDict []) (answer_for qwen_results pr)) = false ->
  assembled (analyze_pull_request repr qwen_results pr) pr
    (fun a => zero_scored a /\ qwen_comment a = "").
Proof.
  intros Hfalse.
  apply (analyze_pull_request_zero qwen_results pr []).
  - cbn zeta. rewrite Hfalse. reflexivity.
  - reflexivity.
Qed.

(** X2. The placeholder that [analyze_pr] returns without a key or after
    a failed call goes through the scoring without an exception.  The
    assembly then fails only when "user" is null, with the
    [AttributeError] of [None.get]; otherwise it returns a record whose
    six dimension scores are 0, whose rating is 一般 (fair), and whose
    comment is the first 500 characters of the placeholder's message. *)
Theorem analyze_pull_request_on_placeholder
    (qwen_results : gmap Z pyval) (pr : RawPR) (message : string) :
  answer_for qwen_results pr = Some (Qwen.pr_placeholder message) ->
  assembled (analyze_pull_request repr qwen_results pr) pr
    (fun a => zero_scored a /\ qwen_comment a = take_chars 500 message).
Proof.
  intros Hfound.
  apply (analyze_pull_request_zero qwen_results pr
           [("code_quality_score", PInt 0);
            ("test_coverage_score", PInt 0);
            ("doc_maintain_score", PInt 0);
            ("compliance_security_score", PInt 0);
            ("merge_history_score", PInt 0);
            ("collaboration_score", PInt 0);
            ("comment", PStr message)]).
  - cbn zeta. rewrite Hfound. reflexivity.
  - intros key Hkey. unfold dimension_keys in Hkey. simpl in Hkey.
    repeat (destruct Hkey as [<- | Hkey]; [reflexivity|]).
    destruct Hkey.
Qed.

(** The total of scores between 0 and 10: finite, between 0 and 100, and
    exactly the weighted sum rounded to one decimal place. *)
Lemma calc_total_score_in_range (t s c1 c2 c3 c4 c5 c6 : Z) :
  0 <= t <= 10 -> 0 <= s <= 10 -> 0 <= c1 <= 10 -> 0 <= c2 <= 10 ->
  0 <= c3 <= 10 -> 0 <= c4 <= 10 -> 0 <= c5 <= 10 -> 0 <= c6 <= 10 ->
  exists total : float,
    _calc_total_score t s c1 c2 c3 c4 c5 c6 = Ok total
    /\ is_finite total = true
    /\ fle (of_Z 0) total = true
    /\ fle total (of_Z 100) = true
    /\ (to_Q total
        == ScoreSpec.round_1dp
             (ScoreSpec.weighted_sum t s c1 c2 c3 c4 c5 c6))%Q.
Proof.
  intros Ht Hs H1 H2 H3 H4 H5 H6.
  destruct (calc_total_score_reachable _ _ _ _ _ _ _ _
              Ht Hs H1 H2 H3 H4 H5 H6) as (st & Hin & Hfst & Hcalc).
  pose proof stage8_final_ok as Hall.
  rewrite List.forallb_forall in Hall.
  destruct (final_ok_spec st (Hall st Hin)) as (Hfin & Heq & Hle0 & Hle100).
  exists (round1 (snd st)). repeat split; try assumption.
  rewrite Heq, round_1dp_weighted_sum, Hfst. reflexivity.
Qed.

(** What a record owes to a scorer answer [items] within range. *)
Definition scored_as (items : list (string * pyval)) (a : PRAnalysis)
    : Prop :=
  answered items "code_quality_score" = PInt (code_quality_score a)
  /\ answered items "test_coverage_score" = PInt (test_coverage_score a)
  /\ answered items "doc_maintain_score" = PInt (doc_maintain_score a)
  /\ answered items "compliance_security_score"
     = PInt (compliance_security_score a)
  /\ answered items "merge_history_score" = PInt (merge_history_score a)
  /\ answered items "collaboration_score" = PInt (collaboration_score a)
  /\ is_finite (total_score a) = true
  /\ fle (of_Z 0) (total_score a) = true
  /\ fle (total_score a) (of_Z 100) = true
  /\ (to_Q (total_score a)
      == ScoreSpec.round_1dp
           (ScoreSpec.weighted_sum (type_score a) (size_score a)
              (code_quality_score a) (test_coverage_score a)
              (doc_maintain_score a) (compliance_security_score a)
              (merge_history_score a) (collaboration_score a)))%Q.

(** X3. When the scorer's answer for a pull request is a dictionary
    whose dimension scores, where present, are ints between 0 and 10,
    the scoring raises nothing (the type and size scores the code
    derives are always within range).  The assembly then fails only when
    "user" is null, with the [AttributeError] of [None.get]; otherwise
    it returns a record in which each dimension score is the answered
    one (0 when absent), and whose total is finite, between 0 and 100,
    and equal to the weighted sum of the record's eight scores rounded
    to one decimal place. *)
Theorem analyze_pull_request_well_scored
    (qwen_results : gmap Z pyval) (pr : RawPR)
    (items : list (string * pyval)) :
  answer_for qwen_results pr = Some (PDict items) ->
  well_scored items ->
  assembled (analyze_pull_request repr qwen_results pr) pr (scored_as items).
Proof.
  intros Hfound Hw. unfold analyze_pull_request.
  pose proof (size_score_values (default 0 (pr_additions pr))
                (default 0 (pr_deletions pr))) as Hs.
  destruct (_size_category_and_score _ _) as [cat s]. cbn [snd] in Hs.
  pose proof (type_score_values (_detect_pr_type
                 (default "" (get (pr_title pr) ""))
                 (default "" (pr_body pr)) (pr_labels pr))) as Ht.
  set (t := _type_score _) in *.
  rewrite Hfound.
  change (default (PDict []) (Some (PDict items))) with (PDict items).
  rewrite dict_or_empty.
  destruct (score_of_well_scored items "code_quality_score" Hw)
    as (c1 & -> & H1 & A1); [unfold dimension_keys; simpl; auto 10|].
  destruct (score_of_well_scored items "test_coverage_score" Hw)
    as (c2 & -> & H2 & A2); [unfold dimension_keys; simpl; auto 10|].
  destruct (score_of_well_scored items "doc_maintain_score" Hw)
    as (c3 & -> & H3 & A3); [unfold dimension_keys; simpl; auto 10|].
  destruct (score_of_well_scored items "compliance_security_score" Hw)
    as (c4 & -> & H4 & A4); [unfold dimension_keys; simpl; auto 10|].
  destruct (score_of_well_scored items "merge_history_score" Hw)
    as (c5 & -> & H5 & A5); [unfold dimension_keys; simpl; auto 10|].
  destruct (score_of_well_scored items "collaboration_score" Hw)
    as (c6 & -> & H6 & A6); [unfold dimension_keys; simpl; auto 10|].
  cbn [mbind result_bind Py.bind py_get].
  assert (0 <= t <= 10) as Ht'.
  { simpl in Ht. lia. }
  assert (0 <= s <= 10) as Hs'.
  { simpl in Hs. lia. }
  destruct (calc_total_score_in_range t s c1 c2 c3 c4 c5 c6
              Ht' Hs' H1 H2 H3 H4 H5 H6)
    as (total & -> & Hfin & Hle0 & Hle100 & Hq).
  cbn [mbind result_bind Py.bind].
  apply (assembled_author pr _
           (fun author =>
              {| number := _; title := _; state := _; labels := _;
                 created_at := _; merged_at := _; author := author;
                 changed_files := _; additions := _; deletions := _;
                 commits := _; pr_type := _; size_category := _;
                 priority := _; type_score := _; size_score := _;
                 code_quality_score := _; test_coverage_score := _;
                 doc_maintain_score := _; compliance_security_score := _;
                 merge_history_score := _; collaboration_score := _;
                 total_score := _; rating := _; qwen_comment := _ |})).
  intros author. unfold scored_as.
  cbn [code_quality_score test_coverage_score doc_maintain_score
       compliance_security_score merge_history_score collaboration_score
       total_score type_score size_score].
  auto 14.
Qed.

(** When the assembly of one record succeeds, the record carries the
    number of its pull request. *)
Lemma analyze_pull_request_number (qwen_results : gmap Z pyval)
    (pr : RawPR) (a : PRAnalysis) :
  analyze_pull_request repr qwen_results pr = Ok a ->
  number a = get (pr_number pr) 0.
Proof.
  unfold analyze_pull_request.
  destruct (_size_category_and_score _ _) as [cat s].
  set (qwen_data := if truthy _ then _ else _).
  destruct (score_of qwen_data "code_quality_score");
    cbn [mbind result_bind Py.bind]; [|discriminate].
  destruct (score_of qwen_data "test_coverage_score");
    cbn [mbind result_bind Py.bind]; [|discriminate].
  destruct (score_of qwen_data "doc_maintain_score");
    cbn [mbind result_bind Py.bind]; [|discriminate].
  destruct (score_of qwen_data "compliance_security_score");
    cbn [mbind result_bind Py.bind]; [|discriminate].
  destruct (score_of qwen_data "merge_history_score");
    cbn [mbind result_bind Py.bind]; [|discriminate].
  destruct (score_of qwen_data "collaboration_score");
    cbn [mbind result_bind Py.bind]; [|discriminate].
  destruct (py_get qwen_data "comment" (PStr ""));
    cbn [mbind result_bind Py.bind]; [|discriminate].
  destruct (_calc_total_score _ _ _ _ _ _ _ _);
    cbn [mbind result_bind Py.bind]; [|discriminate].
  destruct (author_of (pr_user pr));
    cbn [mbind result_bind Py.bind]; [|discriminate].
  intros [= <-]. reflexivity.
Qed.

(** X4. [analyze_pull_requests] gives all or nothing: it returns a list
    exactly when the assembly of every pull request succeeds, and the
    list then holds these records in the order of the input, one per
    pull request and with its number. *)
Theorem analyze_pull_requests_all_or_nothing
    (raw_pr_details : list RawPR) (qwen_results : gmap Z pyval)
    (results : list PRAnalysis) :
  analyze_pull_requests repr raw_pr_details qwen_results = Ok results
  <-> Forall2 (fun pr a => analyze_pull_request repr qwen_results pr = Ok a
                           /\ number a = get (pr_number pr) 0)
        raw_pr_details results.
Proof.
  revert results.
  induction raw_pr_details as [|pr rest IH]; intros results; cbn.
  - split.
    + intros [= <-]. constructor.
    + intros H. inversion H. reflexivity.
  - split.
    + destruct (analyze_pull_request repr qwen_results pr) as [a|e] eqn:Ea;
        cbn [mbind result_bind Py.bind]; [|discriminate].
      destruct (analyze_pull_requests repr rest qwen_results) as [l|e];
        cbn [mbind result_bind Py.bind]; [|discriminate].
      intros [= <-]. constructor.
      * split; [exact Ea|].
        apply (analyze_pull_request_number qwen_results), Ea.
      * apply IH. reflexivity.
    + intros H. inversion H as [|? a ? l [Ha _] Hl]; subst.
      rewrite Ha. cbn [mbind result_bind Py.bind].
      apply IH in Hl. rewrite Hl. reflexivity.
Qed.

(** X5. One failing pull request fails the batch: [analyze_pull_requests]
    raises exactly when the assembly of some pull request of the input
    raises, and the records of the others are lost. *)
Theorem analyze_pull_requests_raises_iff
    (raw_pr_details : list RawPR) (qwen_results : gmap Z pyval) :
  raises (analyze_pull_requests repr raw_pr_details qwen_results)
  <-> exists pr, In pr raw_pr_details
                 /\ raises (analyze_pull_request repr qwen_results pr).
Proof.
  induction raw_pr_details as [|pr rest IH]; cbn.
  - split; [intros [] | intros (pr & [] & _)].
  - destruct (analyze_pull_request repr qwen_results pr) as [a|e] eqn:Ea;
      cbn [mbind result_bind Py.bind].
    + destruct (analyze_pull_requests repr rest qwen_results) as [l|e'];
        cbn [mbind result_bind Py.bind raises] in *.
      * split; [intros []|].
        intros (pr' & [<- | Hin] & Hr).
        -- rewrite Ea in Hr. exact Hr.
        -- apply IH. eauto.
      * split; [|auto]. intros _.
        destruct (proj1 IH I) as (pr' & Hin & Hr). eauto.
    + cbn [raises]. split; [|auto]. intros _.
      exists pr. rewrite Ea. cbn. auto.
Qed.

(** X6. The priority and the type score agree on the order of the types:
    of two types, the one with the more urgent priority (P1 before P2
    before P3 before P4) has the strictly higher type score. *)
Theorem priority_orders_type_score (pr_type other_type : string) :
  priority_rank (_priority pr_type) < priority_rank (_priority other_type) ->
  _type_score other_type < _type_score pr_type.
Proof.
  rewrite !type_score_cases. unfold _priority.
  destruct (String.eqb_spec pr_type "feat") as [->|]; cbn [orb];
    [|destruct (String.eqb_spec pr_type "opt") as [->|]; cbn [orb];
      [|destruct (String.eqb_spec pr_type "fix") as [->|]; cbn [orb];
        [|destruct (String.eqb_spec pr_type "test") as [->|]; cbn [orb];
          [|destruct (String.eqb_spec pr_type "docs") as [->|];
            cbn [orb]]]]];
  (destruct (String.eqb_spec other_type "feat") as [->|]; cbn [orb];
    [|destruct (String.eqb_spec other_type "opt") as [->|]; cbn [orb];
      [|destruct (String.eqb_spec other_type "fix") as [->|]; cbn [orb];
        [|destruct (String.eqb_spec other_type "test") as [->|]; cbn [orb];
          [|destruct (String.eqb_spec other_type "docs") as [->|];
            cbn [orb]]]]]);
  vm_compute; congruence.
Qed.

(** X7. Whatever the title, the body and the labels, the detected type,
    its priority and its type score form one of six rows: feat/P1/10,
    fix/P3/6, opt/P2/8, test/P4/4, docs/P3/5 and other/P3/5. *)
Theorem detect_pr_type_rows (title body : string) (labels : list string) :
  let pr_type := _detect_pr_type title body labels in
  In (pr_type, _priority pr_type, _type_score pr_type)
    [("feat", "P1", 10); ("fix", "P3", 6); ("opt", "P2", 8);
     ("test", "P4", 4); ("docs", "P3", 5); ("other", "P3", 5)].
Proof.
  cbn zeta. unfold _detect_pr_type.
  repeat match goal with
         | |- context [if ?c then _ else _] => destruct c
         end; vm_compute; auto 10.
Qed.

End AssemblyProperties.

Lemma analyze_pull_request_without_answer_witness :
  PyVal.truthy
    (default (PyVal.PDict [])
       (Analyzer.answer_for ∅ AssemblerExample.caching_pr))
  = false
  /\ exists a,
       Analyzer.analyze_pull_request (fun _ => "") ∅
         AssemblerExample.caching_pr = Ok a
       /\ zero_scored a /\ Analyzer.qwen_comment a = "".
Proof.
  split; [reflexivity|].
  apply (analyze_pull_request_without_answer (fun _ => "") ∅
           AssemblerExample.caching_pr).
  reflexivity.
Defined.

Lemma analyze_pull_request_on_placeholder_witness :
  Analyzer.answer_for {[ 7 := Qwen.pr_placeholder Qwen.no_key_message ]}
    AssemblerExample.caching_pr
  = Some (Qwen.pr_placeholder Qwen.no_key_message)
  /\ exists a,
       Analyzer.analyze_pull_request (fun _ => "")
         {[ 7 := Qwen.pr_placeholder Qwen.no_key_message ]}
         AssemblerExample.caching_pr = Ok a
       /\ zero_scored a
       /\ Analyzer.qwen_comment a
          = Conv.take_chars 500 Qwen.no_key_message.
Proof.
  split; [reflexivity|].
  apply (analyze_pull_request_on_placeholder (fun _ => "")
           {[ 7 := Qwen.pr_placeholder Qwen.no_key_message ]}
           AssemblerExample.caching_pr Qwen.no_key_message).
  reflexivity.
Defined.

(** ** A pull request whose user is null *)

Module GhostExample.

Import Analyzer.

Definition ghost_pr : RawPR :=
  {| pr_number := Value 8;
     pr_title := Value "docs: fix typo";
     pr_body := None;
     pr_state := Value "closed";
     pr_labels := [];
     pr_created_at := Value "2024-05-01T12:00:00Z";
     pr_merged_at := None;
     pr_user := Null;
     pr_changed_files := Some 1;
     pr_additions := Some 1;
     pr_deletions := Some 1;
     pr_commits := Some 1 |}.

End GhostExample.

(** The scores of [ghost_pr] raise nothing, and the assembly fails on
    the user. *)
Lemma analyze_pull_request_null_user :
  Analyzer.analyze_pull_request (fun _ => "") ∅ GhostExample.ghost_pr
  = Raise (Exn AttributeError "'NoneType' object has no attribute 'get'").
Proof. vm_compute. reflexivity. Qed.

(** ** A scorer answer within range *)

Module ScoredExample.

Import PyVal.

(** Four of the six dimensions answered, the other two left out. *)
Definition answer : list (string * pyval) :=
  [("code_quality_score", PInt 8);
   ("test_coverage_score", PInt 6);
   ("merge_history_score", PInt 7);
   ("collaboration_score", PInt 10);
   ("comment", PStr "solid change")].

Definition scored : gmap Z pyval := {[ 7 := PDict answer ]}.

End ScoredExample.

Lemma analyze_pull_request_well_scored_witness :
  exists a,
    Analyzer.analyze_pull_request (fun _ => "") ScoredExample.scored
      AssemblerExample.caching_pr = Ok a
    /\ scored_as ScoredExample.answer a.
Proof.
  apply (analyze_pull_request_well_scored (fun _ => "")
           ScoredExample.scored AssemblerExample.caching_pr
           ScoredExample.answer).
  - reflexivity.
  - intros key v Hkey Hlook. unfold dimension_keys in Hkey. simpl in Hkey.
    repeat (destruct Hkey as [<- | Hkey];
            [vm_compute in Hlook;
             solve [discriminate Hlook
                   | injection Hlook as <-; eexists; split;
                     [reflexivity | lia]]|]).
    destruct Hkey.
Defined.

Lemma priority_orders_type_score_witness :
  priority_rank (_priority "feat") < priority_rank (_priority "test")
  /\ _type_score "test" < _type_score "feat".
Proof.
  split; [reflexivity|].
  apply (priority_orders_type_score "feat" "test"). reflexivity.
Defined.

(* ================================================================== *)
(** * The throttle and the reading of the response *)
(* ================================================================== *)

Section ThrottleProperties.

Import PyVal Qwen.

Variable json_parse : string -> result pyval.

(** The timestamps [_throttle] keeps: those less than 60 seconds before
    the clock reading. *)
Definition recent_timestamps (c : QwenClient) (w : world) : list float :=
  List.filter (fun ts => flt (fsub (now w (time_reads w)) ts) (of_Z 60))
    (_request_timestamps c).

(** An operation raises [IndexError] before any call is made. *)
Definition raises_index_error
    (op : QwenClient -> world -> string -> result pyval * QwenClient * world)
    (c : QwenClient) (w : world) (ctx : string) : Prop :=
  exists c' w',
    op c w ctx = (Raise (Exn IndexError "list index out of range"), c', w')
    /\ http_calls w' = http_calls w
    /\ slept w' = slept w.

Lemma throttle_raises (c : QwenClient) (w : world) :
  max_requests_per_minute c <= 0 ->
  recent_timestamps c w = [] ->
  exists c' w',
    _throttle c w
    = (Raise (Exn IndexError "list index out of range"), c', w')
    /\ http_calls w' = http_calls w
    /\ slept w' = slept w.
Proof.
  intros Hmax Hrecent. unfold _throttle. cbn [time_time].
  fold (recent_timestamps c w). rewrite Hrecent.
  cbn [max_requests_per_minute set_timestamps List.length].
  destruct (Z.geb_spec (Z.of_nat 0) (max_requests_per_minute c)) as [_|H];
    [|cbn in H; lia].
  eexists _, _. split; [reflexivity|]. split; reflexivity.
Qed.

Lemma analyze_raises (no_key : pyval) (on_failure : exn -> pyval)
    (c : QwenClient) (w : world) (ctx : string) :
  has_api_key c = true ->
  max_requests_per_minute c <= 0 ->
  recent_timestamps c w = [] ->
  raises_index_error (analyze json_parse no_key on_failure) c w ctx.
Proof.
  intros Hkey Hmax Hrecent. unfold raises_index_error, analyze.
  rewrite Hkey. cbn [negb].
  destruct (throttle_raises c w Hmax Hrecent) as (c' & w' & -> & Hh & Hs).
  eauto.
Qed.

(** X8. With a key but a limit of zero requests per minute or fewer,
    and no request logged in the last 60 seconds, the three operations
    do not degrade: [_throttle] reads the first entry of an empty log,
    outside the [try], and the [IndexError] reaches the caller before
    any call is made. *)
Theorem qwen_operations_raise_without_quota (c : QwenClient) (w : world)
    (ctx : string) :
  has_api_key c = true ->
  max_requests_per_minute c <= 0 ->
  recent_timestamps c w = [] ->
  raises_index_error (analyze_pr json_parse) c w ctx
  /\ raises_index_error (analyze_discussion json_parse) c w ctx
  /\ raises_index_error (analyze_issue_summary json_parse) c w ctx.
Proof.
  intros Hkey Hmax Hrecent.
  repeat split; apply analyze_raises; assumption.
Qed.

(** [n] calls of [_throttle] in a row, up to the first exception. *)
Fixpoint throttles (n : nat) (c : QwenClient) (w : world)
    : result unit * QwenClient * world :=
  match n with
  | O => (Ok tt, c, w)
  | S n' =>
      match _throttle c w with
      | (Ok _, c', w') => throttles n' c' w'
      | raised => raised
      end
  end.

(** Below the limit the throttle returns without sleeping, and the log
    grows by one entry at most. *)
Lemma throttle_below_limit (c : QwenClient) (w : world) :
  Z.of_nat (List.length (_request_timestamps c)) < max_requests_per_minute c ->
  exists c' w',
    _throttle c w = (Ok tt, c', w')
    /\ slept w' = slept w
    /\ max_requests_per_minute c' = max_requests_per_minute c
    /\ (List.length (_request_timestamps c')
        <= S (List.length (_request_timestamps c)))%nat.
Proof.
  intros Hlt. unfold _throttle. cbn [time_time].
  fold (recent_timestamps c w).
  assert (List.length (recent_timestamps c w)
          <= List.length (_request_timestamps c))%nat as Hle.
  { unfold recent_timestamps. apply List.filter_length_le. }
  cbn [max_requests_per_minute set_timestamps].
  destruct (Z.geb_spec (Z.of_nat (List.length (recent_timestamps c w)))
              (max_requests_per_minute c)) as [H|_]; [lia|].
  eexists _, _. split; [reflexivity|].
  cbn [slept max_requests_per_minute _request_timestamps set_timestamps
       time_time].
  split; [reflexivity|]. split; [reflexivity|].
  rewrite List.length_app. cbn [List.length]. lia.
Qed.

(** X9. While the log holds fewer entries than the limit, requests go
    out without waiting: [n] calls of [_throttle] in a row, with
    [n] at most the limit minus the length of the log, all return and
    none calls [time.sleep], whatever the clock reads. *)
Theorem throttle_never_sleeps_below_limit (n : nat) (c : QwenClient)
    (w : world) :
  Z.of_nat (List.length (_request_timestamps c)) + Z.of_nat n
  <= max_requests_per_minute c ->
  exists c' w',
    throttles n c w = (Ok tt, c', w')
    /\ slept w' = slept w
    /\ (List.length (_request_timestamps c')
        <= List.length (_request_timestamps c) + n)%nat.
Proof.
  revert c w. induction n as [|n IH]; intros c w Hle.
  - exists c, w. cbn. split; [reflexivity|]. split; [reflexivity | lia].
  - cbn [throttles].
    destruct (throttle_below_limit c w) as (c1 & w1 & -> & Hs1 & Hm1 & Hl1);
      [lia|].
    destruct (IH c1 w1) as (c' & w' & -> & Hs & Hl); [rewrite Hm1; lia|].
    exists c', w'. split; [reflexivity|].
    split; [congruence | lia].
Qed.

(** X10. A response whose body is a dictionary without "choices", or
    whose first choice has no "message", or whose message has no
    "content", is read as the text [{}]: the result is whatever
    [json.loads] makes of that text.  An empty "choices" list raises
    [IndexError] inside the [try]. *)
Theorem read_response_defaults
    (body choice message : list (string * pyval)) (others : list pyval) :
  (lookup_item body "choices" = None ->
   read_response json_parse (PostReturns None (Ok (PDict body)))
   = json_parse "{}")
  /\ (lookup_item body "choices" = Some (PList (PDict choice :: others)) ->
      lookup_item choice "message" = None ->
      read_response json_parse (PostReturns None (Ok (PDict body)))
      = json_parse "{}")
  /\ (lookup_item body "choices" = Some (PList (PDict choice :: others)) ->
      lookup_item choice "message" = Some (PDict message) ->
      lookup_item message "content" = None ->
      read_response json_parse (PostReturns None (Ok (PDict body)))
      = json_parse "{}")
  /\ (lookup_item body "choices" = Some (PList []) ->
      read_response json_parse (PostReturns None (Ok (PDict body)))
      = Raise (Exn IndexError "list index out of range")).
Proof.
  repeat split.
  - intros H. cbn. rewrite H. reflexivity.
  - intros H1 H2. cbn. rewrite H1. cbn. rewrite H2. reflexivity.
  - intros H1 H2 H3. cbn. rewrite H1. cbn. rewrite H2. cbn. rewrite H3.
    reflexivity.
  - intros H. cbn. rewrite H. reflexivity.
Qed.

(** What an operation returns and how many calls it made. *)
Definition answers
    (op : QwenClient -> world -> string -> result pyval * QwenClient * world)
    (c : QwenClient) (w : world) (ctx : string) (v : pyval) : Prop :=
  exists c' w',
    op c w ctx = (Ok v, c', w') /\ http_calls w' = S (http_calls w).

Lemma analyze_answers (no_key : pyval) (on_failure : exn -> pyval)
    (c : QwenClient) (w : world) (ctx : string) (v : pyval) :
  has_api_key c = true ->
  1 <= max_requests_per_minute c ->
  read_response json_parse (http w (http_calls w) (make_request c ctx))
  = Ok v ->
  answers (analyze json_parse no_key on_failure) c w ctx v.
Proof.
  intros Hkey Hmax Hread.
  destruct (analyze_spec json_parse no_key on_failure c w ctx Hmax)
    as (v' & c' & w' & Heq & _ & Hyes).
  destruct (Hyes Hkey) as [Hcalls ->]. rewrite Hread in Heq.
  exists c', w'. auto.
Qed.

(** X11. With a key and a positive limit, when the call succeeds and
    the content decodes, each operation makes exactly one call and
    returns the decoded value as it is: nothing checks that it is a
    dictionary, that the scores are there or that they lie between 0
    and 10. *)
Theorem qwen_operations_return_decoded (c : QwenClient) (w : world)
    (ctx : string) (v : pyval) :
  has_api_key c = true ->
  1 <= max_requests_per_minute c ->
  read_response json_parse (http w (http_calls w) (make_request c ctx))
  = Ok v ->
  answers (analyze_pr json_parse) c w ctx v
  /\ answers (analyze_discussion json_parse) c w ctx v
  /\ answers (analyze_issue_summary json_parse) c w ctx v.
Proof.
  intros Hkey Hmax Hread.
  repeat split; apply analyze_answers; assumption.
Qed.

End ThrottleProperties.

(** ** A client without quota, and an answer that is not an object *)

Module QuotaExample.

Import PyVal Qwen.

(** A key, and a limit of zero requests per minute. *)
Definition client : QwenClient :=
  {| base_url := "https://dashscope.example/v1";
     api_key := Some "sk-test";
     model := "qwen-plus";
     max_requests_per_minute := 0;
     _request_timestamps := [] |}.

(** The model answers the JSON list [[1]]. *)
Definition body : pyval :=
  PDict [("choices",
          PList [PDict [("message", PDict [("content", PStr "[1]")])]])].

Definition answering : world :=
  {| now := fun _ => of_Z 1000;
     time_reads := O;
     http := fun _ _ => PostReturns None (Ok body);
     http_calls := O;
     slept := [] |}.

Definition decode (s : string) : result pyval :=
  if String.eqb s "[1]" then Ok (PList [PInt 1])
  else Raise (Exn JSONDecodeError "Expecting value: line 1 column 1 (char 0)").

End QuotaExample.

Lemma qwen_operations_raise_without_quota_witness :
  raises_index_error (Qwen.analyze_pr QwenExample.no_json)
    QuotaExample.client QwenExample.offline "a pull request"
  /\ raises_index_error (Qwen.analyze_discussion QwenExample.no_json)
       QuotaExample.client QwenExample.offline "a pull request"
  /\ raises_index_error (Qwen.analyze_issue_summary QwenExample.no_json)
       QuotaExample.client QwenExample.offline "a pull request".
Proof.
  apply (qwen_operations_raise_without_quota QwenExample.no_json
           QuotaExample.client QwenExample.offline "a pull request").
  - reflexivity.
  - vm_compute. discriminate.
  - reflexivity.
Defined.

Lemma throttle_never_sleeps_below_limit_witness :
  exists c' w',
    throttles 3 QwenExample.client QwenExample.offline = (Ok tt, c', w')
    /\ Qwen.slept w' = Qwen.slept QwenExample.offline
    /\ (List.length (Qwen._request_timestamps c')
        <= List.length (Qwen._request_timestamps QwenExample.client) + 3)%nat.
Proof.
  apply (throttle_never_sleeps_below_limit 3 QwenExample.client
           QwenExample.offline).
  vm_compute. discriminate.
Defined.

Lemma qwen_operations_return_decoded_witness :
  answers (Qwen.analyze_pr QuotaExample.decode)
    QwenExample.client QuotaExample.answering "a pull request"
    (PyVal.PList [PyVal.PInt 1])
  /\ answers (Qwen.analyze_discussion QuotaExample.decode)
       QwenExample.client QuotaExample.answering "a pull request"
       (PyVal.PList [PyVal.PInt 1])
  /\ answers (Qwen.analyze_issue_summary QuotaExample.decode)
       QwenExample.client QuotaExample.answering "a pull request"
       (PyVal.PList [PyVal.PInt 1]).
Proof.
  apply (qwen_operations_return_decoded QuotaExample.decode
           QwenExample.client QuotaExample.answering "a pull request"
           (PyVal.PList [PyVal.PInt 1])).
  - reflexivity.
  - vm_compute. discriminate.
  - reflexivity.
Defined.

Section NonObjectAnswer.

Import PyVal Conv Analyzer.

Variable repr : pyval -> string.

(** X12. A scorer answer that counts as true but is not a dictionary (a
    list, a number, a string) stops the assembly: the first [.get] on
    it raises [AttributeError], and no record is produced. *)
Theorem analyze_pull_request_non_object_raises
    (qwen_results : gmap Z pyval) (pr : RawPR) (v : pyval) :
  answer_for qwen_results pr = Some v ->
  truthy v = true ->
  (forall items, v <> PDict items) ->
  analyze_pull_request repr qwen_results pr
  = Raise (Exn AttributeError
             ("'" +:+ type_name v +:+ "' object has no attribute 'get'")).
Proof.
  intros Hfound Htrue Hnot. unfold analyze_pull_request.
  destruct (_size_category_and_score _ _) as [cat s].
  rewrite Hfound.
  change (default (PDict []) (Some v)) with v. rewrite Htrue.
  destruct v; try reflexivity.
  destruct (Hnot items). reflexivity.
Qed.

End NonObjectAnswer.

Lemma analyze_pull_request_non_object_raises_witness :
  Analyzer.analyze_pull_request (fun _ => "")
    {[ 7 := PyVal.PList [PyVal.PInt 1] ]} AssemblerExample.caching_pr
  = Raise (Exn AttributeError "'list' object has no attribute 'get'").
Proof.
  apply (analyze_pull_request_non_object_raises (fun _ => "")
           {[ 7 := PyVal.PList [PyVal.PInt 1] ]} AssemblerExample.caching_pr
           (PyVal.PList [PyVal.PInt 1])).
  - reflexivity.
  - reflexivity.
  - intros items H. discriminate H.
Defined.

(* ================================================================== *)
(** * The keyword classifiers *)
(* ================================================================== *)

Section ClassifierProperties.

Import Conv Analyzer.

Lemma ascii_lower_idempotent (c : ascii) :
  ascii_lower (ascii_lower c) = ascii_lower c.
Proof.
  destruct c as [[] [] [] [] [] [] [] []]; vm_compute; reflexivity.
Qed.

Lemma lower_idempotent (s : string) : lower (lower s) = lower s.
Proof.
  induction s as [|c s IH]; [reflexivity|].
  cbn [lower]. rewrite ascii_lower_idempotent, IH. reflexivity.
Qed.

Lemma lower_app (a b : string) : lower (a +:+ b) = lower a +:+ lower b.
Proof.
  induction a as [|c a IH]; [reflexivity|].
  change (String (ascii_lower c) (lower (a +:+ b))
          = String (ascii_lower c) (lower a +:+ lower b)).
  f_equal. exact IH.
Qed.

Lemma lower_join (sep : string) (l : list string) :
  lower (join sep l) = join (lower sep) (List.map lower l).
Proof.
  induction l as [|x [|y rest] IH]; [reflexivity | reflexivity |].
  change (join sep (x :: y :: rest))
    with (x +:+ sep +:+ join sep (y :: rest)).
  change (join (lower sep) (List.map lower (x :: y :: rest)))
    with (lower x +:+ lower sep
          +:+ join (lower sep) (List.map lower (y :: rest))).
  rewrite !lower_app, IH. reflexivity.
Qed.

(** Lowering the parts first does not change the lowered text. *)
Lemma lower_text (title body : string) :
  lower (lower title +:+ String "010"%char (lower body))
  = lower (title +:+ String "010"%char body).
Proof.
  change (String "010"%char (lower body))
    with (lower (String "010"%char body)).
  rewrite <- lower_app. apply lower_idempotent.
Qed.

Lemma lower_labels (labels : list string) :
  lower (join " " (List.map lower labels)) = lower (join " " labels).
Proof.
  rewrite (lower_join " " (List.map lower labels)), List.map_map.
  rewrite (List.map_ext (fun x => lower (lower x)) lower lower_idempotent).
  symmetry. apply (lower_join " ").
Qed.

(** X13. [_detect_pr_type] does not see the case of ASCII letters:
    lowering the title, the body and the labels gives the same type. *)
Theorem detect_pr_type_ignores_case (title body : string)
    (labels : list string) :
  _detect_pr_type (lower title) (lower body) (List.map lower labels)
  = _detect_pr_type title body labels.
Proof.
  unfold _detect_pr_type. cbn zeta.
  rewrite lower_text, lower_labels. reflexivity.
Qed.

(** X14. [_classify_issue_category] does not see the case of ASCII
    letters either. *)
Theorem classify_issue_category_ignores_case (title body : string)
    (labels : list string) :
  _classify_issue_category (lower title) (lower body)
    (List.map lower labels)
  = _classify_issue_category title body labels.
Proof.
  unfold _classify_issue_category. cbn zeta.
  rewrite lower_text, lower_labels. reflexivity.
Qed.

Lemma starts_with_app_l (a b s : string) :
  starts_with (a +:+ b) s = true -> starts_with a s = true.
Proof.
  revert s. induction a as [|c a IH]; intros s H; [reflexivity|].
  destruct s as [|d s]; cbn in *; [discriminate|].
  apply andb_prop in H as [Hc Hs]. rewrite Hc. cbn. apply IH, Hs.
Qed.

(** A text that contains a word contains each of its prefixes. *)
Lemma contains_app_l (a b s : string) :
  contains (a +:+ b) s = true -> contains a s = true.
Proof.
  induction s as [|d s IH]; intros H.
  - cbn in H. rewrite orb_false_r in H.
    apply starts_with_app_l in H. cbn. rewrite H. reflexivity.
  - cbn [contains] in *. apply orb_prop in H as [H|H].
    + apply starts_with_app_l in H. rewrite H. reflexivity.
    + rewrite (IH H). apply orb_true_r.
Qed.

(** [_detect_pr_type] without the tests for "feature" and
    "optimization". *)
Definition detect_by_short_keywords (title body : string)
    (labels : list string) : string :=
  let text := lower (title +:+ String "010"%char body) in
  let label_text := lower (join " " labels) in
  if contains "feat" text || contains "enhancement" label_text then "feat"
  else if contains "fix" text || contains "bug" label_text then "fix"
  else if contains "refactor" text || contains "opt" text then "opt"
  else if contains "test" label_text || contains "test" text then "test"
  else if contains "doc" label_text || contains "docs" text then "docs"
  else "other".

(** X15. In [_detect_pr_type] the tests for "feature" and for
    "optimization" never decide: a text that contains "feature" contains
    "feat", one that contains "optimization" contains "opt", and these
    are tested in the same condition.  The function equals the cascade
    without the two tests. *)
Theorem detect_pr_type_redundant_keywords (title body : string)
    (labels : list string) :
  _detect_pr_type title body labels
  = detect_by_short_keywords title body labels.
Proof.
  unfold _detect_pr_type, detect_by_short_keywords. cbn zeta.
  set (text := lower _). set (label_text := lower _).
  assert (contains "feat" text || contains "feature" text
          = contains "feat" text) as ->.
  { destruct (contains "feature" text) eqn:E.
    - rewrite (contains_app_l "feat" "ure" text E). reflexivity.
    - apply orb_false_r. }
  assert (contains "refactor" text || contains "opt" text
            || contains "optimization" text
          = contains "refactor" text || contains "opt" text) as ->.
  { destruct (contains "optimization" text) eqn:E.
    - rewrite (contains_app_l "opt" "imization" text E).
      rewrite !orb_true_r. reflexivity.
    - apply orb_false_r. }
  reflexivity.
Qed.

End ClassifierProperties.

(* ================================================================== *)
(** * What [_clean_references] leaves behind *)
(* ================================================================== *)

Section CleanedText.

Import Re.

Variable T : tables.
Hypothesis HT : sane T.

(** X16. The output of [_clean_references] holds no ['#'] immediately
    followed by a digit: no reference of the form [#123] survives,
    whatever stood before it. *)
Theorem clean_references_leaves_no_reference (s : text) :
  has_ref T (_clean_references T s) = false.
Proof. apply clean_references_no_ref, HT. Qed.

(** X17. A text without a ['#'] immediately followed by a digit comes
    back unchanged. *)
Theorem clean_references_keeps_plain_text (s : text) :
  has_ref T s = false -> _clean_references T s = s.
Proof. apply clean_references_no_ref_id, HT. Qed.

(** X18. Of the six patterns only the first two ever rewrite: after
    [(\w+)#(\d+)] and [#(\d+)] no reference is left for the four
    case-insensitive patterns (issue, pr, pull request, discussion), so
    the function equals these two substitutions in a row. *)
Theorem clean_references_two_patterns_suffice (s : text) :
  _clean_references T s
  = re_sub T (fst (bare_ref)) (snd (bare_ref))
      (re_sub T (fst (word_ref)) (snd (word_ref)) s).
Proof. apply clean_references_two_passes, HT. Qed.

End CleanedText.

Lemma clean_references_leaves_no_reference_witness :
  has_ref Re.ascii_tables
    (Re._clean_references Re.ascii_tables
       (Re.text_of "fixes #12, see apache#7 and issue #3"))
  = false.
Proof.
  apply (clean_references_leaves_no_reference Re.ascii_tables
           ascii_tables_sane).
Defined.

Lemma clean_references_keeps_plain_text_witness :
  Re._clean_references Re.ascii_tables (Re.text_of "C# 11 and #hashtag")
  = Re.text_of "C# 11 and #hashtag".
Proof.
  apply (clean_references_keeps_plain_text Re.ascii_tables
           ascii_tables_sane).
  reflexivity.
Defined.

Lemma clean_references_two_patterns_suffice_witness :
  Re._clean_references Re.ascii_tables (Re.text_of "PR #12 closes issue #3")
  = Re.re_sub Re.ascii_tables (fst Re.bare_ref) (snd Re.bare_ref)
      (Re.re_sub Re.ascii_tables (fst Re.word_ref) (snd Re.word_ref)
         (Re.text_of "PR #12 closes issue #3")).
Proof.
  apply (clean_references_two_patterns_suffice Re.ascii_tables
           ascii_tables_sane).
Defined.

(* ================================================================== *)
(** * Order and bounds of the partition; the pull-request filter *)
(* ================================================================== *)

Module PullFilter.

Import Partition.

Section Filter.

Variable fromisoformat : string -> option Z.

(** The loop of main.py over [raw_prs]: a pull request is kept when its
    [created_at] is there, parses and falls in the window; an exception
    inside the [try] skips it. *)
Fixpoint filter_prs (w : window) (raw_prs : list RawRecord)
    : list RawRecord :=
  match raw_prs with
  | [] => []
  | pr :: rest =>
      match truthy_string (created_at pr) with
      | Some pr_created =>
          match parse fromisoformat pr_created with
          | Some pr_date =>
              if in_window w pr_date then pr :: filter_prs w rest
              else filter_prs w rest
          | None => filter_prs w rest
          end
      | None => filter_prs w rest
      end
  end.

End Filter.

End PullFilter.

Section PartitionOrder.

Import Partition PullFilter.

Variable fromisoformat : string -> option Z.
Variable w : window.

Local Abbreviation classify := (classify fromisoformat w).
Local Abbreviation tagged := (retag fromisoformat w).
Local Abbreviation in_b := (in_bucket fromisoformat w).

Lemma retag_tag (b : bucket) (r : RawRecord) :
  classify r = Some b ->
  _created_in_period (tagged r) = Some (bool_decide (b = Created)).
Proof.
  intros Hr. unfold retag, set_tag, is_created.
  cbn [_created_in_period]. rewrite Hr. f_equal.
  destruct b.
  - rewrite !bool_decide_eq_true_2; reflexivity.
  - rewrite !bool_decide_eq_false_2; congruence.
Qed.

(** X19. The output lists the records created in the period first and
    the records only updated in it after them: it splits into a part
    whose tags are all true followed by a part whose tags are all
    false. *)
Theorem partition_created_first (raw : list RawRecord) :
  exists created updated : list RawRecord,
    partition_issues fromisoformat w raw = (created ++ updated)%list
    /\ Forall (fun r => _created_in_period r = Some true) created
    /\ Forall (fun r => _created_in_period r = Some false) updated.
Proof.
  rewrite partition_issues_spec. unfold partition_spec.
  destruct (dedup_buckets fromisoformat w ∅
              (List.filter (in_b Created) raw)
              (List.filter (in_b Updated) raw))
    as (cs & us & -> & Hcs & Hus).
  - apply Forall_forall. intros r Hr.
    apply list_elem_of_In, List.filter_In in Hr as [_ Hr].
    apply bool_decide_eq_true in Hr. exact Hr.
  - apply Forall_forall. intros r Hr.
    apply list_elem_of_In, List.filter_In in Hr as [_ Hr].
    apply bool_decide_eq_true in Hr. exact Hr.
  - exists (tagged <$> cs), (tagged <$> us).
    split; [apply fmap_app|]. split; apply Forall_fmap.
    + apply (Forall_impl _ _ _ Hcs). intros r Hr.
      exact (retag_tag Created r Hr).
    + apply (Forall_impl _ _ _ Hus). intros r Hr.
      exact (retag_tag Updated r Hr).
Qed.

(** X20. The references and the in-place annotation of the source make
    no difference to the result: the partitioner returns the records
    classified as created followed by those classified as updated, the
    first record of each non-zero number kept, each tagged by its own
    classification. *)
Theorem partition_issues_store_free (raw : list RawRecord) :
  partition_issues fromisoformat w raw
  = tagged <$> dedup ∅ (List.filter (in_b Created) raw
                        ++ List.filter (in_b Updated) raw)%list.
Proof. apply partition_issues_spec. Qed.

(** X21. The end of the period belongs to it only for "today": a record
    created exactly at [period_end], never updated since, is kept and
    tagged as created when the period is "today", and dropped for the
    other periods. *)
Theorem partition_end_instant (r : RawRecord) (issue_created : string)
    (n : Z) :
  truthy_string (created_at r) = Some issue_created ->
  parse fromisoformat issue_created = Some (period_end w) ->
  truthy_string (updated_at r) = None ->
  truthy_number (number r) = Some n ->
  period_start w <= period_end w ->
  partition_issues fromisoformat w [r]
  = if today w then [set_tag true r] else [].
Proof.
  intros Hc Hp Hu Hn Hle.
  rewrite partition_issues_spec. unfold partition_spec.
  assert (classify r = if today w then Some Created else None) as Hcl.
  { unfold Partition.classify. rewrite Hc, Hp. cbn [mbind option_bind].
    rewrite Hu. cbn [mbind option_bind]. unfold in_window.
    rewrite Z.eqb_refl. cbn [negb]. rewrite andb_false_r.
    destruct (today w).
    - destruct (Z.leb_spec (period_start w) (period_end w)); [|lia].
      rewrite Z.leb_refl. reflexivity.
    - rewrite Z.ltb_irrefl, andb_false_r. reflexivity. }
  cbn [List.filter]. unfold in_bucket. rewrite Hcl.
  destruct (today w) eqn:Et.
  - rewrite bool_decide_eq_true_2 by reflexivity.
    rewrite bool_decide_eq_false_2 by discriminate.
    cbn [app dedup]. rewrite Hn.
    rewrite bool_decide_eq_false_2 by apply not_elem_of_empty.
    cbn [dedup fmap list_fmap].
    unfold retag, is_created. rewrite Hcl.
    rewrite bool_decide_eq_true_2 by reflexivity. reflexivity.
  - rewrite !bool_decide_eq_false_2 by discriminate. reflexivity.
Qed.

(** A record as the pull-request loop sees it: [updated_at] is never
    read. *)
Definition without_update (r : RawRecord) : RawRecord :=
  {| number := number r;
     created_at := created_at r;
     updated_at := None;
     title := title r;
     _created_in_period := _created_in_period r |}.

Lemma classify_without_update (pr : RawRecord) :
  classify (without_update pr)
  = match truthy_string (created_at pr) with
    | Some pr_created =>
        match parse fromisoformat pr_created with
        | Some pr_date => if in_window w pr_date then Some Created else None
        | None => None
        end
    | None => None
    end.
Proof.
  unfold Partition.classify. cbn [created_at updated_at without_update].
  destruct (truthy_string (created_at pr)) as [s|]; [|reflexivity].
  destruct (parse fromisoformat s) as [t|]; cbn [mbind option_bind];
    [|reflexivity].
  cbn [truthy_string mbind option_bind].
  rewrite Z.eqb_refl. cbn [negb]. rewrite andb_false_r.
  destruct (in_window w t); reflexivity.
Qed.

(** X22. The pull-request filter applies the test of the issue
    partitioner for "created in the period", and nothing else: it keeps,
    in order and with repetitions, the records that the partitioner
    would classify as created if they carried no [updated_at]; it does
    not look at the numbers and attaches no tag. *)
Theorem filter_prs_keeps_created (raw_prs : list RawRecord) :
  filter_prs fromisoformat w raw_prs
  = List.filter
      (fun pr => bool_decide (classify (without_update pr) = Some Created))
      raw_prs.
Proof.
  induction raw_prs as [|pr rest IH]; [reflexivity|].
  cbn [filter_prs List.filter]. rewrite IH, classify_without_update.
  destruct (truthy_string (created_at pr)) as [s|]; [|reflexivity].
  destruct (parse fromisoformat s) as [t|]; [|reflexivity].
  destruct (in_window w t); reflexivity.
Qed.

End PartitionOrder.

Module EndInstantExample.

Import Partition.

(** Created at the midnight that ends the day 2024-05-01. *)
Definition at_midnight : RawRecord :=
  {| number := Some 9; created_at := Some "2024-05-02T00:00:00Z";
     updated_at := None; title := "at the end";
     _created_in_period := None |}.

End EndInstantExample.

Lemma partition_end_instant_witness :
  Partition.partition_issues Iso.fromisoformat PartitionExample.day
    [EndInstantExample.at_midnight]
  = [].
Proof.
  apply (partition_end_instant Iso.fromisoformat PartitionExample.day
           EndInstantExample.at_midnight "2024-05-02T00:00:00Z" 9).
  - reflexivity.
  - vm_compute. reflexivity.
  - reflexivity.
  - reflexivity.
  - vm_compute. discriminate.
Defined.

(* ================================================================== *)
(** * The paginated listing of github_client.py *)
(* ================================================================== *)

Module GitHub.

Section Listing.

(** An issue as the API returns it; the listing only asks whether it
    has the key "pull_request". *)
Variable item : Type.
Variable has_pull_request_key : item -> bool.

(** [_get] on the issues endpoint, as a function of the parameters that
    change: [per_page] and [page].  It returns the decoded list or
    raises. *)
Variable get : Z -> nat -> result (list item).

Definition not_pull_request (i : item) : bool :=
  negb (has_pull_request_key i).

(** The [while] loop of [list_issues].  [fuel] bounds the number of
    iterations; [requests] counts the calls of [_get]. *)
Fixpoint request_pages (fuel : nat) (max_count per_page : Z) (page : nat)
    (all_issues : list item) (requests : nat)
    : option (result (list item) * nat) :=
  if Z.of_nat (List.length all_issues) <? max_count then
    match fuel with
    | O => None
    | S fuel' =>
        match get per_page page with
        | Raise e => Some (Raise e, S requests)
        | Ok [] => Some (Ok all_issues, S requests)
        | Ok issues =>
            let issues := List.filter not_pull_request issues in
            let all_issues :=
              (all_issues
               ++ List.firstn
                    (Z.to_nat (max_count
                               - Z.of_nat (List.length all_issues)))
                    issues)%list in
            if Z.of_nat (List.length issues) <? per_page
            then Some (Ok all_issues, S requests)
            else request_pages fuel' max_count per_page (S page)
                   all_issues (S requests)
        end
    end
  else Some (Ok all_issues, requests).

(** [l[:n]] *)
Definition py_prefix (n : Z) (l : list item) : list item :=
  if 0 <=? n then List.firstn (Z.to_nat n) l
  else List.firstn (List.length l - Z.to_nat (- n)) l.

Definition list_issues (fuel : nat) (max_count : Z)
    : option (result (list item) * nat) :=
  match request_pages fuel max_count (Z.min 100 max_count) 1 [] 0 with
  | Some (Ok all_issues, requests) =>
      Some (Ok (py_prefix max_count all_issues), requests)
  | other => other
  end.

(** [_get] on the pulls endpoint. *)
Variable get_pulls : Z -> nat -> result (list item).

(** The [while] loop of [list_pull_requests]: the same loop, without
    the filter. *)
Fixpoint request_pull_pages (fuel : nat) (max_count per_page : Z)
    (page : nat) (all_prs : list item) (requests : nat)
    : option (result (list item) * nat) :=
  if Z.of_nat (List.length all_prs) <? max_count then
    match fuel with
    | O => None
    | S fuel' =>
        match get_pulls per_page page with
        | Raise e => Some (Raise e, S requests)
        | Ok [] => Some (Ok all_prs, S requests)
        | Ok prs =>
            let all_prs :=
              (all_prs
               ++ List.firstn
                    (Z.to_nat (max_count - Z.of_nat (List.length all_prs)))
                    prs)%list in
            if Z.of_nat (List.length prs) <? per_page
            then Some (Ok all_prs, S requests)
            else request_pull_pages fuel' max_count per_page (S page)
                   all_prs (S requests)
        end
    end
  else Some (Ok all_prs, requests).

Definition list_pull_requests (fuel : nat) (max_count : Z)
    : option (result (list item) * nat) :=
  match request_pull_pages fuel max_count (Z.min 100 max_count) 1 [] 0 with
  | Some (Ok all_prs, requests) =>
      Some (Ok (py_prefix max_count all_prs), requests)
  | other => other
  end.

End Listing.

End GitHub.

Section ListingProperties.

Import GitHub.

Variable item : Type.
Variable has_pull_request_key : item -> bool.
Variable get : Z -> nat -> result (list item).
Variable max_count : Z.

Local Abbreviation per_page := (Z.min 100 max_count).
Local Abbreviation kept := (not_pull_request item has_pull_request_key).

(** The issues of one page, pull requests left out. *)
Definition page_issues (page : nat) : list item :=
  match get per_page page with
  | Ok issues => List.filter kept issues
  | Raise _ => []
  end.

(** The issues of the first [n] pages. *)
Definition pages_issues (n : nat) : list item :=
  List.flat_map page_issues (List.seq 1 n).

Lemma pages_issues_S (n : nat) :
  pages_issues (S n) = (pages_issues n ++ page_issues (S n))%list.
Proof.
  unfold pages_issues. rewrite List.seq_S, List.flat_map_app.
  cbn [List.flat_map Nat.add]. rewrite List.app_nil_r. reflexivity.
Qed.

Lemma firstn_short (n : nat) (l : list item) :
  (List.length (List.firstn n l) < n)%nat -> List.firstn n l = l.
Proof.
  intros H. apply List.firstn_all2.
  rewrite List.length_firstn in H. lia.
Qed.

Lemma In_firstn (n : nat) (l : list item) (x : item) :
  In x (List.firstn n l) -> In x l.
Proof.
  revert l. induction n as [|n IH]; intros [|y l] H; try destruct H.
  - left. assumption.
  - right. apply IH. assumption.
Qed.

(** What the loop owes, from a state reached after [k] requests. *)
Lemma request_pages_spec (fuel k : nat) (all_issues : list item) :
  all_issues = List.firstn (Z.to_nat max_count) (pages_issues k) ->
  Z.min max_count (Z.of_nat k * per_page)
  <= Z.of_nat (List.length all_issues) ->
  (Z.to_nat (max_count - Z.of_nat (List.length all_issues)) <= fuel)%nat ->
  exists r n,
    request_pages item has_pull_request_key get fuel max_count per_page
      (S k) all_issues k = Some (r, n)
    /\ (n = k \/ (Z.of_nat n - 1) * per_page < max_count)
    /\ (forall l, r = Ok l ->
          l = List.firstn (Z.to_nat max_count) (pages_issues n)).
Proof.
  revert k all_issues.
  induction fuel as [|fuel IH]; intros k all_issues Hall Hprog Hfuel.
  - cbn [request_pages].
    destruct (Z.ltb_spec (Z.of_nat (List.length all_issues)) max_count);
      [lia|].
    exists (Ok all_issues), k. split; [reflexivity|].
    split; [auto|]. intros l [= <-]. exact Hall.
  - cbn [request_pages].
    destruct (Z.ltb_spec (Z.of_nat (List.length all_issues)) max_count)
      as [Hlt|Hge].
    2:{ exists (Ok all_issues), k. split; [reflexivity|].
        split; [auto|]. intros l [= <-]. exact Hall. }
    assert ((Z.of_nat (S k) - 1) * per_page < max_count) as Hreq by lia.
    assert (all_issues = pages_issues k) as Hwhole.
    { rewrite Hall. apply firstn_short. rewrite <- Hall. lia. }
    pose proof (pages_issues_S k) as HS. unfold page_issues at 1 in HS.
    destruct (get per_page (S k)) as [issues|e] eqn:Eget.
    2:{ exists (Raise e), (S k). split; [reflexivity|].
        split; [auto|]. intros l [=]. }
    destruct issues as [|i issues].
    { exists (Ok all_issues), (S k). split; [reflexivity|].
      split; [auto|]. intros l [= <-].
      rewrite HS. cbn [List.filter]. rewrite List.app_nil_r. exact Hall. }
    set (filtered := List.filter kept (i :: issues)) in *.
    set (all' := (all_issues ++ List.firstn _ filtered)%list).
    assert (all' = List.firstn (Z.to_nat max_count) (pages_issues (S k)))
      as Hall'.
    { rewrite HS, List.firstn_app, <- Hwhole.
      rewrite List.firstn_all2 by lia.
      unfold all'. do 2 f_equal. lia. }
    destruct (Z.ltb_spec (Z.of_nat (List.length filtered)) per_page)
      as [Hshort|Hfull].
    { exists (Ok all'), (S k). split; [reflexivity|].
      split; [auto|]. intros l [= <-]. exact Hall'. }
    assert (Z.of_nat (List.length all')
            = Z.min max_count
                (Z.of_nat (List.length all_issues)
                 + Z.of_nat (List.length filtered))) as Hlen.
    { unfold all'. rewrite List.length_app, List.length_firstn. lia. }
    destruct (IH (S k) all' Hall') as (r & n & Hr & Hn & Hl).
    + rewrite Hlen. lia.
    + rewrite Hlen. lia.
    + exists r, n. split; [exact Hr|]. split; [|exact Hl].
      destruct Hn as [-> | Hn]; auto.
Qed.

(** What [list_issues] owes with enough fuel. *)
Lemma list_issues_spec (fuel : nat) :
  (Z.to_nat max_count <= fuel)%nat ->
  exists r n,
    list_issues item has_pull_request_key get fuel max_count = Some (r, n)
    /\ (n = O \/ (Z.of_nat n - 1) * per_page < max_count)
    /\ (forall l, r = Ok l ->
          l = List.firstn (Z.to_nat max_count) (pages_issues n)).
Proof.
  intros Hfuel. unfold list_issues.
  destruct (request_pages_spec fuel 0 []) as (r & n & -> & Hn & Hl).
  - unfold pages_issues. cbn. rewrite List.firstn_nil. reflexivity.
  - cbn. lia.
  - cbn [List.length]. lia.
  - destruct r as [all_issues|e].
    + exists (Ok (py_prefix item max_count all_issues)), n.
      split; [reflexivity|]. split; [exact Hn|].
      intros l [= <-]. rewrite (Hl all_issues eq_refl).
      unfold py_prefix. destruct (Z.leb_spec 0 max_count).
      * rewrite List.firstn_firstn, Nat.min_id. reflexivity.
      * replace (Z.to_nat max_count) with O by lia. reflexivity.
    + exists (Raise e), n. split; [reflexivity|]. split; [exact Hn|].
      intros l [=].
Qed.

(** X23. [list_issues] terminates: with [max_count] iterations allowed
    the loop always ends, by a return or by the exception of a request,
    whatever the server answers; and it makes [n] requests only when
    the [n - 1] pages before cannot fill the quota, that is
    [(n - 1) * per_page < max_count] (at most 3 requests for the
    default 300). *)
Theorem list_issues_terminates (fuel : nat) :
  (Z.to_nat max_count <= fuel)%nat ->
  exists r n,
    list_issues item has_pull_request_key get fuel max_count = Some (r, n)
    /\ (n = O \/ (Z.of_nat n - 1) * per_page < max_count).
Proof.
  intros Hfuel.
  destruct (list_issues_spec fuel Hfuel) as (r & n & Hr & Hn & _).
  eauto.
Qed.

(** X24. When [list_issues] returns a list after [n] requests, the list
    is the issues of the first [n] pages in order, pull requests left
    out, cut at [max_count]: it holds no pull request and at most
    [max_count] entries. *)
Theorem list_issues_result (fuel n : nat) (l : list item) :
  (Z.to_nat max_count <= fuel)%nat ->
  list_issues item has_pull_request_key get fuel max_count
  = Some (Ok l, n) ->
  l = List.firstn (Z.to_nat max_count) (pages_issues n)
  /\ Z.of_nat (List.length l) <= Z.max 0 max_count
  /\ Forall (fun i => has_pull_request_key i = false) l.
Proof.
  intros Hfuel Hlist.
  destruct (list_issues_spec fuel Hfuel) as (r & n' & Hr & _ & Hl).
  rewrite Hlist in Hr. injection Hr as <- <-.
  specialize (Hl l eq_refl). split; [exact Hl|]. split.
  - rewrite Hl, List.length_firstn. lia.
  - rewrite Hl. apply Forall_forall. intros i Hi.
    apply list_elem_of_In, In_firstn in Hi.
    unfold pages_issues in Hi. apply List.in_flat_map in Hi as (p & _ & Hi).
    unfold page_issues in Hi.
    destruct (get per_page p) as [issues|e]; [|destruct Hi].
    apply List.filter_In in Hi as [_ Hi].
    unfold not_pull_request in Hi. apply negb_true_iff in Hi. exact Hi.
Qed.

(** X25. The test that ends the pagination counts the issues left after
    the pull requests are filtered out.  So when the first page is not
    empty, holds no more than [per_page] entries and at least one of
    them is a pull request, [list_issues] makes one request and returns
    the issues of that page only: the following pages are never read. *)
Theorem list_issues_stops_at_pull_request (fuel : nat)
    (issues : list item) (i : item) :
  1 <= max_count ->
  get per_page 1%nat = Ok issues ->
  Z.of_nat (List.length issues) <= per_page ->
  In i issues -> has_pull_request_key i = true ->
  list_issues item has_pull_request_key get (S fuel) max_count
  = Some (Ok (List.firstn (Z.to_nat max_count) (List.filter kept issues)),
          1%nat).
Proof.
  intros Hmax Hget Hlen Hin Hpr.
  unfold list_issues. cbn [request_pages List.length].
  destruct (Z.ltb_spec (Z.of_nat 0) max_count) as [_|H]; [|cbn in H; lia].
  rewrite Hget.
  destruct issues as [|i0 issues0] eqn:Eissues; [destruct Hin|].
  rewrite <- Eissues in *.
  set (filtered := List.filter kept issues).
  assert (List.length filtered < List.length issues)%nat as Hless.
  { unfold filtered. clear - Hin Hpr.
    induction issues as [|x xs IH]; [destruct Hin|].
    cbn [List.filter List.length].
    pose proof (List.filter_length_le kept xs) as Hle.
    destruct Hin as [-> | Hin].
    - unfold not_pull_request at 1. rewrite Hpr. cbn [negb]. lia.
    - specialize (IH Hin). destruct (kept x); cbn [List.length]; lia. }
  destruct (Z.ltb_spec (Z.of_nat (List.length filtered)) per_page)
    as [_|H]; [|lia].
  cbn [app]. unfold py_prefix.
  destruct (Z.leb_spec 0 max_count); [|lia].
  rewrite List.firstn_firstn.
  replace (Nat.min (Z.to_nat max_count)
             (Z.to_nat (max_count - Z.of_nat 0)))
    with (Z.to_nat max_count) by (cbn [Z.of_nat]; lia).
  reflexivity.
Qed.

End ListingProperties.

Section PullListingProperties.

Import GitHub.

Variable item : Type.
Variable get_pulls : Z -> nat -> result (list item).
Variable max_count : Z.

Local Abbreviation per_page := (Z.min 100 max_count).

(** The pull requests of one page. *)
Definition page_pulls (page : nat) : list item :=
  match get_pulls per_page page with
  | Ok prs => prs
  | Raise _ => []
  end.

Lemma filter_keeps_all (l : list item) :
  List.filter (not_pull_request item (fun _ => false)) l = l.
Proof.
  induction l as [|x l IH]; [reflexivity|].
  cbn [List.filter not_pull_request negb]. rewrite IH. reflexivity.
Qed.

(** The loop over the pull requests is the loop over the issues with a
    filter that keeps everything. *)
Lemma request_pull_pages_unfiltered (fuel : nat) (page : nat)
    (all_prs : list item) (requests : nat) :
  request_pull_pages item get_pulls fuel max_count per_page page all_prs
    requests
  = request_pages item (fun _ => false) get_pulls fuel max_count per_page
      page all_prs requests.
Proof.
  revert page all_prs requests.
  induction fuel as [|fuel IH]; intros page all_prs requests;
    [reflexivity|].
  cbn [request_pull_pages request_pages].
  destruct (_ <? max_count); [|reflexivity].
  destruct (get_pulls per_page page) as [[|pr prs]|e]; try reflexivity.
  rewrite (filter_keeps_all (pr :: prs)).
  destruct (_ <? per_page); [reflexivity|]. apply IH.
Qed.

Lemma pages_issues_unfiltered (n : nat) :
  pages_issues item (fun _ => false) get_pulls max_count n
  = List.flat_map page_pulls (List.seq 1 n).
Proof.
  unfold pages_issues. apply List.flat_map_ext. intros p.
  unfold page_issues, page_pulls.
  destruct (get_pulls per_page p); [apply filter_keeps_all | reflexivity].
Qed.

(** X26. [list_pull_requests] terminates too: with [max_count]
    iterations allowed it ends by a return or by the exception of a
    request, after [n] requests with [(n - 1) * per_page < max_count];
    a list it returns is the first [max_count] entries of the first [n]
    pages put end to end. *)
Theorem list_pull_requests_result (fuel : nat) :
  (Z.to_nat max_count <= fuel)%nat ->
  exists r n,
    list_pull_requests item get_pulls fuel max_count = Some (r, n)
    /\ (n = O \/ (Z.of_nat n - 1) * per_page < max_count)
    /\ (forall l, r = Ok l ->
          l = List.firstn (Z.to_nat max_count)
                (List.flat_map page_pulls (List.seq 1 n))).
Proof.
  intros Hfuel.
  destruct (list_issues_spec item (fun _ => false) get_pulls max_count
              fuel Hfuel) as (r & n & Hr & Hn & Hl).
  exists r, n. split; [|split; [exact Hn|]].
  - unfold list_pull_requests. rewrite request_pull_pages_unfiltered.
    exact Hr.
  - intros l Hrl. rewrite (Hl l Hrl). f_equal.
    apply pages_issues_unfiltered.
Qed.

End PullListingProperties.

(** ** A first page that holds a pull request *)

Module ListingExample.

(** An entry: its number, and whether it has the key "pull_request". *)
Definition entry : Type := Z * bool.

(** Two entries per page: issue 1 and pull request 2 on the first page,
    issue 3 on the second. *)
Definition get (per_page : Z) (page : nat) : result (list entry) :=
  match page with
  | 1%nat => Ok [(1, false); (2, true)]
  | 2%nat => Ok [(3, false)]
  | _ => Ok []
  end.

End ListingExample.

Lemma list_issues_terminates_witness :
  exists r n,
    GitHub.list_issues ListingExample.entry snd ListingExample.get 2%nat 2
    = Some (r, n)
    /\ (n = O \/ (Z.of_nat n - 1) * Z.min 100 2 < 2).
Proof.
  apply (list_issues_terminates ListingExample.entry snd
           ListingExample.get 2 2%nat).
  vm_compute. lia.
Defined.

Lemma list_issues_result_witness :
  [(1, false)]
  = List.firstn (Z.to_nat 2)
      (pages_issues ListingExample.entry snd ListingExample.get 2 1)
  /\ Z.of_nat (List.length [(1, false)]) <= Z.max 0 2
  /\ Forall (fun i : ListingExample.entry => snd i = false) [(1, false)].
Proof.
  apply (list_issues_result ListingExample.entry snd ListingExample.get 2
           2%nat 1%nat [(1, false)]).
  - vm_compute. lia.
  - reflexivity.
Defined.

Lemma list_issues_stops_at_pull_request_witness :
  GitHub.list_issues ListingExample.entry snd ListingExample.get 2%nat 2
  = Some (Ok [(1, false)], 1%nat).
Proof.
  apply (list_issues_stops_at_pull_request ListingExample.entry snd
           ListingExample.get 2 1%nat [(1, false); (2, true)] (2, true)).
  - lia.
  - reflexivity.
  - vm_compute. discriminate.
  - right. left. reflexivity.
  - reflexivity.
Defined.

Lemma list_pull_requests_result_witness :
  exists r n,
    GitHub.list_pull_requests ListingExample.entry ListingExample.get
      2%nat 2
    = Some (r, n)
    /\ (n = O \/ (Z.of_nat n - 1) * Z.min 100 2 < 2)
    /\ (forall l, r = Ok l ->
          l = List.firstn (Z.to_nat 2)
                (List.flat_map
                   (page_pulls ListingExample.entry ListingExample.get 2)
                   (List.seq 1 n))).
Proof.
  apply (list_pull_requests_result ListingExample.entry ListingExample.get
           2 2%nat).
  vm_compute. lia.
Defined.

(* ================================================================== *)
(** * Tokens and the construction of the Qwen client *)
(* ================================================================== *)

Module Config.

Import Conv.

Fixpoint last_char (s : string) : option ascii :=
  match s with
  | EmptyString => None
  | String c EmptyString => Some c
  | String _ s' => last_char s'
  end.

(** [s[:-1]] *)
Fixpoint drop_last (s : string) : string :=
  match s with
  | EmptyString => EmptyString
  | String _ EmptyString => EmptyString
  | String c s' => String c (drop_last s')
  end.

(** [s[2:-1]] *)
Definition inner (s : string) : string :=
  drop_last (match s with
             | String _ (String _ s') => s'
             | _ => EmptyString
             end).

(** [s.endswith("}")] *)
Definition ends_with_brace (s : string) : bool :=
  match last_char s with
  | Some c => Ascii.eqb c "}"
  | None => false
  end.

(** [s.rstrip("/")] *)
Fixpoint rstrip_slash (s : string) : string :=
  match s with
  | EmptyString => EmptyString
  | String c s' =>
      match rstrip_slash s' with
      | EmptyString => if Ascii.eqb c "/" then EmptyString
                       else String c EmptyString
      | kept => String c kept
      end
  end.

Section Environment.

(** [os.getenv(name)]: [None] when the variable is not set. *)
Variable getenv : string -> option string.

(** [_resolve_token]; a token that is null in the configuration is
    [None]. *)
Definition _resolve_token (token_value : option string) : string :=
  match token_value with
  | None | Some EmptyString => default "" (getenv "GH_TOKEN")
  | Some token_value =>
      if starts_with "${" token_value && ends_with_brace token_value
      then default "" (getenv (inner token_value))
      else token_value
  end.

(** [QwenClient.__init__] *)
Definition init (base_url : string) (api_key : option string)
    (model : string) (max_requests_per_minute : Z) : Qwen.QwenClient :=
  {| Qwen.base_url := rstrip_slash base_url;
     Qwen.api_key :=
       match api_key with
       | None | Some EmptyString => getenv "QWEN_API_KEY"
       | given => given
       end;
     Qwen.model := model;
     Qwen.max_requests_per_minute := max_requests_per_minute;
     Qwen._request_timestamps := [] |}.

End Environment.

End Config.

Section ConfigProperties.

Import Conv Config.

Variable getenv : string -> option string.

Lemma last_char_app (a : string) (c : ascii) :
  last_char (a +:+ String c EmptyString) = Some c.
Proof.
  induction a as [|x a IH]; [reflexivity|].
  change (String x a +:+ String c EmptyString)
    with (String x (a +:+ String c EmptyString)).
  cbn [last_char]. rewrite IH.
  destruct (a +:+ String c EmptyString) eqn:E; [|reflexivity].
  destruct a; discriminate E.
Qed.

Lemma drop_last_app (a : string) (c : ascii) :
  drop_last (a +:+ String c EmptyString) = a.
Proof.
  induction a as [|x a IH]; [reflexivity|].
  change (String x a +:+ String c EmptyString)
    with (String x (a +:+ String c EmptyString)).
  cbn [drop_last]. rewrite IH.
  destruct (a +:+ String c EmptyString) eqn:E; [|reflexivity].
  destruct a; discriminate E.
Qed.

(** X27. A token written [${NAME}] resolves to the value of the
    environment variable NAME, whatever the name, and to the empty
    string when the variable is not set; an empty or null token resolves
    to GH_TOKEN in the same way; a token that does not start with [${]
    is returned as it is. *)
Theorem resolve_token_cases (name token_value : string) :
  _resolve_token getenv (Some ("${" +:+ name +:+ "}"))
  = default "" (getenv name)
  /\ _resolve_token getenv None = default "" (getenv "GH_TOKEN")
  /\ _resolve_token getenv (Some "") = default "" (getenv "GH_TOKEN")
  /\ (token_value <> "" -> starts_with "${" token_value = false ->
      _resolve_token getenv (Some token_value) = token_value).
Proof.
  repeat split.
  - unfold _resolve_token.
    change ("${" +:+ name +:+ "}")
      with (String "$" (String "{" (name +:+ "}"))).
    cbn [starts_with Ascii.eqb Bool.eqb andb].
    unfold ends_with_brace, inner.
    change (String "$" (String "{" (name +:+ "}")))
      with (("${" +:+ name) +:+ String "}" EmptyString) at 1.
    rewrite last_char_app. cbn [Ascii.eqb Bool.eqb andb].
    rewrite (drop_last_app name "}"). reflexivity.
  - intros Hne Hstart. unfold _resolve_token.
    destruct token_value as [|c s]; [contradiction|].
    rewrite Hstart. reflexivity.
Qed.

Lemma rstrip_slash_last (s : string) :
  last_char (rstrip_slash s) <> Some "/"%char.
Proof.
  induction s as [|c s IH]; [discriminate|].
  cbn [rstrip_slash].
  destruct (rstrip_slash s) as [|d kept] eqn:E.
  - destruct (Ascii.eqb_spec c "/") as [->|Hc]; [discriminate|].
    cbn. congruence.
  - exact IH.
Qed.

(** A run of [n] slashes. *)
Fixpoint slashes (n : nat) : string :=
  match n with
  | O => EmptyString
  | S n' => String "/" (slashes n')
  end.

Lemma rstrip_slash_split (s : string) :
  exists n, s = rstrip_slash s +:+ slashes n.
Proof.
  induction s as [|c s [n IH]]; [exists O; reflexivity|].
  cbn [rstrip_slash].
  destruct (rstrip_slash s) as [|d kept] eqn:E.
  - change (s = slashes n) in IH. subst s.
    destruct (Ascii.eqb_spec c "/") as [->|Hc].
    + exists (S n). reflexivity.
    + exists n. reflexivity.
  - exists n. rewrite IH at 1. reflexivity.
Qed.

(** X28. The base address of a client just constructed is the address
    given without its trailing slashes, all of them and nothing else:
    it does not end with a slash, and the address given is the base
    address followed by slashes only.  The address of a request is
    therefore joined to [/chat/completions] by exactly one slash. *)
Theorem init_strips_trailing_slashes (base_url model : string)
    (api_key : option string) (max_requests_per_minute : Z)
    (ctx : string) :
  let c := init getenv base_url api_key model max_requests_per_minute in
  last_char (Qwen.base_url c) <> Some "/"%char
  /\ (exists n, base_url = Qwen.base_url c +:+ slashes n)
  /\ Qwen.url (Qwen.make_request c ctx)
     = Qwen.base_url c +:+ "/chat/completions".
Proof.
  cbn zeta. split; [apply rstrip_slash_last|].
  split; [apply rstrip_slash_split | reflexivity].
Qed.

End ConfigProperties.

(* ================================================================== *)
(** * The summary of an issue (analyze_issues) *)
(* ================================================================== *)

Module IssueAnalyzer.

Import PyVal Conv Qwen.

(** A field of a raw issue: the key is absent, or it holds null or a
    string. *)
Inductive field := Absent | Null | Text (s : string).

(** [issue.get(key, '')] inside an f-string. *)
Definition formatted (f : field) : string :=
  match f with
  | Absent => ""
  | Null => "None"
  | Text s => s
  end.

(** [issue.get('body', '')[:800]] *)
Definition body_start (f : field) : result string :=
  match f with
  | Absent => Ok ""
  | Null => Raise (Exn TypeError "'NoneType' object is not subscriptable")
  | Text s => Ok (take_chars 800 s)
  end.

Definition issue_context (title body : field) : result string :=
  b ← body_start body;
  Ok ("标题: " +:+ formatted title +:+ String "010"%char ("内容: " +:+ b)).

Definition failure_prefix : string := "调用 Qwen 失败".

(** [ai_result.get("summary", "") or ai_result.get("comment", "")] *)
Definition answered_summary (ai_result : pyval) : result pyval :=
  summary ← py_get ai_result "summary" (PStr "");
  if truthy summary then Ok summary
  else py_get ai_result "comment" (PStr "").

Section Summary.

Variable json_parse : string -> result pyval.

(** Is [s.strip()] empty?  White space is what the Python runtime takes
    it to be. *)
Variable blank : string -> bool.

(** The test on [ai_summary] and the slice: the summary to use instead
    of the heuristic one, if any. *)
Definition accepted (ai_summary : pyval) : result (option string) :=
  if truthy ai_summary then
    match ai_summary with
    | PStr s =>
        Ok (if negb (blank s) && negb (starts_with failure_prefix s)
            then Some (take_chars 200 s)
            else None)
    | other =>
        Raise (Exn AttributeError
                 ("'" +:+ type_name other
                  +:+ "' object has no attribute 'strip'"))
    end
  else Ok None.

(** The choice of the summary in the loop of [analyze_issues], given
    the heuristic summary [raw_summary]: every exception inside the
    [try] leaves the heuristic summary in place. *)
Definition choose_summary (c : QwenClient) (w : world)
    (title body : field) (raw_summary : string)
    : string * QwenClient * world :=
  if has_api_key c then
    match issue_context title body with
    | Raise _ => (raw_summary, c, w)
    | Ok context =>
        let '(outcome, c, w) := analyze_issue_summary json_parse c w context in
        (try_except
           (ai_result ← outcome;
            ai_summary ← answered_summary ai_result;
            chosen ← accepted ai_summary;
            Ok (default raw_summary chosen))
           (fun _ => raw_summary),
         c, w)
    end
  else (raw_summary, c, w).

End Summary.

End IssueAnalyzer.

Section IssueSummaryProperties.

Import PyVal Conv Qwen IssueAnalyzer.

Variable json_parse : string -> result pyval.
Variable blank : string -> bool.

(** The throttle touches the clock and the log only. *)
Lemma throttle_frame (c : QwenClient) (w : world) :
  let '(_, c', w') := _throttle c w in
  base_url c' = base_url c /\ api_key c' = api_key c
  /\ model c' = model c
  /\ http w' = http w /\ http_calls w' = http_calls w.
Proof.
  unfold _throttle. cbn [time_time].
  set (ts := List.filter _ (_request_timestamps c)).
  cbn [max_requests_per_minute set_timestamps].
  destruct (Z.of_nat (List.length ts) >=? max_requests_per_minute c).
  - destruct ts as [|first ts']; [cbn; auto 10|].
    destruct (fgt _ (of_Z 0)); cbn; auto 10.
  - cbn; auto 10.
Qed.

(** X29. [analyze_issues] never shows a failure of the model in a
    summary.  Without a key, or when the call fails (whatever the limit
    of requests: an exception of the throttle is caught here), the
    summary of an issue is the heuristic one. *)
Theorem issue_summary_falls_back (c : QwenClient) (w : world)
    (title body : field) (raw_summary : string) :
  (has_api_key c = true ->
   forall context,
     raises (read_response json_parse
               (http w (http_calls w) (make_request c context)))) ->
  fst (fst (choose_summary json_parse blank c w title body raw_summary))
  = raw_summary.
Proof.
  intros Hfail. unfold choose_summary.
  destruct (has_api_key c) eqn:Hkey; [|reflexivity].
  destruct (issue_context title body) as [context|e]; [|reflexivity].
  specialize (Hfail eq_refl context).
  unfold analyze_issue_summary, analyze. rewrite Hkey. cbn [negb].
  pose proof (throttle_frame c w) as Hframe.
  destruct (_throttle c w) as [[[u|e] c'] w'].
  - destruct Hframe as (Hb & Hk & Hm & Hh & Hn).
    cbn [requests_post fst].
    replace (make_request c' context) with (make_request c context)
      by (unfold make_request; rewrite Hb, Hk, Hm; reflexivity).
    rewrite Hh, Hn.
    destruct (read_response json_parse _) as [v|e]; [destruct Hfail|].
    reflexivity.
  - reflexivity.
Qed.

End IssueSummaryProperties.

Lemma issue_summary_falls_back_witness :
  fst (fst (IssueAnalyzer.choose_summary QwenExample.no_json
              (fun s => String.eqb s "") QwenExample.client
              QwenExample.offline (IssueAnalyzer.Text "Crash on start")
              (IssueAnalyzer.Text "It crashes.") "Crash on start"))
  = "Crash on start".
Proof.
  apply (issue_summary_falls_back QwenExample.no_json
           (fun s => String.eqb s "") QwenExample.client
           QwenExample.offline).
  intros _ context. exact I.
Defined.
